(** * Rent payment reconciliation: a shallow embedding of the payment routes

    The development embeds the request handlers of [routes/payments.js],
    the bank webhook of [routes/houses.js], the STK push and its callback
    of the M-Pesa router and the M-Pesa service
    ([services/mpesaService.js]), and proves properties of the ledger calculation, the
    carry-forward of deficits, the duplicate guards, the overdue sweep and
    the monthly rent generation.

    Conventions of the embedding:
    - JavaScript numbers that hold money are exact rationals ([Q]); [NaN]
      is [None] in [jsnum];
    - a [Date] is its time value in milliseconds ([Z]); the calendar
      accessors are those of a server running in UTC;
    - a MongoDB collection is the list of its documents in creation order,
      so [findOne(q)] is the first match and
      [findOne(q).sort({createdAt: -1})] the last one;
    - a document attribute that was never given a value is [None]. *)

From Stdlib Require Import ZArith QArith Qminmax Qround List String Ascii Bool Lia.
From Stdlib Require Import DecimalString.
From Stdlib Require DecimalPos.
Import ListNotations.

(** ** JavaScript primitives used by the handlers *)

Module Js.

Local Open Scope string_scope.
Local Open Scope Z_scope.

(** [String(n)] for an integer. *)
Definition String_of_Z (z : Z) : string :=
  NilZero.string_of_int (Z.to_int z).

Fixpoint repeat_char (c : ascii) (n : nat) : string :=
  match n with
  | O => EmptyString
  | S k => String c (repeat_char c k)
  end.

(** [s.padStart(len, c)] for a one-character filler. *)
Definition padStart (len : nat) (c : ascii) (s : string) : string :=
  repeat_char c (len - String.length s) ++ s.

Definition is_space (c : ascii) : bool :=
  match nat_of_ascii c with
  | 9%nat | 10%nat | 11%nat | 12%nat | 13%nat | 32%nat => true
  | _ => false
  end.

Fixpoint trimStart (s : string) : string :=
  match s with
  | String c r => if is_space c then trimStart r else s
  | EmptyString => EmptyString
  end.

Fixpoint rev_string (s acc : string) : string :=
  match s with
  | EmptyString => acc
  | String c r => rev_string r (String c acc)
  end.

(** [s.trim()] on ASCII white space. *)
Definition trim (s : string) : string :=
  rev_string (trimStart (rev_string (trimStart s) "")) "".

Definition digit_val (radix : Z) (c : ascii) : option Z :=
  let n := Z.of_nat (nat_of_ascii c) in
  let v := if (48 <=? n) && (n <=? 57) then Some (n - 48)
           else if (97 <=? n) && (n <=? 122) then Some (n - 87)
           else if (65 <=? n) && (n <=? 90) then Some (n - 55)
           else None in
  match v with
  | Some d => if d <? radix then Some d else None
  | None => None
  end.

(** The longest prefix of digits in [radix], folded into a number;
    [None] when there is no digit. *)
Fixpoint digits_prefix (radix : Z) (s : string) (acc : option Z) : option Z :=
  match s with
  | String c r =>
      match digit_val radix c with
      | Some d =>
          digits_prefix radix r
            (Some (match acc with Some a => a * radix + d | None => d end))
      | None => acc
      end
  | EmptyString => acc
  end.

Definition strip_hex_prefix (s : string) : option string :=
  match s with
  | String "0" (String "x" r) => Some r
  | String "0" (String "X" r) => Some r
  | _ => None
  end.

(** [parseInt(s)] with no radix argument: leading white space, an
    optional sign, an optional [0x] prefix, then digits.  [None] is
    [NaN]. *)
Definition parseInt (s : string) : option Z :=
  let s1 := trimStart s in
  let '(neg, s2) :=
    match s1 with
    | String "-" r => (true, r)
    | String "+" r => (false, r)
    | _ => (false, s1)
    end in
  let mag :=
    match strip_hex_prefix s2 with
    | Some r => digits_prefix 16 r None
    | None => digits_prefix 10 s2 None
    end in
  match mag with
  | Some m => Some (if neg then - m else m)
  | None => None
  end.

(** [String(x)] of a number that may be [NaN]. *)
Definition String_of_num (x : option Z) : string :=
  match x with
  | Some z => String_of_Z z
  | None => "NaN"
  end.

(** A non-empty string is truthy. *)
Definition truthy_string (s : string) : bool :=
  negb (String.eqb s "").

Definition truthy_opt_string (s : option string) : bool :=
  match s with
  | Some x => truthy_string x
  | None => false
  end.

(** [a || b] on optional strings. *)
Definition or_string (a b : option string) : option string :=
  if truthy_opt_string a then a else b.

(** *** Dates: milliseconds since the epoch, UTC calendar *)

Definition ms_per_day : Z := 86400000.

(** Days since 1970-01-01 of the civil date [y]-[m]-[d] ([m] in 1..12). *)
Definition days_from_civil (y m d : Z) : Z :=
  let y' := if m <=? 2 then y - 1 else y in
  let era := y' / 400 in
  let yoe := y' - era * 400 in
  let mp := if m >? 2 then m - 3 else m + 9 in
  let doy := (153 * mp + 2) / 5 + d - 1 in
  let doe := yoe * 365 + yoe / 4 - yoe / 100 + doy in
  era * 146097 + doe - 719468.

(** The civil date (year, month 1..12, day) of a day count. *)
Definition civil_from_days (z : Z) : Z * Z * Z :=
  let z' := z + 719468 in
  let era := z' / 146097 in
  let doe := z' - era * 146097 in
  let yoe := (doe - doe / 1460 + doe / 36524 - doe / 146096) / 365 in
  let y := yoe + era * 400 in
  let doy := doe - (365 * yoe + yoe / 4 - yoe / 100) in
  let mp := (5 * doy + 2) / 153 in
  let d := doy - (153 * mp + 2) / 5 + 1 in
  let m := if mp <? 10 then mp + 3 else mp - 9 in
  ((if m <=? 2 then y + 1 else y), m, d).

(** [new Date(year, monthIndex, day)]: the month index may overflow and
    is normalised; years 0..99 denote 1900..1999; a [NaN] month gives an
    invalid date ([None]). *)
Definition Date_ymd (year : Z) (monthIndex : option Z) (day : Z) : option Z :=
  match monthIndex with
  | None => None
  | Some mi =>
      let y0 := if (0 <=? year) && (year <=? 99) then 1900 + year else year in
      let y := y0 + mi / 12 in
      let m := mi mod 12 + 1 in
      Some ((days_from_civil y m 1 + (day - 1)) * ms_per_day)
  end.

Definition getFullYear (t : Z) : Z :=
  let '(y, _, _) := civil_from_days (t / ms_per_day) in y.

(** [getMonth()] is zero-based. *)
Definition getMonth (t : Z) : Z :=
  let '(_, m, _) := civil_from_days (t / ms_per_day) in m - 1.

(** [d.setDate(d.getDate() + n)]. *)
Definition addDays (t : Z) (n : Z) : Z := t + n * ms_per_day.

(** [String(d.getMonth() + 1).padStart(2, '0')]. *)
Definition month_string (t : Z) : string :=
  padStart 2 "0" (String_of_Z (getMonth t + 1)).

End Js.

(** ** Numbers and amounts *)

(** A JavaScript number holding money: [None] is [NaN]. *)
Definition jsnum := option Q.

Definition Qlt_bool (a b : Q) : bool := negb (Qle_bool b a).

(** [a < b], [a >= b] and [a > b] on numbers: every comparison with [NaN]
    is false. *)
Definition num_lt (a b : jsnum) : bool :=
  match a, b with Some x, Some y => Qlt_bool x y | _, _ => false end.
Definition num_ge (a b : jsnum) : bool :=
  match a, b with Some x, Some y => Qle_bool y x | _, _ => false end.
Definition num_gt (a b : jsnum) : bool := num_lt b a.

Definition num_sub (a b : jsnum) : jsnum :=
  match a, b with Some x, Some y => Some (x - y) | _, _ => None end.

(** [Math.max(0, x)]. *)
Definition Math_max0 (x : jsnum) : jsnum :=
  match x with Some q => Some (Qmax 0 q) | None => None end.

(** The [amount] attribute of a JSON request body.  A string is described
    by what the two conversions of the handlers read from it: the implicit
    conversion to a number ([Number(s)], which the comparisons, the
    arithmetic and the cast of a Number attribute apply) and
    [parseFloat(s)], which reads the longest numeric prefix. *)
Inductive JsAmount : Type :=
| AmtAbsent                (* the attribute is missing *)
| AmtNum (q : Q)           (* a JSON number *)
| AmtNumStr (q : Q)        (* a decimal numeral in a string: both conversions read [q] *)
| AmtText                  (* a non-empty string neither conversion reads a number from *)
| AmtStr (number float : jsnum).
                           (* any other non-empty string: what [Number(s)] and
                              [parseFloat(s)] read from it; "800/=" is
                              [AmtStr None (Some 800)], "1,200" is
                              [AmtStr None (Some 1)], "0x10" is
                              [AmtStr (Some 16) (Some 0)] *)

(** Truthiness: a missing value and the number 0 are falsy, every
    non-empty string is truthy. *)
Definition truthy_amount (a : JsAmount) : bool :=
  match a with
  | AmtAbsent => false
  | AmtNum q => negb (Qeq_bool q 0)
  | AmtNumStr _ => true
  | AmtText => true
  | AmtStr _ _ => true
  end.

(** The implicit conversion to a number. *)
Definition toNumber (a : JsAmount) : jsnum :=
  match a with
  | AmtAbsent => None
  | AmtNum q => Some q
  | AmtNumStr q => Some q
  | AmtText => None
  | AmtStr number _ => number
  end.

(** [parseFloat(a)]: the number at the start of the text of [a]. *)
Definition parseFloat (a : JsAmount) : jsnum :=
  match a with
  | AmtAbsent => None
  | AmtNum q => Some q
  | AmtNumStr q => Some q
  | AmtText => None
  | AmtStr _ float => float
  end.

(** ** Documents *)

Definition Id := nat.

Inductive Status : Type := pending | partial | paid | overdue.

Definition Status_eqb (a b : Status) : bool :=
  match a, b with
  | pending, pending | partial, partial | paid, paid | overdue, overdue => true
  | _, _ => false
  end.

Inductive TenantStatus : Type := active | inactive | past.

Inductive PaymentSource : Type :=
| src_paybill | src_webhook | src_mpesa_stk | src_equity_bank.

Record House : Type := {
  h_id : Id;
  houseNumber : string;
  rentAmount : Q;
  h_tenant : option Id
}.

Record Tenant : Type := {
  t_id : Id;
  firstName : string;
  lastName : string;
  bankAccountNumber : option string;
  t_house : option Id;
  t_status : TenantStatus
}.

(** A Payment document.  The free-text attributes ([notes],
    [receivedFrom], [paymentMethod]) play no part in the reconciliation
    and are left out. *)
Record Payment : Type := {
  tenant : option Id;
  house : option Id;
  amount : option Q;
  expectedAmount : option Q;
  paidAmount : option Q;
  deficit : option Q;
  carriedForward : option Q;
  lateFee : option Q;
  dueDate : option Z;
  paymentDate : option Z;
  month : option string;
  year : option Z;
  status : Status;
  transactionId : option string;
  referenceNumber : option string;
  receiptNumber : option string;
  p_houseNumber : option string;
  paymentSource : option PaymentSource;
  isAutoGenerated : bool
}.

(** The part of the Payment model that the sources use but do not contain
    ([models/Payment.js]): the defaults the schema gives to the ledger
    attributes a handler leaves out, and the validation that [save] runs. *)
Record PaymentSchema : Type := {
  default_expectedAmount : option Q;
  default_paidAmount : option Q;
  default_deficit : option Q;
  default_carriedForward : option Q;
  default_lateFee : option Q;
  validate : Payment -> bool
}.

Definition or_default (given dflt : option Q) : option Q :=
  match given with Some x => Some x | None => dflt end.

(** [new Payment(data)]: attributes that [data] leaves out take the
    schema's defaults. *)
Definition new_Payment (schema : PaymentSchema) (data : Payment) : Payment :=
  {| tenant := tenant data;
     house := house data;
     amount := amount data;
     expectedAmount := or_default (expectedAmount data) (default_expectedAmount schema);
     paidAmount := or_default (paidAmount data) (default_paidAmount schema);
     deficit := or_default (deficit data) (default_deficit schema);
     carriedForward := or_default (carriedForward data) (default_carriedForward schema);
     lateFee := or_default (lateFee data) (default_lateFee schema);
     dueDate := dueDate data;
     paymentDate := paymentDate data;
     month := month data;
     year := year data;
     status := status data;
     transactionId := transactionId data;
     referenceNumber := referenceNumber data;
     receiptNumber := receiptNumber data;
     p_houseNumber := p_houseNumber data;
     paymentSource := paymentSource data;
     isAutoGenerated := isAutoGenerated data |}.

(** ** Queries *)

Definition is_some {A : Type} (o : option A) : bool :=
  match o with Some _ => true | None => false end.

Definition opt_eqb {A : Type} (eqb : A -> A -> bool) (o : option A) (x : A) : bool :=
  match o with Some y => eqb y x | None => false end.

(** [Model.findOne(q)] and [Model.findOne(q).sort({createdAt: -1})]. *)
Definition findOne {A : Type} (q : A -> bool) (coll : list A) : option A :=
  find q coll.

Definition findLatest {A : Type} (q : A -> bool) (coll : list A) : option A :=
  find q (rev coll).

(** [{ tenant, house, month, year }]. *)
Definition period_query (t h : Id) (m : string) (y : Z) (p : Payment) : bool :=
  opt_eqb Nat.eqb (tenant p) t && opt_eqb Nat.eqb (house p) h
  && opt_eqb String.eqb (month p) m && opt_eqb Z.eqb (year p) y.

(** [{ house, tenant, month, year, status: 'paid' }]. *)
Definition paid_period_query (t h : Id) (m : string) (y : Z) (p : Payment) : bool :=
  period_query t h m y p && Status_eqb (status p) paid.

(** [{ transactionId }]. *)
Definition txn_query (txn : string) (p : Payment) : bool :=
  opt_eqb String.eqb (transactionId p) txn.

Definition House_findById (houses : list House) (i : Id) : option House :=
  findOne (fun h => Nat.eqb (h_id h) i) houses.

Definition House_findByNumber (houses : list House) (n : string) : option House :=
  findOne (fun h => String.eqb (houseNumber h) n) houses.

Definition Tenant_findById (tenants : list Tenant) (i : Id) : option Tenant :=
  findOne (fun t => Nat.eqb (t_id t) i) tenants.

(** [.populate('tenant')] on a house and [.populate('house')] on a tenant:
    a dangling reference populates to [null]. *)
Definition populate_tenant (tenants : list Tenant) (h : House) : option Tenant :=
  match h_tenant h with
  | Some i => Tenant_findById tenants i
  | None => None
  end.

Definition populate_house (houses : list House) (t : Tenant) : option House :=
  match t_house t with
  | Some i => House_findById houses i
  | None => None
  end.

(** ** The ledger calculation *)

(** The receipt number [RCP-<year>-<count + 1, six digits>]. *)
Definition receipt_number (yr : Z) (count : nat) : string :=
  ("RCP-" ++ Js.String_of_Z yr ++ "-"
   ++ Js.padStart 6 "0" (Js.String_of_Z (Z.of_nat count + 1)))%string.

(** The period before ([month], [year]) as the handlers compute it:
    [prevMonth = parseInt(month) - 1], rolling month 0 over to month 12 of
    the year before. *)
Definition prev_period (month : string) (year : Z) : string * Z :=
  let prevMonth := option_map (fun m => (m - 1)%Z) (Js.parseInt month) in
  let is_zero := match prevMonth with Some 0%Z => true | _ => false end in
  let prevYear := if is_zero then (year - 1)%Z else year in
  let prevMonthStr :=
    if is_zero then "12"%string
    else Js.padStart 2 "0" (Js.String_of_num prevMonth) in
  (prevMonthStr, prevYear).

(** The deficit carried forward from the latest record of the preceding
    period: [if (prevPayment && prevPayment.deficit > 0)]. *)
Definition carried_forward (db : list Payment) (t h : Id) (month : string) (year : Z) : Q :=
  let '(pm, py) := prev_period month year in
  match findLatest (period_query t h pm py) db with
  | Some prevPayment =>
      match deficit prevPayment with
      | Some d => if Qlt_bool 0 d then d else 0
      | None => 0
      end
  | None => 0
  end.

(** [paidAmount = req.body.amount || 0], read as a number. *)
Definition proposed_paid (a : JsAmount) : jsnum :=
  if truthy_amount a then toNumber a else Some 0.

(** [Math.max(0, expectedAmount - paidAmount)]. *)
Definition ledger_deficit (expected : Q) (paidAmt : jsnum) : jsnum :=
  Math_max0 (num_sub (Some expected) paidAmt).

(** The status chosen by [router.post('/')]. *)
Definition post_status (expected : Q) (paidAmt : jsnum) : Status :=
  let status := pending in
  if num_ge paidAmt (Some expected) then paid
  else if num_gt paidAmt (Some 0) then partial
  else status.

(** The status chosen by [router.put('/:id')]. *)
Definition put_status (expected : Q) (paidAmt : jsnum) : Status :=
  if num_ge paidAmt (Some expected) then paid
  else if num_gt paidAmt (Some 0) then partial
  else pending.

(** ** Responses *)

Inductive Msg : Type :=
| msg_house_not_found            (* 404 House with number ... not found *)
| msg_house_required             (* 400 House is required *)
| msg_payment_not_found          (* 404 Payment not found *)
| msg_fields_required            (* 400 ... and amount are required *)
| msg_invalid_paybill            (* 400 Invalid paybill number *)
| msg_no_tenant                  (* 400 House ... has no tenant assigned *)
| msg_txn_exists                 (* 400 Payment with this transaction ID already exists *)
| msg_period_exists              (* 400 Payment already exists for house ... for mm/yyyy *)
| msg_recorded                   (* 201 ... received and recorded successfully *)
| msg_document                   (* the body is the payment document itself *)
| msg_exception                  (* the message of a caught exception *)
| msg_confirmation_received      (* ResultDesc: Confirmation received successfully *)
| msg_processed                  (* ResultDesc: Payment processed successfully *)
| msg_failed                     (* ResultDesc of a failed or cancelled push *)
| msg_tenant_not_found           (* 404 Tenant not found *)
| msg_push_sent                  (* the customer message of the provider *)
| msg_provider_error             (* 400 or 500: the push could not be initiated *)
| msg_webhook_received.          (* 200 Webhook received *)

(** The JSON answer of a handler: the HTTP status and the top-level keys
    of the body that the properties below speak about. *)
Record Response : Type := {
  http_status : Z;
  message : Msg;
  resp_receiptNumber : option string;     (* key [receiptNumber] *)
  resp_existingPayment : option Payment;  (* key [existingPayment], the document's [_id] *)
  resp_payment : option Payment;          (* the created or updated document *)
  resp_ResultCode : option Z              (* key [ResultCode] *)
}.

Definition reply (code : Z) (m : Msg) : Response :=
  {| http_status := code; message := m; resp_receiptNumber := None;
     resp_existingPayment := None; resp_payment := None; resp_ResultCode := None |}.

(** [{ message, receiptNumber: existingPayment.receiptNumber }], the
    answer of [/paybill] to a transaction id that is already recorded. *)
Definition txn_exists_response (existing : Payment) : Response :=
  {| http_status := 400; message := msg_txn_exists;
     resp_receiptNumber := receiptNumber existing;
     resp_existingPayment := None; resp_payment := None;
     resp_ResultCode := None |}.

(** [{ message, existingPayment: existingPayment._id,
    receiptNumber: existingPayment.receiptNumber }], the answer of
    [/paybill] to a period that is already paid. *)
Definition period_exists_paybill (existing : Payment) : Response :=
  {| http_status := 400; message := msg_period_exists;
     resp_receiptNumber := receiptNumber existing;
     resp_existingPayment := Some existing;
     resp_payment := None; resp_ResultCode := None |}.

(** [{ message, existingPayment: existingPayment._id }], the answer of
    [/receive] to a period that is already paid. *)
Definition period_exists_receive (existing : Payment) : Response :=
  {| http_status := 400; message := msg_period_exists;
     resp_receiptNumber := None;
     resp_existingPayment := Some existing;
     resp_payment := None; resp_ResultCode := None |}.

Definition is_success (r : Response) : bool :=
  (200 <=? http_status r)%Z && (http_status r <? 300)%Z.

Fixpoint update_nth {A : Type} (n : nat) (x : A) (l : list A) : list A :=
  match l, n with
  | [], _ => []
  | _ :: r, O => x :: r
  | y :: r, S k => y :: update_nth k x r
  end.

(** The index of the first document that satisfies [q]. *)
Fixpoint find_index {A : Type} (q : A -> bool) (l : list A) : option nat :=
  match l with
  | [] => None
  | x :: r => if q x then Some O else option_map S (find_index q r)
  end.

(** Request bodies. *)

Record PostBody : Type := {
  b_houseNumber : option string;
  b_house : option Id;
  b_tenant : option Id;
  b_amount : JsAmount;
  b_month : option string;
  b_year : option Z;
  b_receiptNumber : option string;
  b_transactionId : option string;
  b_dueDate : option Z
}.

Record GenerateBody : Type := {
  g_month : option string;
  g_year : option Z;
  g_lateFeePercentage : option Q;
  g_gracePeriodDays : option Z
}.

Record PaybillBody : Type := {
  pb_accountNumber : option string;
  pb_amount : JsAmount;
  pb_transactionId : option string;
  pb_referenceNumber : option string;
  pb_paybillNumber : option string
}.

Record ReceiveBody : Type := {
  rc_houseNumber : option string;
  rc_amount : JsAmount;
  rc_transactionId : option string;
  rc_referenceNumber : option string
}.

Record ConfirmationBody : Type := {
  TransID : option string;
  TransTime : option Z;          (* the time value of [new Date(TransTime)]; [None] when invalid *)
  TransAmount : JsAmount;
  BillRefNumber : option string
}.

Definition truthy_year (y : option Z) : bool :=
  match y with Some v => negb (Z.eqb v 0) | None => false end.

Definition percent_of (base pct : Q) : Q := (base * pct) / 100.

(** The unit a payment refers to: [payment.house] after
    [.populate('house')]. *)
Definition house_of (houses : list House) (p : Payment) : option House :=
  match house p with
  | Some i => House_findById houses i
  | None => None
  end.

Section Handlers.

(** What the handlers read from outside the payments collection: the
    Payment schema, the houses and the tenants. *)
Variable schema : PaymentSchema.
Variable houses : list House.
Variable tenants : list Tenant.

(** [await payment.save()] of a new document: [None] when validation
    throws. *)
Definition save (db : list Payment) (p : Payment) : option (list Payment) :=
  if validate schema p then Some (db ++ [p]) else None.

(** *** [router.post('/')]: create a payment *)

(** [carriedForward]: looked up only when the body names a tenant, a month
    and a year. *)
Definition post_carried (db : list Payment) (body_tenant : option Id)
    (body_month : option string) (body_year : option Z) (h : House) : Q :=
  match body_tenant, body_month, body_year with
  | Some t, Some m, Some y =>
      if Js.truthy_string m && truthy_year (Some y)
      then carried_forward db t (h_id h) m y
      else 0
  | _, _, _ => 0
  end.

Definition post_payment (now : Z) (db : list Payment) (b : PostBody)
  : list Payment * Response :=
  let resolved :=
    match b_houseNumber b, b_house b with
    | Some hn, None =>
        if Js.truthy_string hn then
          match House_findByNumber houses hn with
          | None => None
          | Some h =>
              Some (Some (h_id h),
                    match b_tenant b with
                    | Some t => Some t
                    | None => h_tenant h
                    end)
          end
        else Some (b_house b, b_tenant b)
    | _, _ => Some (b_house b, b_tenant b)
    end in
  match resolved with
  | None => (db, reply 404 msg_house_not_found)
  | Some (body_house, body_tenant) =>
      let receipt :=
        if Js.truthy_opt_string (b_receiptNumber b) then b_receiptNumber b
        else Some (receipt_number (Js.getFullYear now) (List.length db)) in
      match match body_house with
            | Some i => House_findById houses i
            | None => None
            end with
      | None => (db, reply 400 msg_house_required)
      | Some h =>
          let carried := post_carried db body_tenant (b_month b) (b_year b) h in
          let expected := rentAmount h + carried in
          let paidAmt := proposed_paid (b_amount b) in
          let deficit_ := ledger_deficit expected paidAmt in
          let status_ := post_status expected paidAmt in
          match paidAmt, deficit_ with
          | Some pa, Some d =>
              let payment := new_Payment schema
                {| tenant := body_tenant;
                   house := body_house;
                   amount := toNumber (b_amount b);
                   expectedAmount := Some expected;
                   paidAmount := Some pa;
                   deficit := Some d;
                   carriedForward := Some carried;
                   lateFee := None;
                   dueDate := b_dueDate b;
                   paymentDate := None;
                   month := b_month b;
                   year := b_year b;
                   status := status_;
                   transactionId := b_transactionId b;
                   referenceNumber := None;
                   receiptNumber := receipt;
                   p_houseNumber := b_houseNumber b;
                   paymentSource := None;
                   isAutoGenerated := false |} in
              match save db payment with
              | Some db' =>
                  (db', {| http_status := 201; message := msg_document;
                           resp_receiptNumber := receiptNumber payment;
                           resp_existingPayment := None;
                           resp_payment := Some payment;
                           resp_ResultCode := None |})
              | None => (db, reply 400 msg_exception)
              end
          | _, _ =>
              (* a value that is not a number fails the cast of a Number
                 attribute: [save] throws *)
              (db, reply 400 msg_exception)
          end
      end
  end.

(** *** [router.put('/:id')]: update a payment, addressed by its position *)

Definition put_expected (payment : Payment) : option Q :=
  match expectedAmount payment with
  | Some e => if Qeq_bool e 0 then None else Some e
  | None => None
  end.

(** The expected amount the recalculation runs against:
    [payment.expectedAmount || payment.house.rentAmount +
    (payment.carriedForward || 0)]; [None] when [payment.house] is null
    and the addition throws. *)
Definition put_expected_amount (payment : Payment) : option Q :=
  match put_expected payment with
  | Some e => Some e
  | None =>
      match house_of houses payment with
      | Some h =>
          Some (rentAmount h
                + match carriedForward payment with Some c => c | None => 0 end)
      | None => None
      end
  end.

Definition put_payment (db : list Payment) (id : nat) (new_amount : JsAmount)
  : list Payment * Response :=
  match nth_error db id with
  | None => (db, reply 404 msg_payment_not_found)
  | Some payment =>
      match new_amount with
      | AmtAbsent => (db, {| http_status := 200; message := msg_document;
                             resp_receiptNumber := receiptNumber payment;
                             resp_existingPayment := None;
                             resp_payment := Some payment;
                             resp_ResultCode := None |})
      | _ =>
          match put_expected_amount payment with
          | None => (db, reply 400 msg_exception)
          | Some e =>
              let paidAmt := toNumber new_amount in
              match paidAmt, ledger_deficit e paidAmt with
              | Some pa, Some d =>
                  let updated :=
                    {| tenant := tenant payment;
                       house := house payment;
                       amount := Some pa;
                       expectedAmount := expectedAmount payment;
                       paidAmount := Some pa;
                       deficit := Some d;
                       carriedForward := carriedForward payment;
                       lateFee := lateFee payment;
                       dueDate := dueDate payment;
                       paymentDate := paymentDate payment;
                       month := month payment;
                       year := year payment;
                       status := put_status e paidAmt;
                       transactionId := transactionId payment;
                       referenceNumber := referenceNumber payment;
                       receiptNumber := receiptNumber payment;
                       p_houseNumber := p_houseNumber payment;
                       paymentSource := paymentSource payment;
                       isAutoGenerated := isAutoGenerated payment |} in
                  if validate schema updated
                  then (update_nth id updated db,
                        {| http_status := 200; message := msg_document;
                           resp_receiptNumber := receiptNumber updated;
                           resp_existingPayment := None;
                           resp_payment := Some updated;
                           resp_ResultCode := None |})
                  else (db, reply 400 msg_exception)
              | _, _ => (db, reply 400 msg_exception)
              end
          end
      end
  end.

(** *** [router.post('/generate-monthly-rent')] *)

Definition already_exists_message (t : Tenant) (targetMonth : string) (targetYear : Z)
  : string :=
  ("Payment already exists for " ++ firstName t ++ " " ++ lastName t ++ " - "
   ++ targetMonth ++ "/" ++ Js.String_of_Z targetYear)%string.

(** The document the generator builds for one tenant; [None] when the
    due date is not a valid date. *)
Definition generated_payment (today : Z) (pct : Q) (grace : Z)
    (targetMonth : string) (targetYear : Z)
    (db : list Payment) (t : Tenant) (h : House) : option Payment :=
  match Js.Date_ymd targetYear
          (option_map (fun m => (m - 1)%Z) (Js.parseInt targetMonth)) 1 with
  | None => None
  | Some due =>
      let carried := carried_forward db (t_id t) (h_id h) targetMonth targetYear in
      let expected := rentAmount h + carried in
      let lateFeeDate := Js.addDays due grace in
      let late := (lateFeeDate <? today)%Z in
      Some (new_Payment schema
        {| tenant := Some (t_id t);
           house := Some (h_id h);
           amount := Some expected;
           expectedAmount := Some expected;
           paidAmount := Some 0;
           deficit := Some expected;
           carriedForward := Some carried;
           lateFee := Some (if late then percent_of expected pct else 0);
           dueDate := Some due;
           paymentDate := Some today;
           month := Some targetMonth;
           year := Some targetYear;
           status := if late then overdue else pending;
           transactionId := None;
           referenceNumber := None;
           receiptNumber := None;
           p_houseNumber := None;
           paymentSource := None;
           isAutoGenerated := true |})
  end.

(** The loop over the tenants.  The second component is [None] when an
    exception left the loop (the handler answers 500). *)
Fixpoint generate_loop (today : Z) (pct : Q) (grace : Z)
    (targetMonth : string) (targetYear : Z)
    (ts : list Tenant) (db generated : list Payment) (errors : list string)
  : list Payment * option (list Payment * list string) :=
  match ts with
  | [] => (db, Some (generated, errors))
  | t :: rest =>
      match populate_house houses t with
      | None => generate_loop today pct grace targetMonth targetYear rest db generated errors
      | Some h =>
          match findOne (period_query (t_id t) (h_id h) targetMonth targetYear) db with
          | Some _ =>
              generate_loop today pct grace targetMonth targetYear rest db generated
                (errors ++ [already_exists_message t targetMonth targetYear])
          | None =>
              match generated_payment today pct grace targetMonth targetYear db t h with
              | None => (db, None)
              | Some payment =>
                  match save db payment with
                  | None => (db, None)
                  | Some db' =>
                      generate_loop today pct grace targetMonth targetYear rest db'
                        (generated ++ [payment]) errors
                  end
              end
          end
      end
  end.

Definition target_month (today : Z) (b : GenerateBody) : string :=
  match g_month b with
  | Some m => if Js.truthy_string m then m else Js.month_string today
  | None => Js.month_string today
  end.

Definition target_year (today : Z) (b : GenerateBody) : Z :=
  match g_year b with
  | Some y => if Z.eqb y 0 then Js.getFullYear today else y
  | None => Js.getFullYear today
  end.

Definition or_default_5 (x : option Q) : Q :=
  match x with Some v => v | None => 5 end.

Definition grace_or_default (x : option Z) : Z :=
  match x with Some v => v | None => 5%Z end.

(** [Tenant.find({ status: 'active', house: { $ne: null } })]. *)
Definition active_tenants : list Tenant :=
  filter (fun t => match t_status t with active => is_some (t_house t) | _ => false end)
         tenants.

Record GenerateSummary : Type := {
  gen_generated : nat;
  gen_errors : nat;
  gen_details : list string
}.

(** The answer is the summary, or [None] for the 500 answer. *)
Definition generate_monthly_rent (today : Z) (db : list Payment) (b : GenerateBody)
  : list Payment * option GenerateSummary :=
  match generate_loop today (or_default_5 (g_lateFeePercentage b))
          (grace_or_default (g_gracePeriodDays b))
          (target_month today b) (target_year today b)
          active_tenants db [] [] with
  | (db', Some (generated, errors)) =>
      (db', Some {| gen_generated := List.length generated;
                    gen_errors := List.length errors;
                    gen_details := errors |})
  | (db', None) => (db', None)
  end.

(** *** The pay-bill and generic webhook channels *)

(** [SystemConfig.getConfig().paybillNumber]. *)
Variable config_paybillNumber : option string.

Definition created_response (p : Payment) : Response :=
  {| http_status := 201; message := msg_recorded;
     resp_receiptNumber := receiptNumber p;
     resp_existingPayment := None;
     resp_payment := Some p;
     resp_ResultCode := None |}.

(** The status the channels without a ledger give a new record:
    ['partial'] when the reported amount is below the rent. *)
Definition rent_status (reported : jsnum) (h : House) : Status :=
  let status := paid in
  if num_lt reported (Some (rentAmount h)) then partial else status.

(** The document built by [/paybill], [/receive] and
    [/mpesa-confirmation]: no ledger attribute is given. *)
Definition channel_payment (t : Tenant) (h : House) (amt : option Q)
    (paymentDate_ : Z) (m : string) (y : Z) (st : Status)
    (txn ref : option string) (hn : option string) (src : PaymentSource)
    (receipt : string) : Payment :=
  new_Payment schema
    {| tenant := Some (t_id t);
       house := Some (h_id h);
       amount := amt;
       expectedAmount := None;
       paidAmount := None;
       deficit := None;
       carriedForward := None;
       lateFee := None;
       dueDate := Js.Date_ymd y (option_map (fun k => (k - 1)%Z) (Js.parseInt m)) 1;
       paymentDate := Some paymentDate_;
       month := Some m;
       year := Some y;
       status := st;
       transactionId := txn;
       referenceNumber := ref;
       receiptNumber := Some receipt;
       p_houseNumber := hn;
       paymentSource := Some src;
       isAutoGenerated := false |}.

(** [paybillNumber && config.paybillNumber
    && config.paybillNumber !== paybillNumber]. *)
Definition paybill_number_mismatch (b : PaybillBody) : bool :=
  match pb_paybillNumber b with
  | Some n =>
      Js.truthy_string n
      && match config_paybillNumber with
         | Some c => Js.truthy_string c && negb (String.eqb c n)
         | None => false
         end
  | None => false
  end.

(** [router.post('/paybill')]. *)
Definition paybill (now : Z) (db : list Payment) (b : PaybillBody)
  : list Payment * Response :=
  if paybill_number_mismatch b then (db, reply 400 msg_invalid_paybill)
  else
    match pb_accountNumber b with
    | None => (db, reply 400 msg_fields_required)
    | Some accountNumber =>
        if negb (Js.truthy_string accountNumber) || negb (truthy_amount (pb_amount b))
        then (db, reply 400 msg_fields_required)
        else
          match House_findByNumber houses (Js.trim accountNumber) with
          | None => (db, reply 404 msg_house_not_found)
          | Some h =>
              match populate_tenant tenants h with
              | None => (db, reply 400 msg_no_tenant)
              | Some t =>
                  match
                    match pb_transactionId b with
                    | Some txn =>
                        if Js.truthy_string txn then findOne (txn_query txn) db else None
                    | None => None
                    end
                  with
                  | Some existingPayment => (db, txn_exists_response existingPayment)
                  | None =>
                      let month_ := Js.month_string now in
                      let year_ := Js.getFullYear now in
                      match findOne (paid_period_query (t_id t) (h_id h) month_ year_) db with
                      | Some existingPayment =>
                          (db, period_exists_paybill existingPayment)
                      | None =>
                          let status_ := rent_status (toNumber (pb_amount b)) h in
                          let receipt := receipt_number year_ (List.length db) in
                          match parseFloat (pb_amount b) with
                          | None => (db, reply 400 msg_exception)
                          | Some amt =>
                              let payment :=
                                channel_payment t h (Some amt) now month_ year_ status_
                                  (Js.or_string (pb_transactionId b) (pb_referenceNumber b))
                                  (pb_referenceNumber b) (Some accountNumber)
                                  src_paybill receipt in
                              match save db payment with
                              | Some db' => (db', created_response payment)
                              | None => (db, reply 400 msg_exception)
                              end
                          end
                      end
                  end
              end
          end
    end.

(** [router.post('/receive')]. *)
Definition receive (now : Z) (db : list Payment) (b : ReceiveBody)
  : list Payment * Response :=
  match rc_houseNumber b with
  | None => (db, reply 400 msg_fields_required)
  | Some hn =>
      if negb (Js.truthy_string hn) || negb (truthy_amount (rc_amount b))
      then (db, reply 400 msg_fields_required)
      else
        match House_findByNumber houses (Js.trim hn) with
        | None => (db, reply 404 msg_house_not_found)
        | Some h =>
            match populate_tenant tenants h with
            | None => (db, reply 400 msg_no_tenant)
            | Some t =>
                match
                  match rc_transactionId b with
                  | Some txn =>
                      if Js.truthy_string txn then findOne (txn_query txn) db else None
                  | None => None
                  end
                with
                | Some _ => (db, reply 400 msg_txn_exists)
                | None =>
                    let month_ := Js.month_string now in
                    let year_ := Js.getFullYear now in
                    match findOne (paid_period_query (t_id t) (h_id h) month_ year_) db with
                    | Some existingPayment =>
                        (db, period_exists_receive existingPayment)
                    | None =>
                        let status_ := rent_status (toNumber (rc_amount b)) h in
                        let receipt := receipt_number year_ (List.length db) in
                        match parseFloat (rc_amount b) with
                        | None => (db, reply 400 msg_exception)
                        | Some amt =>
                            let payment :=
                              channel_payment t h (Some amt) now month_ year_ status_
                                (rc_transactionId b) (rc_referenceNumber b) (Some hn)
                                src_webhook receipt in
                            match save db payment with
                            | Some db' => (db', created_response payment)
                            | None => (db, reply 400 msg_exception)
                            end
                        end
                    end
                end
            end
        end
  end.

(** *** The acknowledge-first webhooks *)

(** What the background processing of a webhook writes to the console. *)
Inductive Log : Type :=
| log_invalid_data
| log_house_not_found
| log_no_tenant
| log_tenant_not_found
| log_no_house
| log_txn_exists
| log_period_exists
| log_additional_payment
| log_recorded (receipt : string)
| log_exception.

Definition confirmation_ack : Response :=
  {| http_status := 200; message := msg_confirmation_received;
     resp_receiptNumber := None; resp_existingPayment := None;
     resp_payment := None; resp_ResultCode := Some 0%Z |}.

(** [router.post('/mpesa-confirmation')]: the answer is sent first, the
    notification is processed afterwards. *)
Definition mpesa_confirmation (db : list Payment) (b : ConfirmationBody)
  : list Payment * Response * list Log :=
  match BillRefNumber b, TransID b with
  | Some bill, Some txn =>
      if Js.truthy_string bill && truthy_amount (TransAmount b) && Js.truthy_string txn
      then
        match House_findByNumber houses (Js.trim bill) with
        | None => (db, confirmation_ack, [log_house_not_found])
        | Some h =>
            match populate_tenant tenants h with
            | None => (db, confirmation_ack, [log_no_tenant])
            | Some t =>
                match findOne (txn_query txn) db with
                | Some _ => (db, confirmation_ack, [log_txn_exists])
                | None =>
                    match TransTime b with
                    | None => (db, confirmation_ack, [log_exception])
                    | Some transDate =>
                        let month_ := Js.month_string transDate in
                        let year_ := Js.getFullYear transDate in
                        match findOne (paid_period_query (t_id t) (h_id h) month_ year_) db with
                        | Some _ => (db, confirmation_ack, [log_period_exists])
                        | None =>
                            let status_ := rent_status (parseFloat (TransAmount b)) h in
                            let receipt := receipt_number year_ (List.length db) in
                            match parseFloat (TransAmount b) with
                            | None => (db, confirmation_ack, [log_exception])
                            | Some amt =>
                                let payment :=
                                  channel_payment t h (Some amt) transDate month_ year_
                                    status_ (Some txn) (Some txn) (Some bill)
                                    src_paybill receipt in
                                match save db payment with
                                | Some db' => (db', confirmation_ack, [log_recorded receipt])
                                | None => (db, confirmation_ack, [log_exception])
                                end
                            end
                        end
                    end
                end
            end
        end
      else (db, confirmation_ack, [])
  | _, _ => (db, confirmation_ack, [])
  end.

(** The payload of the bank webhook, with its field-name variants. *)
Record WebhookData : Type := {
  w_accountNumber : option string;
  w_account_number : option string;
  w_destinationAccount : option string;
  w_destination_account : option string;
  w_amount : JsAmount;
  w_transactionAmount : JsAmount;
  w_transactionId : option string;
  w_transaction_id : option string;
  w_reference : option string;
  w_transactionReference : option string;
  w_referenceNumber : option string;
  w_reference_number : option string;
  w_transactionDate : option Z
}.

Definition or_amount (a b : JsAmount) : JsAmount :=
  if truthy_amount a then a else b.

Definition webhook_account (w : WebhookData) : option string :=
  Js.or_string (w_accountNumber w)
    (Js.or_string (w_account_number w)
       (Js.or_string (w_destinationAccount w) (w_destination_account w))).

Definition webhook_amount (w : WebhookData) : jsnum :=
  parseFloat (or_amount (w_amount w) (or_amount (w_transactionAmount w) (AmtNum 0))).

Definition webhook_transactionId (w : WebhookData) : option string :=
  Js.or_string (w_transactionId w)
    (Js.or_string (w_transaction_id w)
       (Js.or_string (w_reference w) (w_transactionReference w))).

Definition webhook_referenceNumber (w : WebhookData) : option string :=
  Js.or_string (w_referenceNumber w)
    (Js.or_string (w_reference_number w)
       (Js.or_string (w_reference w) (webhook_transactionId w))).

(** [Tenant.findOne({ bankAccountNumber, status: 'active' })]. *)
Definition Tenant_findByAccount (acct : string) : option Tenant :=
  findOne (fun t => opt_eqb String.eqb (bankAccountNumber t) acct
                    && match t_status t with active => true | _ => false end)
          tenants.

(** [existingMonthlyPayment.amount !== amount]. *)
Definition amount_differs (existing : Payment) (amt : Q) : bool :=
  match amount existing with
  | Some a => negb (Qeq_bool a amt)
  | None => true
  end.

(** The date of the transaction, whose period the bank webhook checks:
    [transactionDate || new Date()]. *)
Definition webhook_date (now : Z) (w : WebhookData) : Z :=
  match w_transactionDate w with Some d => d | None => now end.

(** The document the bank webhook builds: the ledger is calculated as in
    [POST /], the status is ['partial'] below the expected amount and
    ['paid'] otherwise. *)
Definition bank_payment (db : list Payment) (w : WebhookData) (t : Tenant) (h : House)
    (amt : Q) (paymentDate_ : Z) : Payment :=
  let month_ := Js.month_string paymentDate_ in
  let year_ := Js.getFullYear paymentDate_ in
  let carried := carried_forward db (t_id t) (h_id h) month_ year_ in
  let expected := rentAmount h + carried in
  let paidAmt := amt in
  let deficit_ := Qmax 0 (expected - paidAmt) in
  let status_ := if Qlt_bool paidAmt expected then partial else paid in
  new_Payment schema
    {| tenant := Some (t_id t);
       house := Some (h_id h);
       amount := Some paidAmt;
       expectedAmount := Some expected;
       paidAmount := Some paidAmt;
       deficit := Some deficit_;
       carriedForward := Some carried;
       lateFee := None;
       dueDate :=
         Js.Date_ymd year_ (option_map (fun k => (k - 1)%Z) (Js.parseInt month_)) 1;
       paymentDate := Some paymentDate_;
       month := Some month_;
       year := Some year_;
       status := status_;
       transactionId :=
         Js.or_string (webhook_transactionId w) (webhook_referenceNumber w);
       referenceNumber :=
         Js.or_string (webhook_referenceNumber w) (webhook_transactionId w);
       receiptNumber := Some (receipt_number year_ (List.length db));
       p_houseNumber := Some (houseNumber h);
       paymentSource := Some src_equity_bank;
       isAutoGenerated := false |}.

(** [processEquityBankPayment(webhookData)]: the new collection, the
    payment it returns (if any) and the console output. *)
Definition processEquityBankPayment (now : Z) (db : list Payment) (w : WebhookData)
  : list Payment * option Payment * list Log :=
  match webhook_account w, webhook_amount w with
  | Some accountNumber, Some amt =>
      if negb (Js.truthy_string accountNumber) || Qeq_bool amt 0 || Qle_bool amt 0
      then (db, None, [log_invalid_data])
      else
        match Tenant_findByAccount (Js.trim accountNumber) with
        | None => (db, None, [log_tenant_not_found])
        | Some t =>
            match populate_house houses t with
            | None => (db, None, [log_no_house])
            | Some th =>
                match
                  match webhook_transactionId w with
                  | Some txn =>
                      if Js.truthy_string txn then findOne (txn_query txn) db else None
                  | None => None
                  end
                with
                | Some _ => (db, None, [log_txn_exists])
                | None =>
                    let paymentDate_ := webhook_date now w in
                    let month_ := Js.month_string paymentDate_ in
                    let year_ := Js.getFullYear paymentDate_ in
                    let existingMonthlyPayment :=
                      findOne (paid_period_query (t_id t) (h_id th) month_ year_) db in
                    let additional :=
                      match existingMonthlyPayment with
                      | Some e => Some (amount_differs e amt)
                      | None => None
                      end in
                    match additional with
                    | Some false => (db, None, [log_period_exists])
                    | _ =>
                        let pre :=
                          match additional with
                          | Some true => [log_additional_payment]
                          | _ => []
                          end in
                        match House_findById houses (h_id th) with
                        | None => (db, None, pre ++ [log_house_not_found])
                        | Some h =>
                            let receipt := receipt_number year_ (List.length db) in
                            let payment := bank_payment db w t h amt paymentDate_ in
                            match save db payment with
                            | Some db' => (db', Some payment, pre ++ [log_recorded receipt])
                            | None => (db, None, pre ++ [log_exception])
                            end
                        end
                    end
                end
            end
        end
  | _, _ => (db, None, [log_invalid_data])
  end.

(** [router.post('/webhook')] of the houses router: the bank is answered
    first, the notification is processed afterwards. *)
Definition webhook_ack : Response := reply 200 msg_webhook_received.

Definition equity_webhook (now : Z) (db : list Payment) (w : WebhookData)
  : list Payment * Response * list Log :=
  let '(db', _, logs) := processEquityBankPayment now db w in
  (db', webhook_ack, logs).

(** *** [router.post('/check-overdue')]: the overdue sweep *)

(** [{ status: { $in: ['pending', 'partial'] } }]. *)
Definition sweep_selects (p : Payment) : bool :=
  match status p with
  | pending | partial => true
  | _ => false
  end.

(** [today > lateFeeDate]; an absent due date gives an invalid date, and
    the comparison is false. *)
Definition past_grace (today grace : Z) (p : Payment) : bool :=
  match dueDate p with
  | Some due => (Js.addDays due grace <? today)%Z
  | None => false
  end.

(** The body of the loop for one selected document: the document to
    save, or [None] when it is left alone. *)
Definition overdue_update (today : Z) (pct : Q) (grace : Z) (payment : Payment)
  : option Payment :=
  if past_grace today grace payment && negb (Status_eqb (status payment) overdue)
  then
    let fee :=
      match lateFee payment, match house payment with
                             | Some i => House_findById houses i
                             | None => None
                             end with
      | Some f, Some h =>
          if Qeq_bool f 0 then Some (percent_of (rentAmount h) pct) else Some f
      | f, _ => f
      end in
    Some {| tenant := tenant payment;
            house := house payment;
            amount := amount payment;
            expectedAmount := expectedAmount payment;
            paidAmount := paidAmount payment;
            deficit := deficit payment;
            carriedForward := carriedForward payment;
            lateFee := fee;
            dueDate := dueDate payment;
            paymentDate := paymentDate payment;
            month := month payment;
            year := year payment;
            status := overdue;
            transactionId := transactionId payment;
            referenceNumber := referenceNumber payment;
            receiptNumber := receiptNumber payment;
            p_houseNumber := p_houseNumber payment;
            paymentSource := paymentSource payment;
            isAutoGenerated := isAutoGenerated payment |}
  else None.

(** The loop over the collection: each selected document is updated in
    place.  The result is the collection, the updated documents and
    whether the loop ran to its end ([false]: a [save] threw, and the
    handler answers 500). *)
Fixpoint sweep (today : Z) (pct : Q) (grace : Z) (coll : list Payment)
  : list Payment * list Payment * bool :=
  match coll with
  | [] => ([], [], true)
  | p :: rest =>
      match (if sweep_selects p then overdue_update today pct grace p else None) with
      | Some p' =>
          if validate schema p'
          then let '(rest', updated, ok) := sweep today pct grace rest in
               (p' :: rest', p' :: updated, ok)
          else (p :: rest, [], false)
      | None =>
          let '(rest', updated, ok) := sweep today pct grace rest in
          (p :: rest', updated, ok)
      end
  end.

Record SweepBody : Type := {
  s_lateFeePercentage : option Q;
  s_gracePeriodDays : option Z
}.

Record SweepSummary : Type := {
  sw_updated : nat;
  sw_payments : list Payment
}.

Definition check_overdue (today : Z) (db : list Payment) (b : SweepBody)
  : list Payment * option SweepSummary :=
  let '(db', updated, ok) :=
    sweep today (or_default_5 (s_lateFeePercentage b))
          (grace_or_default (s_gracePeriodDays b)) db in
  (db', if ok then Some {| sw_updated := List.length updated; sw_payments := updated |}
        else None).

(** *** The STK push callback *)

Inductive ItemValue : Type :=
| VStr (s : string)
| VNum (z : Z).

Record CallbackItem : Type := {
  Name : string;
  Value : ItemValue
}.

Record StkCallback : Type := {
  CheckoutRequestID : string;
  ResultCode : option Z;
  CallbackMetadata : option (list CallbackItem)
}.

Definition truthy_value (v : ItemValue) : bool :=
  match v with
  | VStr s => Js.truthy_string s
  | VNum z => negb (Z.eqb z 0)
  end.

(** The cast of a value stored in a String attribute. *)
Definition string_of_value (v : ItemValue) : string :=
  match v with
  | VStr s => s
  | VNum z => Js.String_of_Z z
  end.

(** [items.find(item => item.Name === name)?.Value], when truthy. *)
Definition item_value (items : list CallbackItem) (name : string) : option ItemValue :=
  match find (fun it => String.eqb (Name it) name) items with
  | Some it => if truthy_value (Value it) then Some (Value it) else None
  | None => None
  end.

(** [new Date(string)], the date parser of the runtime. *)
Variable Date_parse : string -> option Z.

Definition Date_of_value (v : ItemValue) : option Z :=
  match v with
  | VNum z => Some z
  | VStr s => Date_parse s
  end.

Definition set_callback_result (payment : Payment) (st : Status)
    (txn ref : option string) (date : option Z) : Payment :=
  {| tenant := tenant payment;
     house := house payment;
     amount := amount payment;
     expectedAmount := expectedAmount payment;
     paidAmount := paidAmount payment;
     deficit := deficit payment;
     carriedForward := carriedForward payment;
     lateFee := lateFee payment;
     dueDate := dueDate payment;
     paymentDate := date;
     month := month payment;
     year := year payment;
     status := st;
     transactionId := txn;
     referenceNumber := ref;
     receiptNumber := receiptNumber payment;
     p_houseNumber := p_houseNumber payment;
     paymentSource := paymentSource payment;
     isAutoGenerated := isAutoGenerated payment |}.

(** [router.post('/callback')] of the M-Pesa router. *)
Definition stk_callback (db : list Payment) (cb : StkCallback)
  : list Payment * Response :=
  match find_index (txn_query (CheckoutRequestID cb)) db with
  | None => (db, reply 404 msg_payment_not_found)
  | Some i =>
      match nth_error db i with
      | None => (db, reply 404 msg_payment_not_found)
      | Some payment =>
          match ResultCode cb, CallbackMetadata cb with
          | Some 0%Z, Some items =>
              let mpesaReceiptNumber := item_value items "MpesaReceiptNumber" in
              let transactionDate := item_value items "TransactionDate" in
              let receipt_text :=
                match mpesaReceiptNumber with
                | Some v => string_of_value v
                | None => ""%string
                end in
              let txn :=
                match mpesaReceiptNumber with
                | Some v => string_of_value v
                | None => CheckoutRequestID cb
                end in
              let date :=
                match transactionDate with
                | Some v => Date_of_value v
                | None => paymentDate payment
                end in
              let updated :=
                set_callback_result payment paid (Some txn) (Some receipt_text) date in
              if match transactionDate, date with
                 | Some _, None => false     (* an invalid date fails the cast *)
                 | _, _ => validate schema updated
                 end
              then (update_nth i updated db,
                    {| http_status := 200; message := msg_processed;
                       resp_receiptNumber := None; resp_existingPayment := None;
                       resp_payment := None; resp_ResultCode := Some 0%Z |})
              else (db, {| http_status := 500; message := msg_exception;
                           resp_receiptNumber := None; resp_existingPayment := None;
                           resp_payment := None; resp_ResultCode := Some 1%Z |})
          | _, _ =>
              let updated :=
                set_callback_result payment pending (transactionId payment)
                  (referenceNumber payment) (paymentDate payment) in
              if validate schema updated
              then (update_nth i updated db,
                    {| http_status := 200; message := msg_failed;
                       resp_receiptNumber := None; resp_existingPayment := None;
                       resp_payment := None; resp_ResultCode := ResultCode cb |})
              else (db, {| http_status := 500; message := msg_exception;
                           resp_receiptNumber := None; resp_existingPayment := None;
                           resp_payment := None; resp_ResultCode := Some 1%Z |})
          end
      end
  end.

(** *** [router.post('/stk-push')]: initiating an STK push *)

Record StkPushBody : Type := {
  sp_phoneNumber : option string;
  sp_amount : JsAmount;
  sp_houseNumber : option string;
  sp_tenantId : option Id;
  sp_month : option string;
  sp_year : option Z
}.

(** The outcome of [mpesaService.initiateSTKPush]: the provider's checkout
    request id, or an exception, which the handler answers with 400 when
    its message names the configuration and with 500 otherwise. *)
Inductive PushResult : Type :=
| PushSent (checkoutRequestID : string)
| PushConfigError
| PushFailed.

(** The provider. *)
Variable initiateSTKPush : string -> JsAmount -> string -> PushResult.

Definition with_transactionId (p : Payment) (txn : string) : Payment :=
  set_callback_result p (status p) (Some txn) (referenceNumber p) (paymentDate p).

Definition stk_push (now : Z) (db : list Payment) (b : StkPushBody)
  : list Payment * Response :=
  match sp_phoneNumber b, sp_houseNumber b with
  | Some phoneNumber, Some hn =>
      if negb (Js.truthy_string phoneNumber) || negb (truthy_amount (sp_amount b))
         || negb (Js.truthy_string hn)
      then (db, reply 400 msg_fields_required)
      else
        match House_findByNumber houses (Js.trim hn) with
        | None => (db, reply 404 msg_house_not_found)
        | Some h =>
            match populate_tenant tenants h with
            | None => (db, reply 400 msg_no_tenant)
            | Some house_tenant =>
                match match sp_tenantId b with
                      | Some i => Tenant_findById tenants i
                      | None => Some house_tenant
                      end with
                | None => (db, reply 404 msg_tenant_not_found)
                | Some t =>
                    let paymentMonth :=
                      match sp_month b with
                      | Some m => if Js.truthy_string m then m else Js.month_string now
                      | None => Js.month_string now
                      end in
                    let paymentYear :=
                      match sp_year b with
                      | Some y => if Z.eqb y 0 then Js.getFullYear now else y
                      | None => Js.getFullYear now
                      end in
                    let receipt := receipt_number paymentYear (List.length db) in
                    match Js.Date_ymd paymentYear
                            (option_map (fun k => (k - 1)%Z) (Js.parseInt paymentMonth)) 1,
                          parseFloat (sp_amount b) with
                    | Some _, Some amt =>
                        let pendingPayment :=
                          channel_payment t h (Some amt) now paymentMonth paymentYear
                            pending None None (Some hn) src_mpesa_stk receipt in
                        match save db pendingPayment with
                        | None => (db, reply 500 msg_provider_error)
                        | Some db1 =>
                            match initiateSTKPush phoneNumber (sp_amount b) hn with
                            | PushSent checkoutRequestID =>
                                let stored := with_transactionId pendingPayment checkoutRequestID in
                                if validate schema stored
                                then (db ++ [stored],
                                      {| http_status := 200; message := msg_push_sent;
                                         resp_receiptNumber := Some receipt;
                                         resp_existingPayment := None;
                                         resp_payment := Some stored;
                                         resp_ResultCode := None |})
                                else (db1, reply 500 msg_provider_error)
                            | PushConfigError => (db1, reply 400 msg_provider_error)
                            | PushFailed => (db1, reply 500 msg_provider_error)
                            end
                        end
                    | _, _ => (db, reply 500 msg_provider_error)
                    end
                end
            end
        end
  | _, _ => (db, reply 400 msg_fields_required)
  end.

End Handlers.

(** ** Predicates of the properties *)

(** [{ tenant: i }]. *)
Definition tenant_is (i : Id) (p : Payment) : bool := opt_eqb Nat.eqb (tenant p) i.

(** The canonical two-digit name of month [m], as every handler writes it:
    [String(m).padStart(2, '0')]. *)
Definition month_name (m : Z) : string := Js.padStart 2 "0" (Js.String_of_Z m).

(** The period after ([m], [y]). *)
Definition next_period (m y : Z) : Z * Z :=
  if (m =? 12)%Z then (1%Z, (y + 1)%Z) else ((m + 1)%Z, y).

(** No record carries the transaction identifier of the notification, if
    it has one. *)
Definition unknown_txn (db : list Payment) (txn : option string) : Prop :=
  forall x, txn = Some x -> Js.truthy_string x = true -> findOne (txn_query x) db = None.

(** A record [p] created for the unit [h] without a ledger: every ledger
    attribute is the schema default, the stored amount is [stored], and
    the status follows from comparing [compared], the reported amount as
    the handler compares it, with the rent alone: ['partial'] when it is a
    number below the rent, ['paid'] otherwise. *)
Definition stores_no_ledger (schema : PaymentSchema) (compared : jsnum) (stored : Q)
    (h : House) (p : Payment) : Prop :=
  expectedAmount p = default_expectedAmount schema
  /\ paidAmount p = default_paidAmount schema
  /\ deficit p = default_deficit schema
  /\ carriedForward p = default_carriedForward schema
  /\ house p = Some (h_id h)
  /\ amount p = Some stored
  /\ match compared with
     | Some c => (c < rentAmount h -> status p = partial)
                 /\ (rentAmount h <= c -> status p = paid)
     | None => status p = paid
     end.






(** ** The validation of the Payment model *)

Definition nonnegative (x : option Q) : bool :=
  match x with
  | Some q => Qle_bool 0 q
  | None => true
  end.

(** Modelled from the spec: the validation that [save] runs, which is part
    of the Payment model ([models/Payment.js] is not among the sources).
    Spec 4.2: "negative or non-numeric proposed amounts are rejected with
    InvalidAmount".  A value that is not a number never reaches this check:
    it fails the cast of the attribute in the handler. *)
Definition spec_validate (p : Payment) : bool :=
  nonnegative (amount p) && nonnegative (paidAmount p).

(** Modelled from the spec: a Payment schema with that validation; the spec
    names no default for a ledger attribute. *)
Definition spec_schema : PaymentSchema :=
  {| default_expectedAmount := None;
     default_paidAmount := None;
     default_deficit := None;
     default_carriedForward := None;
     default_lateFee := None;
     validate := spec_validate |}.

(** ** Sample data *)

(** A document with no attribute set. *)
Definition blank_payment : Payment :=
  {| tenant := None; house := None; amount := None;
     expectedAmount := None; paidAmount := None; deficit := None;
     carriedForward := None; lateFee := None; dueDate := None;
     paymentDate := None; month := None; year := None;
     status := pending; transactionId := None;
     referenceNumber := None; receiptNumber := None;
     p_houseNumber := None; paymentSource := None;
     isAutoGenerated := false |}.

(** Unit "101" with rent 1200 and its tenant; unit "102" is let for free. *)
Definition house_101 : House :=
  {| h_id := 1%nat; houseNumber := "101"; rentAmount := 1200; h_tenant := Some 7%nat |}.

Definition house_102 : House :=
  {| h_id := 2%nat; houseNumber := "102"; rentAmount := 0; h_tenant := Some 8%nat |}.

Definition tenant_7 : Tenant :=
  {| t_id := 7%nat; firstName := "Amina"; lastName := "Otieno";
     bankAccountNumber := Some "0011223344"%string;
     t_house := Some 1%nat; t_status := active |}.

Definition tenant_8 : Tenant :=
  {| t_id := 8%nat; firstName := "Brian"; lastName := "Kamau";
     bankAccountNumber := None;
     t_house := Some 2%nat; t_status := active |}.

Definition sample_houses : list House := [house_101; house_102].
Definition sample_tenants : list Tenant := [tenant_7; tenant_8].

(** 2024-03-01 and 2024-03-11, 00:00 UTC. *)
Definition march_1 : Z := 1709251200000.
Definition march_11 : Z := 1710115200000.

Definition post_body (hn : string) (a : JsAmount) (m : string) : PostBody :=
  {| b_houseNumber := Some hn; b_house := None; b_tenant := None;
     b_amount := a; b_month := Some m; b_year := Some 2024%Z;
     b_receiptNumber := None; b_transactionId := None; b_dueDate := None |}.

(** Scenario B of the spec: 800 is paid against a rent of 1200. *)
Definition partial_march : Payment :=
  Eval vm_compute in
    nth 0 (fst (post_payment spec_schema sample_houses march_1 []
                  (post_body "101" (AmtNum 800) "03"))) blank_payment.

Definition april_body : GenerateBody :=
  {| g_month := Some "04"%string; g_year := Some 2024%Z;
     g_lateFeePercentage := None; g_gracePeriodDays := None |}.

(** 2024-04-11, 00:00 UTC: ten days after the due date of April. *)
Definition april_11 : Z := 1712793600000.

(** The record the generator creates on 1 March for April, for the tenant
    of unit "101" who still owes 400 for March. *)
Definition april_pending : Payment :=
  Eval vm_compute in
    nth 1 (fst (generate_monthly_rent spec_schema sample_houses [tenant_7] march_1
                  [partial_march] april_body)) blank_payment.

Definition default_sweep : SweepBody :=
  {| s_lateFeePercentage := None; s_gracePeriodDays := None |}.

(** A provider that accepts every push, and a runtime that parses no date
    string. *)
Definition sample_provider (phone : string) (a : JsAmount) (account : string)
  : PushResult := PushSent "ws_CO_01032024120000".

Definition no_date_parse (s : string) : option Z := None.

Definition push_body : StkPushBody :=
  {| sp_phoneNumber := Some "254712345678"%string;
     sp_amount := AmtNum 1200;
     sp_houseNumber := Some "101"%string;
     sp_tenantId := None; sp_month := None; sp_year := None |}.

(** Scenario C of the spec: the collection after the push for unit "101"
    was initiated. *)
Definition after_push : list Payment :=
  Eval vm_compute in
    fst (stk_push spec_schema sample_houses sample_tenants sample_provider
           march_1 [] push_body).

Definition success_callback : StkCallback :=
  {| CheckoutRequestID := "ws_CO_01032024120000";
     ResultCode := Some 0%Z;
     CallbackMetadata :=
       Some [ {| Name := "Amount"; Value := VNum 1200 |};
              {| Name := "MpesaReceiptNumber"; Value := VStr "SC12345XYZ" |};
              {| Name := "TransactionDate"; Value := VNum 20240301120000 |};
              {| Name := "PhoneNumber"; Value := VNum 254712345678 |} ] |}.

Definition after_callback : list Payment :=
  Eval vm_compute in
    fst (stk_callback spec_schema no_date_parse after_push success_callback).

(** The notification of the pay-bill test script: 1200 for unit "101". *)
Definition paybill_body : PaybillBody :=
  {| pb_accountNumber := Some "101"%string;
     pb_amount := AmtNum 1200;
     pb_transactionId := Some "TEST-20240301093000"%string;
     pb_referenceNumber := None;
     pb_paybillNumber := None |}.

Definition receive_body : ReceiveBody :=
  {| rc_houseNumber := Some "101"%string;
     rc_amount := AmtNum 1200;
     rc_transactionId := Some "BANK-778"%string;
     rc_referenceNumber := None |}.

Definition after_paybill : list Payment * Response :=
  Eval vm_compute in
    paybill spec_schema sample_houses sample_tenants None march_1 [] paybill_body.

Definition after_receive : list Payment * Response :=
  Eval vm_compute in
    receive spec_schema sample_houses sample_tenants march_1 [] receive_body.

(** A second pay-bill notification and a generic webhook notification for
    unit "101", ten days after the unit's March rent was paid in full. *)
Definition second_paybill_body : PaybillBody :=
  {| pb_accountNumber := Some "101"%string;
     pb_amount := AmtNum 500;
     pb_transactionId := Some "TEST-20240311101500"%string;
     pb_referenceNumber := None;
     pb_paybillNumber := None |}.

Definition paid_march : Payment :=
  Eval vm_compute in nth 0 (fst after_paybill) blank_payment.

(** 800 reported through pay-bill for unit "101", whose rent is 1200. *)
Definition shortfall_body : PaybillBody :=
  {| pb_accountNumber := Some "101"%string;
     pb_amount := AmtNum 800;
     pb_transactionId := Some "TEST-20240301110000"%string;
     pb_referenceNumber := None;
     pb_paybillNumber := None |}.

Definition after_shortfall : list Payment * Response :=
  Eval vm_compute in
    paybill spec_schema sample_houses sample_tenants None march_1 [] shortfall_body.





(** ** Calendar arithmetic within one era of 400 years *)

Module Era.

Local Open Scope Z_scope.

(** The part of [Js.civil_from_days] that depends on the day of the era
    only: the year of the era (years start in March), the month and the
    day. *)
Definition date_of_day (doe : Z) : Z * Z * Z :=
  let yoe := (doe - doe / 1460 + doe / 36524 - doe / 146096) / 365 in
  let doy := doe - (365 * yoe + yoe / 4 - yoe / 100) in
  let mp := (5 * doy + 2) / 153 in
  let d := doy - (153 * mp + 2) / 5 + 1 in
  let m := if mp <? 10 then mp + 3 else mp - 9 in
  (yoe, m, d).

(** The part of [Js.days_from_civil] that depends on the year of the era,
    the month and the day. *)
Definition day_of_date (yoe m d : Z) : Z :=
  let mp := if m >? 2 then m - 3 else m + 9 in
  let doy := (153 * mp + 2) / 5 + d - 1 in
  yoe * 365 + yoe / 4 - yoe / 100 + doy.

(** [f] holds on the [n] integers from [z] on. *)
Fixpoint all_from (f : Z -> bool) (n : nat) (z : Z) : bool :=
  match n with
  | O => true
  | S k => f z && all_from f k (z + 1)
  end.

Definition day_ok (doe : Z) : bool :=
  let '(yoe, m, d) := date_of_day doe in
  (0 <=? yoe) && (yoe <=? 399) && (1 <=? m) && (m <=? 12)
  && (1 <=? d) && (d <=? 31) && (day_of_date yoe m d =? doe).

(** The first day of month [i mod 12 + 1] of year [i / 12] of the era. *)
Definition first_ok (i : Z) : bool :=
  let yoe := i / 12 in
  let m := i mod 12 + 1 in
  let doe := day_of_date yoe m 1 in
  (0 <=? doe) && (doe <? 146097)
  && match date_of_day doe with
     | (yoe', m', d') => (yoe' =? yoe) && (m' =? m) && (d' =? 1)
     end.

End Era.

(** ** More of the [Date] object *)

Module JsDate.

Local Open Scope Z_scope.

(** [d.getDate()], the day of the month. *)
Definition getDate (t : Z) : Z :=
  let '(_, _, d) := Js.civil_from_days (t / Js.ms_per_day) in d.

End JsDate.

(** [due] is midnight of the first day of the month of [t]. *)
Definition first_of_month (t due : Z) : Prop :=
  Js.getFullYear due = Js.getFullYear t
  /\ Js.getMonth due = Js.getMonth t
  /\ JsDate.getDate due = 1%Z
  /\ (due mod Js.ms_per_day = 0)%Z
  /\ (due <= t)%Z.

(** ** Predicates of the further properties *)

(** Every tenant of [ts] who has a unit has a record for the period
    ([tm], [ty]). *)
Definition period_recorded (houses : list House) (tm : string) (ty : Z)
    (db : list Payment) (ts : list Tenant) : Prop :=
  forall t h, In t ts -> populate_house houses t = Some h ->
    is_some (findOne (period_query (t_id t) (h_id h) tm ty) db) = true.

(** The tenants of [ts] who have a unit. *)
Definition housed (houses : list House) (ts : list Tenant) : list Tenant :=
  filter (fun t => is_some (populate_house houses t)) ts.

(** [p'] is [p] up to its status and its late fee. *)
Definition same_but_status_and_fee (p p' : Payment) : Prop :=
  tenant p' = tenant p /\ house p' = house p /\ amount p' = amount p
  /\ expectedAmount p' = expectedAmount p /\ paidAmount p' = paidAmount p
  /\ deficit p' = deficit p /\ carriedForward p' = carriedForward p
  /\ dueDate p' = dueDate p /\ paymentDate p' = paymentDate p
  /\ month p' = month p /\ year p' = year p
  /\ transactionId p' = transactionId p /\ referenceNumber p' = referenceNumber p
  /\ receiptNumber p' = receiptNumber p /\ p_houseNumber p' = p_houseNumber p
  /\ paymentSource p' = paymentSource p /\ isAutoGenerated p' = isAutoGenerated p.

(** What the sweep may do to one record. *)
Definition swept (p p' : Payment) : Prop :=
  same_but_status_and_fee p p'
  /\ (p' = p \/ (sweep_selects p = true /\ status p' = overdue))
  /\ (forall f, lateFee p = Some f -> ~ f == 0 -> lateFee p' = Some f)
  /\ (lateFee p = None -> lateFee p' = None).

(** A callback that reports a failure or a cancellation: not
    [ResultCode === 0 && CallbackMetadata]. *)
Definition reports_failure (cb : StkCallback) : Prop :=
  match ResultCode cb, CallbackMetadata cb with
  | Some 0%Z, Some _ => False
  | _, _ => True
  end.

(** A success callback for the checkout id "ws_CO_01032024120000" that
    carries no receipt item, and a failure callback for the same id. *)
Definition bare_success_callback : StkCallback :=
  {| CheckoutRequestID := "ws_CO_01032024120000";
     ResultCode := Some 0%Z;
     CallbackMetadata := Some [ {| Name := "Amount"; Value := VNum 1200 |} ] |}.

Definition cancelled_callback : StkCallback :=
  {| CheckoutRequestID := "ws_CO_01032024120000";
     ResultCode := Some 1032%Z;
     CallbackMetadata := None |}.

Definition after_bare_success : list Payment :=
  Eval vm_compute in
    fst (stk_callback spec_schema no_date_parse after_push bare_success_callback).

(** A record dated [t] is booked under the month of [t] and due on the
    first day of that month. *)
Definition due_in_month_of (t : Z) (p : Payment) : Prop :=
  paymentDate p = Some t
  /\ month p = Some (Js.month_string t)
  /\ year p = Some (Js.getFullYear t)
  /\ exists due, dueDate p = Some due /\ first_of_month t due.

(** The calendar of [new Date(year, monthIndex, day)] reads years 0 to 99
    as 1900 to 1999: the properties of due dates are stated for the other
    years. *)
Definition plain_year (t : Z) : Prop :=
  (Js.getFullYear t < 0 \/ 99 < Js.getFullYear t)%Z.

(** ** The validation hook and the unit search of [routes/payments.js] *)

Record ValidationBody : Type := {
  v_BillRefNumber : option string;
  v_AccountReference : option string
}.

(** [router.post('/mpesa-validation')]: the [ResultCode] of the answer, 0
    for "Accepted" and 1 for "Invalid account number".  [house.tenant] is
    the reference itself here, not the populated tenant. *)
Definition mpesa_validation (houses : list House) (b : ValidationBody) : Z :=
  match Js.or_string (v_BillRefNumber b) (v_AccountReference b) with
  | Some accountNumber =>
      if Js.truthy_string accountNumber then
        match House_findByNumber houses (Js.trim accountNumber) with
        | Some house => if is_some (h_tenant house) then 0%Z else 1%Z
        | None => 1%Z
        end
      else 0%Z
  | None => 0%Z
  end.

(** [router.get('/search/house/:houseNumber')]: [None] for the 404
    answer, otherwise the unit and [canReceivePayment: !!house.tenant],
    where [house.tenant] is the populated tenant. *)
Definition search_house (houses : list House) (tenants : list Tenant)
    (houseNumber_ : string) : option (House * bool) :=
  match House_findByNumber houses houseNumber_ with
  | None => None
  | Some house => Some (house, is_some (populate_tenant tenants house))
  end.

(** ** The analytics of [routes/payments.js] *)

(** [p.paidAmount || p.amount || 0] and [p.expectedAmount || p.amount || 0]:
    a number that is missing or 0 gives way to the next. *)
Definition or_number (a : option Q) (b : Q) : Q :=
  match a with
  | Some x => if Qeq_bool x 0 then b else x
  | None => b
  end.

Definition paid_value (p : Payment) : Q :=
  or_number (paidAmount p) (or_number (amount p) 0).

Definition expected_value (p : Payment) : Q :=
  or_number (expectedAmount p) (or_number (amount p) 0).

(** [payments.reduce((sum, p) => sum + value(p), 0)]. *)
Definition sum_of (value : Payment -> Q) (payments : list Payment) : Q :=
  fold_left (fun sum p => sum + value p) payments 0.

(** [{ year, month }] and [{ year, month, status }]. *)
Definition month_query (y : Z) (m : string) (p : Payment) : bool :=
  opt_eqb Z.eqb (year p) y && opt_eqb String.eqb (month p) m.

Definition has_status (s : Status) (p : Payment) : bool := Status_eqb (status p) s.

(** [parseInt(months)] of [const { months = 6 } = req.query]. *)
Definition months_param (months : option string) : option Z :=
  match months with
  | None => Some 6%Z
  | Some s => Js.parseInt s
  end.

(** The values that [i] takes in
    [for (let i = parseInt(months) - 1; i >= 0; i--)]: none when the
    parameter is no number. *)
Fixpoint count_down (n : nat) : list Z :=
  match n with
  | O => []
  | S k => Z.of_nat k :: count_down k
  end.

Definition loop_indices (months : option string) : list Z :=
  match months_param months with
  | Some n => count_down (Z.to_nat n)
  | None => []
  end.

(** [new Date(now.getFullYear(), now.getMonth() - i, 1)]. *)
Definition month_back (now i : Z) : option Z :=
  Js.Date_ymd (Js.getFullYear now) (Some (Js.getMonth now - i)%Z) 1.

Record TrendEntry : Type := {
  te_month : string;
  te_year : Z;
  te_value : Q
}.

Record StatusEntry : Type := {
  se_month : string;
  se_year : Z;
  se_paid : Q;
  se_pending : Q;
  se_overdue : Q
}.

(** One pass of the loop of [/analytics/revenue-trend]; the label, which
    the locale formats, is left out. *)
Definition revenue_entry (now : Z) (db : list Payment) (i : Z) : option TrendEntry :=
  match month_back now i with
  | None => None
  | Some date =>
      let month_ := Js.month_string date in
      let year_ := Js.getFullYear date in
      let payments :=
        filter (fun p => month_query year_ month_ p && has_status paid p) db in
      Some {| te_month := month_; te_year := year_;
              te_value := sum_of paid_value payments |}
  end.

(** One pass of the loop of [/analytics/payment-status]. *)
Definition status_entry (now : Z) (db : list Payment) (i : Z) : option StatusEntry :=
  match month_back now i with
  | None => None
  | Some date =>
      let month_ := Js.month_string date in
      let year_ := Js.getFullYear date in
      let payments := filter (month_query year_ month_) db in
      Some {| se_month := month_; se_year := year_;
              se_paid := sum_of paid_value (filter (has_status paid) payments);
              se_pending := sum_of expected_value (filter (has_status pending) payments);
              se_overdue := sum_of expected_value (filter (has_status overdue) payments) |}
  end.

(** [router.get('/analytics/revenue-trend')] and
    [router.get('/analytics/payment-status')]: the entries in the order
    they are pushed. *)
Definition revenue_trend (now : Z) (months : option string) (db : list Payment)
  : list (option TrendEntry) :=
  map (revenue_entry now db) (loop_indices months).

Definition payment_status (now : Z) (months : option string) (db : list Payment)
  : list (option StatusEntry) :=
  map (status_entry now db) (loop_indices months).

(** The number of a month on a line of months: twelve to the year. *)
Definition month_number (y : Z) (m : string) : option Z :=
  option_map (fun k => (y * 12 + (k - 1))%Z) (Js.parseInt m).

(** A confirmation for the account "999", which is no unit. *)
Definition stray_confirmation : ConfirmationBody :=
  {| TransID := Some "SC70001XYZ"%string;
     TransTime := Some march_1;
     TransAmount := AmtNum 1200;
     BillRefNumber := Some "999"%string |}.

(** The revenue trend of three months, asked for on 11 March 2024 on an
    empty collection. *)
Definition march_trend : list (option TrendEntry) :=
  Eval vm_compute in revenue_trend march_11 (Some "3"%string) [].

(** The entry [e] with [v] added to its value when it is the entry of the
    month [m] of year [y]. *)
Definition credited (y : Z) (m : string) (v : Q) (e : TrendEntry) : TrendEntry :=
  if Z.eqb (te_year e) y && String.eqb (te_month e) m
  then {| te_month := te_month e; te_year := te_year e; te_value := te_value e + v |}
  else e.

(** ** The M-Pesa service ([services/mpesaService.js]) *)

Module Mpesa.

Local Open Scope string_scope.

(** [s.replace(/\s+/g, '')], on ASCII white space. *)
Fixpoint remove_spaces (s : string) : string :=
  match s with
  | EmptyString => EmptyString
  | String c r => if Js.is_space c then remove_spaces r else String c (remove_spaces r)
  end.

(** [s.replace(/^\+/, '')]. *)
Definition strip_plus (s : string) : string :=
  match s with
  | String "+" r => r
  | _ => s
  end.

(** [s.substring(1)]. *)
Definition substring_1 (s : string) : string :=
  match s with
  | String _ r => r
  | EmptyString => EmptyString
  end.

(** The formatting of the phone number in [initiateSTKPush]. *)
Definition formatPhone (phoneNumber : string) : string :=
  let formattedPhone := strip_plus (remove_spaces phoneNumber) in
  if String.prefix "254" formattedPhone then formattedPhone
  else if String.prefix "0" formattedPhone then "254" ++ substring_1 formattedPhone
  else "254" ++ formattedPhone.

(** [process.env], as far as the service reads it. *)
Record Env : Type := {
  MPESA_CONSUMER_KEY : option string;
  MPESA_CONSUMER_SECRET : option string;
  MPESA_SHORTCODE : option string;
  MPESA_PASSKEY : option string;
  MPESA_CALLBACK_URL : option string
}.

(** [!v || !String(v).trim()]. *)
Definition blank (v : option string) : bool :=
  match v with
  | Some s => negb (Js.truthy_string s) || negb (Js.truthy_string (Js.trim s))
  | None => true
  end.

Definition missing (env : Env) : list string :=
  (if blank (MPESA_CONSUMER_KEY env) then ["MPESA_CONSUMER_KEY"] else [])
  ++ (if blank (MPESA_CONSUMER_SECRET env) then ["MPESA_CONSUMER_SECRET"] else [])
  ++ (if blank (MPESA_SHORTCODE env) then ["MPESA_SHORTCODE"] else [])
  ++ (if blank (MPESA_PASSKEY env) then ["MPESA_PASSKEY"] else [])
  ++ (if blank (MPESA_CALLBACK_URL env) then ["MPESA_CALLBACK_URL"] else []).

(** [list.join(sep)]. *)
Fixpoint join (sep : string) (l : list string) : string :=
  match l with
  | [] => ""
  | [x] => x
  | x :: r => x ++ sep ++ join sep r
  end.

(** The body of an HTTP error answer of the provider, as far as the
    service reads it. *)
Record HttpError : Type := {
  he_status : Z;
  he_errorMessage : option string;
  he_error_description : option string;
  he_error : option string
}.

(** An exception: its message and, for a request that was answered with
    an error, that answer ([error.response]). *)
Record Exception : Type := {
  ex_message : string;
  ex_response : option HttpError
}.

Definition new_Error (msg : string) : Exception :=
  {| ex_message := msg; ex_response := None |}.

(** [validateConfig()]: the exception it throws, if any. *)
Definition validateConfig (env : Env) : option Exception :=
  match missing env with
  | [] => None
  | names =>
      Some (new_Error ("Missing M-Pesa configuration: " ++ join ", " names
                       ++ ". Please check your .env file."))
  end.

(** The token the service object holds on to. *)
Record TokenState : Type := {
  accessToken : option string;
  tokenExpiry : option Z
}.

(** What comes back from the token request. *)
Inductive OAuthReply : Type :=
| OAuthAnswer (access_token : option string)   (* a response, with or without a token *)
| OAuthRefused (e : HttpError) (msg : string)  (* an error that carries a response *)
| OAuthFailed (msg : string).                  (* an error without a response *)

(** [this.accessToken && this.tokenExpiry && Date.now() < this.tokenExpiry]. *)
Definition cached_token (st : TokenState) (now : Z) : option string :=
  match accessToken st, tokenExpiry st with
  | Some token, Some expiry =>
      if Js.truthy_string token && negb (Z.eqb expiry 0) && (now <? expiry)%Z
      then Some token else None
  | _, _ => None
  end.

(** [data?.error_description || data?.error || fallback]. *)
Definition error_text (e : HttpError) (fallback : string) : string :=
  match Js.or_string (he_error_description e) (he_error e) with
  | Some s => if Js.truthy_string s then s else fallback
  | None => fallback
  end.

(** The [catch] of [getAccessToken] on an error that carries a response. *)
Definition token_error (e : HttpError) (msg : string) : Exception :=
  if Z.eqb (he_status e) 400 then
    new_Error ("M-Pesa authentication failed: " ++ error_text e "Invalid credentials"
               ++ ". Please verify your Consumer Key and Secret in the .env file.")
  else if Z.eqb (he_status e) 401 then
    new_Error "M-Pesa authentication failed: Unauthorized. Please check your Consumer Key and Secret."
  else
    new_Error ("M-Pesa API error (" ++ Js.String_of_Z (he_status e) ++ "): "
               ++ error_text e msg).

(** [getAccessToken()] at time [now]; [reply] is what the token request
    gets, at time [received], if it is made.  The result is the state of
    the service, the token or the exception, and whether the request was
    made. *)
Definition getAccessToken (env : Env) (st : TokenState) (now received : Z)
    (reply : OAuthReply) : TokenState * (string + Exception) * bool :=
  match validateConfig env with
  | Some e => (st, inr e, false)
  | None =>
      match cached_token st now with
      | Some token => (st, inl token, false)
      | None =>
          if negb (Js.truthy_opt_string (MPESA_CONSUMER_KEY env))
             || negb (Js.truthy_opt_string (MPESA_CONSUMER_SECRET env))
          then (st, inr (new_Error "M-Pesa Consumer Key and Secret are required. Please configure them in your .env file."), false)
          else
            match reply with
            | OAuthAnswer (Some token) =>
                if Js.truthy_string token
                then ({| accessToken := Some token;
                         tokenExpiry := Some (received + 3500 * 1000)%Z |},
                      inl token, true)
                else (st, inr (new_Error "Invalid response from M-Pesa: No access token received"), true)
            | OAuthAnswer None =>
                (st, inr (new_Error "Invalid response from M-Pesa: No access token received"), true)
            | OAuthRefused e msg => (st, inr (token_error e msg), true)
            | OAuthFailed msg => (st, inr (new_Error msg), true)
            end
      end
  end.

(** The body of the push request. *)
Record StkRequest : Type := {
  BusinessShortCode : option string;
  Password : string;
  Timestamp : string;
  Amount : option Z;
  PartyA : string;
  PartyB : option string;
  PhoneNumber : string;
  CallBackURL : option string;
  AccountReference : string;
  TransactionDesc : string
}.

(** What comes back from the push request. *)
Inductive StkReply : Type :=
| StkAccepted (CheckoutRequestID : string)
| StkRefused (e : HttpError)
| StkFailed (msg : string).

(** [Math.round(amount)]: the nearest integer, halves upwards. *)
Definition Math_round (a : JsAmount) : option Z :=
  match toNumber a with
  | Some q => Some (Qfloor (q + (1 # 2))%Q)
  | None => None
  end.

(** [new Error(error.response?.data?.errorMessage
    || 'Failed to initiate M-Pesa payment')], the [catch] of
    [initiateSTKPush]. *)
Definition push_error (e : Exception) : Exception :=
  new_Error
    match ex_response e with
    | Some r =>
        match he_errorMessage r with
        | Some m => if Js.truthy_string m then m else "Failed to initiate M-Pesa payment"
        | None => "Failed to initiate M-Pesa payment"
        end
    | None => "Failed to initiate M-Pesa payment"
    end.

Section Service.

(** [Buffer.from(s).toString('base64')] and the time stamp
    [new Date().toISOString().replace(/[^0-9]/g, '').slice(0, -3)]. *)
Variable base64 : string -> string.
Variable timestamp : Z -> string.

Definition String_or_undefined (v : option string) : string :=
  match v with Some s => s | None => "undefined" end.

(** [generatePassword()] at time [now]. *)
Definition generatePassword (env : Env) (now : Z) : string * string :=
  (base64 (String_or_undefined (MPESA_SHORTCODE env)
           ++ String_or_undefined (MPESA_PASSKEY env) ++ timestamp now),
   timestamp now).

Definition push_request (env : Env) (now : Z) (phoneNumber : string) (amount : JsAmount)
    (accountReference transactionDesc : string) : StkRequest :=
  let '(password, stamp) := generatePassword env now in
  let formattedPhone := formatPhone phoneNumber in
  {| BusinessShortCode := MPESA_SHORTCODE env;
     Password := password;
     Timestamp := stamp;
     Amount := Math_round amount;
     PartyA := formattedPhone;
     PartyB := MPESA_SHORTCODE env;
     PhoneNumber := formattedPhone;
     CallBackURL := MPESA_CALLBACK_URL env;
     AccountReference := accountReference;
     TransactionDesc :=
       if Js.truthy_string transactionDesc then transactionDesc
       else "Rent payment for house " ++ accountReference |}.

(** [initiateSTKPush(phoneNumber, amount, accountReference,
    transactionDesc)] at time [now]: [oauth] and [provider] are what the
    token request and the push request get, if they are made, and
    [stamped] is the time at which the password is generated.  The result
    is the state of the service and the checkout request id or the
    exception. *)
Definition initiateSTKPush (env : Env) (st : TokenState) (now received stamped : Z)
    (oauth : OAuthReply) (provider : string -> StkRequest -> StkReply)
    (phoneNumber : string) (amount : JsAmount)
    (accountReference transactionDesc : string)
  : TokenState * (string + Exception) :=
  match validateConfig env with
  | Some e => (st, inr (push_error e))
  | None =>
      match getAccessToken env st now received oauth with
      | (st', inr e, _) => (st', inr (push_error e))
      | (st', inl token, _) =>
          match provider token
                  (push_request env stamped phoneNumber amount accountReference
                     transactionDesc) with
          | StkAccepted id => (st', inl id)
          | StkRefused e =>
              (st', inr (push_error {| ex_message := ""; ex_response := Some e |}))
          | StkFailed msg => (st', inr (push_error (new_Error msg)))
          end
      end
  end.

(** [s.includes(sub)]. *)
Definition includes (s sub : string) : bool := is_some (String.index 0 sub s).

(** The [catch] of the [/stk-push] handler: 400 when the message names the
    configuration or the credentials, 500 otherwise. *)
Definition names_configuration (msg : string) : bool :=
  includes msg "Missing M-Pesa configuration"
  || includes msg "Consumer Key"
  || includes msg "authentication failed".

(** The service as the [/stk-push] handler sees it. *)
Definition push_result (outcome : string + Exception) : PushResult :=
  match outcome with
  | inl id => PushSent id
  | inr e => if names_configuration (ex_message e) then PushConfigError else PushFailed
  end.

Definition handler_provider (env : Env) (st : TokenState) (now received stamped : Z)
    (oauth : OAuthReply) (provider : string -> StkRequest -> StkReply)
    (phoneNumber : string) (amount : JsAmount) (houseNumber_ : string) : PushResult :=
  push_result
    (snd (initiateSTKPush env st now received stamped oauth provider phoneNumber amount
            houseNumber_ ("Rent payment for house " ++ houseNumber_))).

End Service.

End Mpesa.

(** An environment without a pass key, a service that holds no token,
    and a provider that would accept every push. *)
Definition env_without_passkey : Mpesa.Env :=
  {| Mpesa.MPESA_CONSUMER_KEY := Some "key"%string;
     Mpesa.MPESA_CONSUMER_SECRET := Some "secret"%string;
     Mpesa.MPESA_SHORTCODE := Some "174379"%string;
     Mpesa.MPESA_PASSKEY := None;
     Mpesa.MPESA_CALLBACK_URL := Some "http://localhost:7000/api/mpesa/callback"%string |}.

Definition complete_env : Mpesa.Env :=
  {| Mpesa.MPESA_CONSUMER_KEY := Some "key"%string;
     Mpesa.MPESA_CONSUMER_SECRET := Some "secret"%string;
     Mpesa.MPESA_SHORTCODE := Some "174379"%string;
     Mpesa.MPESA_PASSKEY := Some "passkey"%string;
     Mpesa.MPESA_CALLBACK_URL := Some "http://localhost:7000/api/mpesa/callback"%string |}.

Definition no_token : Mpesa.TokenState :=
  {| Mpesa.accessToken := None; Mpesa.tokenExpiry := None |}.

Definition accepting_provider (token : string) (request : Mpesa.StkRequest)
  : Mpesa.StkReply := Mpesa.StkAccepted "ws_CO_01032024120000".

Definition plain_base64 (s : string) : string := s.
Definition no_timestamp (t : Z) : string := ""%string.

(** ** [router.delete('/:id')] *)

(** The collection without the record at position [i]. *)
Fixpoint remove_at {A : Type} (i : nat) (l : list A) : list A :=
  match l, i with
  | [], _ => []
  | _ :: l', O => l'
  | x :: l', S i' => x :: remove_at i' l'
  end.

(** [authorize('superadmin')] and the handler, for an authenticated user
    with the role [role]: the HTTP status and the collection afterwards.
    As in [put_payment], a record is addressed by its position. *)
Definition delete_payment (role : string) (db : list Payment) (id : nat)
  : list Payment * Z :=
  if negb (String.eqb role "superadmin") then (db, 403%Z)
  else
    match nth_error db id with
    | None => (db, 404%Z)
    | Some _ => (remove_at id db, 200%Z)
    end.

(** The number that a receipt number carries after the year, read back. *)
Definition serial_of (s : string) : option N :=
  option_map Pos.of_uint (NilEmpty.uint_of_string s).

(** A pay-bill notification for unit "102", on 11 March. *)
Definition paybill_102 : PaybillBody :=
  {| pb_accountNumber := Some "102"%string;
     pb_amount := AmtNum 500;
     pb_transactionId := Some "TEST-20240311101500"%string;
     pb_referenceNumber := None;
     pb_paybillNumber := None |}.

(** The record that the pay-bill notification for unit "101" creates when
    the collection holds the partial payment of March. *)
Definition second_record : Payment :=
  Eval vm_compute in
    nth 1 (fst (paybill spec_schema sample_houses sample_tenants None march_1
                  [partial_march] paybill_body)) blank_payment.

(** * Properties *)

(** ** Comparisons on amounts *)

Lemma Qlt_bool_iff (a b : Q) : Qlt_bool a b = true <-> a < b.
Proof.
  unfold Qlt_bool. rewrite negb_true_iff. split.
  - intro H. apply Qnot_le_lt. intro Hle.
    apply Qle_bool_iff in Hle. congruence.
  - intro H. destruct (Qle_bool b a) eqn:E; [|reflexivity].
    apply Qle_bool_iff in E. exfalso. exact (Qlt_not_le _ _ H E).
Qed.

Lemma Qlt_bool_false (a b : Q) : Qlt_bool a b = false <-> b <= a.
Proof.
  unfold Qlt_bool. rewrite negb_false_iff. apply Qle_bool_iff.
Qed.

Lemma Qle_bool_false (a b : Q) : Qle_bool a b = false <-> b < a.
Proof.
  rewrite <- Qlt_bool_iff. unfold Qlt_bool.
  destruct (Qle_bool a b); simpl; split; congruence.
Qed.

(** [Math.max(0, x)] is [x] itself when [x] is positive and the literal 0
    otherwise. *)
Lemma Qmax0_pos (x : Q) : 0 < x -> Qmax 0 x = x.
Proof.
  intro H. unfold Qmax, GenericMinMax.gmax.
  rewrite (proj1 (Qlt_alt 0 x) H). reflexivity.
Qed.

Lemma Qmax0_nonpos (x : Q) : x <= 0 -> Qmax 0 x = 0.
Proof.
  intro H. unfold Qmax, GenericMinMax.gmax.
  destruct (0 ?= x) eqn:E; try reflexivity.
  exfalso. exact (Qlt_not_le _ _ (proj2 (Qlt_alt 0 x) E) H).
Qed.

Lemma Qminus_pos (e p : Q) : p < e -> 0 < e - p.
Proof. intro H. unfold Qminus. rewrite <- Qlt_minus_iff. exact H. Qed.

Lemma Qminus_nonpos (e p : Q) : e <= p -> e - p <= 0.
Proof.
  intro H. apply Qnot_lt_le. intro H0. unfold Qminus in H0.
  rewrite <- Qlt_minus_iff in H0. exact (Qlt_not_le _ _ H0 H).
Qed.

(** ** The ledger calculation on a numeric proposed amount *)

Lemma post_put_status_agree (expected : Q) (paidAmt : jsnum) :
  post_status expected paidAmt = put_status expected paidAmt.
Proof. reflexivity. Qed.

Lemma post_status_paid (expected p : Q) :
  expected <= p -> post_status expected (Some p) = paid.
Proof.
  intro H. unfold post_status, num_ge.
  apply Qle_bool_iff in H. rewrite H. reflexivity.
Qed.

Lemma post_status_partial (expected p : Q) :
  0 < p -> p < expected -> post_status expected (Some p) = partial.
Proof.
  intros H0 H1. unfold post_status, num_ge, num_gt, num_lt.
  apply Qle_bool_false in H1. rewrite H1.
  apply Qlt_bool_iff in H0. rewrite H0. reflexivity.
Qed.

Lemma post_status_pending (expected p : Q) :
  p <= 0 -> p < expected -> post_status expected (Some p) = pending.
Proof.
  intros H0 H1. unfold post_status, num_ge, num_gt, num_lt.
  apply Qle_bool_false in H1. rewrite H1.
  apply Qlt_bool_false in H0. rewrite H0. reflexivity.
Qed.

Lemma post_status_not_overdue (expected : Q) (paidAmt : jsnum) :
  post_status expected paidAmt <> overdue.
Proof.
  unfold post_status.
  destruct (num_ge paidAmt (Some expected)); [discriminate|].
  destruct (num_gt paidAmt (Some 0)); discriminate.
Qed.

(** ** What a successful [POST /] and [PUT /:id] store *)

Lemma save_Some schema db p db' :
  save schema db p = Some db' -> db' = db ++ [p] /\ validate schema p = true.
Proof.
  unfold save. destruct (validate schema p); intro H; inversion H; auto.
Qed.

Lemma post_payment_inv schema houses now db b db' resp p :
  post_payment schema houses now db b = (db', resp) ->
  resp_payment resp = Some p ->
  exists h pa,
    house_of houses p = Some h
    /\ proposed_paid (b_amount b) = Some pa
    /\ expectedAmount p
       = Some (rentAmount h + post_carried db (tenant p) (month p) (year p) h)
    /\ carriedForward p = Some (post_carried db (tenant p) (month p) (year p) h)
    /\ paidAmount p = Some pa
    /\ deficit p
       = Some (Qmax 0 (rentAmount h + post_carried db (tenant p) (month p) (year p) h - pa))
    /\ status p
       = post_status (rentAmount h + post_carried db (tenant p) (month p) (year p) h)
           (Some pa)
    /\ db' = db ++ [p]
    /\ validate schema p = true
    /\ http_status resp = 201%Z.
Proof.
  unfold post_payment. intros H Hp.
  repeat match type of H with
         | context [match ?x with _ => _ end] => destruct x eqn:?
         end;
    inversion H; subst; simpl in Hp; try discriminate;
    inversion Hp; subst; clear Hp H;
    unfold house_of; simpl;
    match goal with
    | E : proposed_paid _ = Some ?q, F : ledger_deficit _ _ = Some ?d,
      S : save _ _ _ = Some _ |- _ =>
        apply save_Some in S; destruct S as [-> Hv];
        eexists; exists q; simpl in F;
        inversion F; subst; repeat split; eauto
    end.
Qed.

Lemma put_payment_inv schema houses db id amt db' resp p :
  put_payment schema houses db id amt = (db', resp) ->
  amt <> AmtAbsent ->
  resp_payment resp = Some p ->
  exists old e pa,
    nth_error db id = Some old
    /\ put_expected_amount houses old = Some e
    /\ toNumber amt = Some pa
    /\ paidAmount p = Some pa
    /\ deficit p = Some (Qmax 0 (e - pa))
    /\ status p = put_status e (Some pa)
    /\ expectedAmount p = expectedAmount old
    /\ db' = update_nth id p db
    /\ http_status resp = 200%Z.
Proof.
  unfold put_payment, put_expected_amount, house_of. intros H Ha Hp.
  destruct (nth_error db id) as [old|] eqn:Hold; [|inversion H; subst; discriminate].
  destruct amt as [|q|q| |n f]; try congruence;
    repeat match type of H with
           | context [match ?x with _ => _ end] => destruct x eqn:?
           end;
    inversion H; subst; simpl in Hp; try discriminate;
    inversion Hp; subst; clear Hp H; simpl in *;
    try discriminate;
    repeat match goal with
           | E : Some _ = Some _ |- _ => inversion E; subst; clear E
           end;
    do 3 eexists; repeat split; eauto.
Qed.

(** ** C1: the ledger calculation *)

(** The cases of the calculation on an expected amount [e] and a numeric
    proposed amount [q]. *)
Lemma ledger_cases (e q : Q) :
  (e <= q -> post_status e (Some q) = paid /\ Qmax 0 (e - q) = 0)
  /\ (0 < q -> q < e -> post_status e (Some q) = partial /\ Qmax 0 (e - q) = e - q)
  /\ (q == 0 -> 0 < e -> post_status e (Some q) = pending)
  /\ post_status e (Some q) <> overdue.
Proof.
  repeat split.
  - apply post_status_paid; assumption.
  - apply Qmax0_nonpos, Qminus_nonpos; assumption.
  - apply post_status_partial; assumption.
  - apply Qmax0_pos, Qminus_pos; assumption.
  - intros H0 He. apply post_status_pending.
    + rewrite H0. apply Qle_refl.
    + rewrite H0. exact He.
  - apply post_status_not_overdue.
Qed.

(** C1 (as amended).  A record stored by [POST /] or recalculated by
    [PUT /:id] against the expected amount [e] with the numeric proposed
    amount [q] has deficit [max(0, e - q)]; it is ['paid'] with deficit 0
    when [q >= e]; ['partial'] with deficit [e - q] when [0 < q < e];
    ['pending'] when [q = 0] and [e] is positive; and it is never
    ['overdue'].  For [POST /] the expected amount is the rent plus the
    amount carried forward. *)
Theorem ledger_calculation schema houses :
  (forall now db b db' resp p,
      post_payment schema houses now db b = (db', resp) ->
      resp_payment resp = Some p ->
      exists h c e q,
        house_of houses p = Some h
        /\ carriedForward p = Some c
        /\ e = rentAmount h + c
        /\ expectedAmount p = Some e
        /\ proposed_paid (b_amount b) = Some q
        /\ paidAmount p = Some q
        /\ deficit p = Some (Qmax 0 (e - q))
        /\ (e <= q -> status p = paid /\ deficit p = Some 0)
        /\ (0 < q -> q < e -> status p = partial /\ deficit p = Some (e - q))
        /\ (q == 0 -> 0 < e -> status p = pending)
        /\ status p <> overdue)
  /\ (forall db id amt db' resp p,
         put_payment schema houses db id amt = (db', resp) ->
         amt <> AmtAbsent ->
         resp_payment resp = Some p ->
         exists old e q,
           nth_error db id = Some old
           /\ put_expected_amount houses old = Some e
           /\ toNumber amt = Some q
           /\ paidAmount p = Some q
           /\ deficit p = Some (Qmax 0 (e - q))
           /\ (e <= q -> status p = paid /\ deficit p = Some 0)
           /\ (0 < q -> q < e -> status p = partial /\ deficit p = Some (e - q))
           /\ (q == 0 -> 0 < e -> status p = pending)
           /\ status p <> overdue).
Proof.
  split.
  - intros now db b db' resp p H Hp.
    destruct (post_payment_inv _ _ _ _ _ _ _ _ H Hp)
      as (h & q & Hh & Hq & He & Hc & Hpa & Hd & Hs & _).
    set (e := rentAmount h + post_carried db (tenant p) (month p) (year p) h) in *.
    destruct (ledger_cases e q) as (C1 & C2 & C3 & C4).
    exists h, (post_carried db (tenant p) (month p) (year p) h), e, q.
    rewrite Hs, Hd. repeat split; auto.
    + apply C1; assumption.
    + f_equal. apply C1; assumption.
    + apply C2; assumption.
    + f_equal. apply C2; assumption.
  - intros db id amt db' resp p H Ha Hp.
    destruct (put_payment_inv _ _ _ _ _ _ _ _ H Ha Hp)
      as (old & e & q & Hold & He & Hq & Hpa & Hd & Hs & _).
    destruct (ledger_cases e q) as (C1 & C2 & C3 & C4).
    exists old, e, q.
    rewrite Hs, Hd, <- post_put_status_agree. repeat split; auto.
    + apply C1; assumption.
    + f_equal. apply C1; assumption.
    + apply C2; assumption.
    + f_equal. apply C2; assumption.
Qed.

Lemma ledger_calculation_witness :
  status partial_march = partial /\ deficit partial_march = Some (1200 + 0 - 800).
Proof.
  destruct (proj1 (ledger_calculation spec_schema sample_houses)
              march_1 [] (post_body "101" (AmtNum 800) "03")
              [partial_march]
              {| http_status := 201; message := msg_document;
                 resp_receiptNumber := Some "RCP-2024-000001"%string;
                 resp_existingPayment := None;
                 resp_payment := Some partial_march;
                 resp_ResultCode := None |}
              partial_march eq_refl eq_refl)
    as (h & c & e & q & Hh & Hc & He & _ & Hq & _ & _ & _ & Hpartial & _).
  vm_compute in Hh, Hc, Hq.
  inversion Hh; inversion Hc; inversion Hq; subst.
  apply Hpartial; reflexivity.
Defined.

(** C1, the claim as stated fails: a proposed amount of 0 against an
    expected amount of 0 (a unit let for free, nothing carried forward)
    is recorded as ['paid'], not as ['pending']. *)
Lemma zero_of_zero_is_paid :
  post_status 0 (proposed_paid (AmtNum 0)) = paid
  /\ exists p,
       resp_payment (snd (post_payment spec_schema sample_houses march_1 []
                            (post_body "102" (AmtNum 0) "03"))) = Some p
       /\ expectedAmount p = Some (0 + 0)
       /\ paidAmount p = Some 0
       /\ status p = paid
       /\ status p <> pending.
Proof.
  split; [reflexivity|].
  eexists. split; [vm_compute; reflexivity|].
  repeat split; discriminate.
Qed.

(** ** Queries on a collection that grew *)

Lemma find_app_l {A} (q : A -> bool) (l1 l2 : list A) x :
  find q l1 = Some x -> find q (l1 ++ l2) = Some x.
Proof.
  induction l1 as [|a l1 IH]; simpl; [discriminate|].
  destruct (q a); auto.
Qed.

Lemma find_app_none {A} (q : A -> bool) (l1 l2 : list A) :
  find q l1 = None -> find q (l1 ++ l2) = find q l2.
Proof.
  induction l1 as [|a l1 IH]; simpl; [reflexivity|].
  destruct (q a); [discriminate|auto].
Qed.

Lemma find_none_forall {A} (q : A -> bool) (l : list A) :
  Forall (fun x => q x = false) l -> find q l = None.
Proof.
  induction 1 as [|a l Ha _ IH]; simpl; [reflexivity|].
  rewrite Ha. exact IH.
Qed.

Lemma period_query_tenant t h m y p :
  period_query t h m y p = true -> tenant_is t p = true.
Proof.
  unfold period_query, tenant_is. intro H.
  repeat (apply andb_true_iff in H; destruct H as [H ?]). exact H.
Qed.

Lemma findOne_app_other t h m y db extra :
  Forall (fun p => tenant_is t p = false) extra ->
  findOne (period_query t h m y) (db ++ extra) = findOne (period_query t h m y) db.
Proof.
  intro Hx. unfold findOne.
  assert (Hn : find (period_query t h m y) extra = None).
  { apply find_none_forall. eapply Forall_impl; [|exact Hx].
    intros p Hp. simpl in Hp.
    destruct (period_query t h m y p) eqn:E; [|reflexivity].
    apply period_query_tenant in E. congruence. }
  destruct (find (period_query t h m y) db) eqn:E.
  - apply find_app_l. exact E.
  - rewrite find_app_none by exact E. exact Hn.
Qed.

Lemma findLatest_app_other t h m y db extra :
  Forall (fun p => tenant_is t p = false) extra ->
  findLatest (period_query t h m y) (db ++ extra) = findLatest (period_query t h m y) db.
Proof.
  intro Hx. unfold findLatest. rewrite rev_app_distr.
  apply find_app_none. apply find_none_forall.
  apply Forall_rev. eapply Forall_impl; [|exact Hx].
  intros p Hp. simpl in Hp.
  destruct (period_query t h m y p) eqn:E; [|reflexivity].
  apply period_query_tenant in E. congruence.
Qed.

Lemma carried_forward_app_other db extra t h m y :
  Forall (fun p => tenant_is t p = false) extra ->
  carried_forward (db ++ extra) t h m y = carried_forward db t h m y.
Proof.
  intro Hx. unfold carried_forward.
  destruct (prev_period m y) as [pm py].
  rewrite findLatest_app_other by exact Hx. reflexivity.
Qed.

Lemma generated_payment_app_other schema today pct grace tm ty db extra t h :
  Forall (fun p => tenant_is (t_id t) p = false) extra ->
  generated_payment schema today pct grace tm ty (db ++ extra) t h
  = generated_payment schema today pct grace tm ty db t h.
Proof.
  intro Hx. unfold generated_payment.
  rewrite carried_forward_app_other by exact Hx. reflexivity.
Qed.

(** ** The loop of the monthly rent generator *)

Lemma generated_payment_tenant schema today pct grace tm ty db t h p :
  generated_payment schema today pct grace tm ty db t h = Some p ->
  tenant p = Some (t_id t) /\ house p = Some (h_id h).
Proof.
  unfold generated_payment.
  destruct (Js.Date_ymd _ _ _); [|discriminate].
  intro H. inversion H. simpl. auto.
Qed.

Lemma tenant_is_refl i p : tenant p = Some i -> tenant_is i p = true.
Proof. unfold tenant_is. intros ->. simpl. apply Nat.eqb_refl. Qed.

Lemma tenant_is_other i j p : tenant p = Some i -> i <> j -> tenant_is j p = false.
Proof.
  unfold tenant_is. intros -> Hne. simpl. apply Nat.eqb_neq. exact Hne.
Qed.

Lemma filter_none {A} (q : A -> bool) (l : list A) :
  (forall x, In x l -> q x = false) -> filter q l = [].
Proof.
  induction l as [|a l IH]; simpl; intro H; [reflexivity|].
  rewrite (H a (or_introl eq_refl)). apply IH. intros x Hx. apply H. right. exact Hx.
Qed.

Section GeneratorLoop.

Variable schema : PaymentSchema.
Variable houses : list House.
Variables (today : Z) (pct : Q) (grace : Z) (tm : string) (ty : Z).

Let loop := generate_loop schema houses today pct grace tm ty.
Let built := generated_payment schema today pct grace tm ty.

(** What one run of the loop over [ts] does to the collection [db0]: the
    new documents are appended; there is one summary entry per tenant with
    a unit; a tenant whose period is already recorded is skipped with a
    message, and any other tenant gets exactly one new document. *)
Lemma generate_loop_spec (ts : list Tenant) :
  forall db0 gen0 errs0 db' gen' errs',
    NoDup (map t_id ts) ->
    loop ts db0 gen0 errs0 = (db', Some (gen', errs')) ->
    exists new skipped,
      db' = db0 ++ new /\ gen' = gen0 ++ new /\ errs' = errs0 ++ skipped
      /\ (List.length new + List.length skipped
          = List.length (filter (fun t => is_some (populate_house houses t)) ts))%nat
      /\ Forall (fun p => exists t h, In t ts /\ populate_house houses t = Some h
                                     /\ tenant p = Some (t_id t)) new
      /\ forall t h, In t ts -> populate_house houses t = Some h ->
           match findOne (period_query (t_id t) (h_id h) tm ty) db0 with
           | Some _ =>
               In (already_exists_message t tm ty) skipped
               /\ filter (tenant_is (t_id t)) new = []
           | None =>
               exists p, built db0 t h = Some p
                         /\ validate schema p = true
                         /\ filter (tenant_is (t_id t)) new = [p]
           end.
Proof.
  subst loop built.
  induction ts as [|t0 rest IH]; intros db0 gen0 errs0 db' gen' errs' Hnd H.
  - simpl in H. inversion H; subst.
    exists [], []. rewrite !app_nil_r. repeat split; auto.
    intros t h [].
  - simpl in Hnd. inversion Hnd as [|? ? Hnotin Hnd']; subst.
    assert (Hother : forall t, In t rest -> t_id t0 <> t_id t).
    { intros t Ht E. apply Hnotin. rewrite E. apply in_map. exact Ht. }
    simpl in H.
    destruct (populate_house houses t0) as [h0|] eqn:Hpop.
    + destruct (findOne (period_query (t_id t0) (h_id h0) tm ty) db0) as [ex|] eqn:Hex.
      * (* skipped *)
        destruct (IH _ _ _ _ _ _ Hnd' H)
          as (new & skipped & -> & -> & -> & Hlen & Hall & Hper).
        exists new, (already_exists_message t0 tm ty :: skipped).
        rewrite <- app_assoc. simpl.
        repeat split; auto.
        -- rewrite Hpop. simpl. rewrite <- Hlen. lia.
        -- eapply Forall_impl; [|exact Hall].
           intros p (t & h & Ht & Hh & Hp). exists t, h.
           repeat split; [right| |]; assumption.
        -- intros t h [<-|Ht] Hh.
           ++ rewrite Hpop in Hh. inversion Hh; subst. rewrite Hex.
              split; [left; reflexivity|].
              apply filter_none. intros p Hp.
              rewrite Forall_forall in Hall.
              destruct (Hall p Hp) as (t & ht & Ht & _ & Htp).
              rewrite (tenant_is_other _ _ _ Htp); [reflexivity|].
              intro E. exact (Hother t Ht (eq_sym E)).
           ++ specialize (Hper t h Ht Hh).
              destruct (findOne (period_query (t_id t) (h_id h) tm ty) db0).
              ** destruct Hper. split; [right|]; assumption.
              ** exact Hper.
      * (* generated *)
        destruct (generated_payment schema today pct grace tm ty db0 t0 h0)
          as [p0|] eqn:Hb; [|discriminate].
        destruct (save schema db0 p0) as [db1|] eqn:Hs; [|discriminate].
        apply save_Some in Hs. destruct Hs as [-> Hv].
        destruct (generated_payment_tenant _ _ _ _ _ _ _ _ _ _ Hb) as [Htp0 _].
        destruct (IH _ _ _ _ _ _ Hnd' H)
          as (new & skipped & -> & -> & -> & Hlen & Hall & Hper).
        exists (p0 :: new), skipped.
        rewrite <- !app_assoc. simpl.
        repeat split; auto.
        -- rewrite Hpop. simpl. rewrite <- Hlen. lia.
        -- constructor.
           ++ exists t0, h0. repeat split; [left; reflexivity|exact Hpop|exact Htp0].
           ++ eapply Forall_impl; [|exact Hall].
              intros p (t & h & Ht & Hh & Hp). exists t, h.
           repeat split; [right| |]; assumption.
        -- intros t h [<-|Ht] Hh.
           ++ rewrite Hpop in Hh. inversion Hh; subst. rewrite Hex.
              exists p0. repeat split; auto.
              simpl. rewrite (tenant_is_refl _ _ Htp0). f_equal.
              apply filter_none. intros p Hp.
              rewrite Forall_forall in Hall.
              destruct (Hall p Hp) as (t & ht & Ht & _ & Htp).
              rewrite (tenant_is_other _ _ _ Htp); [reflexivity|].
              intro E. exact (Hother t Ht (eq_sym E)).
           ++ specialize (Hper t h Ht Hh).
              assert (Hx : Forall (fun p => tenant_is (t_id t) p = false) [p0]).
              { constructor; [|constructor].
                apply (tenant_is_other _ _ _ Htp0). apply Hother. exact Ht. }
              rewrite findOne_app_other in Hper by exact Hx.
              rewrite generated_payment_app_other in Hper by exact Hx.
              simpl. rewrite (tenant_is_other _ _ _ Htp0 (Hother t Ht)).
              exact Hper.
    + (* the unit of the tenant no longer exists: continue *)
      destruct (IH _ _ _ _ _ _ Hnd' H)
        as (new & skipped & -> & -> & -> & Hlen & Hall & Hper).
      exists new, skipped. repeat split; auto.
      * simpl. rewrite Hpop. simpl. exact Hlen.
      * eapply Forall_impl; [|exact Hall].
        intros p (t & h & Ht & Hh & Hp). exists t, h.
           repeat split; [right| |]; assumption.
      * intros t h [<-|Ht] Hh; [congruence|]. apply Hper; assumption.
Qed.

End GeneratorLoop.

Lemma generate_loop_total schema houses today pct grace tm ty (ts : list Tenant) :
  forall db0 gen0 errs0,
    Js.parseInt tm <> None ->
    (forall db1 t h p,
        In t ts -> populate_house houses t = Some h ->
        generated_payment schema today pct grace tm ty db1 t h = Some p ->
        validate schema p = true) ->
    exists db' gen' errs',
      generate_loop schema houses today pct grace tm ty ts db0 gen0 errs0
      = (db', Some (gen', errs')).
Proof.
  induction ts as [|t0 rest IH]; intros db0 gen0 errs0 Hm Hv; simpl.
  - eauto.
  - assert (Hv' : forall db1 t h p,
               In t rest -> populate_house houses t = Some h ->
               generated_payment schema today pct grace tm ty db1 t h = Some p ->
               validate schema p = true).
    { intros db1 t h p Ht. apply Hv. right. exact Ht. }
    destruct (populate_house houses t0) as [h0|] eqn:Hpop; [|apply IH; assumption].
    destruct (findOne _ db0); [apply IH; assumption|].
    destruct (generated_payment schema today pct grace tm ty db0 t0 h0) as [p0|] eqn:Hb.
    + unfold save. rewrite (Hv db0 t0 h0 p0 (or_introl eq_refl) Hpop Hb).
      apply IH; assumption.
    + exfalso. unfold generated_payment in Hb.
      destruct (Js.parseInt tm); [|congruence]. simpl in Hb. discriminate.
Qed.

(** The attributes of the document the generator builds. *)
Lemma generated_payment_props schema today pct grace tm ty db t h p :
  generated_payment schema today pct grace tm ty db t h = Some p ->
  exists due,
    Js.Date_ymd ty (option_map (fun k => (k - 1)%Z) (Js.parseInt tm)) 1 = Some due
    /\ dueDate p = Some due
    /\ tenant p = Some (t_id t) /\ house p = Some (h_id h)
    /\ month p = Some tm /\ year p = Some ty
    /\ paidAmount p = Some 0
    /\ expectedAmount p = Some (rentAmount h + carried_forward db (t_id t) (h_id h) tm ty)
    /\ deficit p = expectedAmount p
    /\ carriedForward p = Some (carried_forward db (t_id t) (h_id h) tm ty)
    /\ (if (Js.addDays due grace <? today)%Z
        then status p = overdue
             /\ lateFee p
                = Some (percent_of
                          (rentAmount h + carried_forward db (t_id t) (h_id h) tm ty) pct)
        else status p = pending /\ lateFee p = Some 0).
Proof.
  unfold generated_payment.
  destruct (Js.Date_ymd _ _ _) as [due|]; [|discriminate].
  intro H. inversion H; subst; clear H. simpl.
  exists due. repeat split; destruct (Js.addDays due grace <? today)%Z; split; reflexivity.
Qed.

(** Tenants are distinct documents: the query keeps their ids distinct. *)
Lemma active_tenants_NoDup (tenants : list Tenant) :
  NoDup (map t_id tenants) -> NoDup (map t_id (active_tenants tenants)).
Proof.
  unfold active_tenants. intro Hnd.
  induction tenants as [|t l IH]; simpl; [constructor|].
  inversion Hnd as [|? ? Hn Hl]; subst.
  destruct (match t_status t with active => is_some (t_house t) | _ => false end).
  - simpl. constructor; [|apply IH; exact Hl].
    intro Hin. apply Hn. apply in_map_iff in Hin.
    destruct Hin as (x & Hx & Hf). apply filter_In in Hf.
    rewrite <- Hx. apply in_map. apply Hf.
  - apply IH; exact Hl.
Qed.

(** ** C8: the monthly rent generator *)

(** C8.  On a run of the generator that no storage failure interrupts
    (the target month is a number and the schema accepts the documents the
    generator builds), the new documents are appended to the collection and
    counted; every active tenant with a unit whose target period is already
    recorded is skipped with a message and gets no document; every other one
    gets exactly one new document, with [paidAmount = 0],
    [deficit = expectedAmount = rent + carried forward], and status
    ['pending'] with no late fee, or, when the due date plus the grace
    period has already elapsed, status ['overdue'] with the late fee. *)
Theorem monthly_rent_generation schema houses tenants today db b :
  let pct := or_default_5 (g_lateFeePercentage b) in
  let grace := grace_or_default (g_gracePeriodDays b) in
  let tm := target_month today b in
  let ty := target_year today b in
  NoDup (map t_id tenants) ->
  Js.parseInt tm <> None ->
  (forall db1 t h p,
      In t (active_tenants tenants) -> populate_house houses t = Some h ->
      generated_payment schema today pct grace tm ty db1 t h = Some p ->
      validate schema p = true) ->
  exists generated details,
    generate_monthly_rent schema houses tenants today db b
    = (db ++ generated,
       Some {| gen_generated := List.length generated;
               gen_errors := List.length details;
               gen_details := details |})
    /\ (List.length generated + List.length details
        = List.length (filter (fun t => is_some (populate_house houses t))
                         (active_tenants tenants)))%nat
    /\ forall t h,
         In t (active_tenants tenants) -> populate_house houses t = Some h ->
         match findOne (period_query (t_id t) (h_id h) tm ty) db with
         | Some _ =>
             In (already_exists_message t tm ty) details
             /\ filter (tenant_is (t_id t)) generated = []
         | None =>
             exists p due,
               filter (tenant_is (t_id t)) generated = [p]
               /\ house p = Some (h_id h)
               /\ month p = Some tm /\ year p = Some ty
               /\ paidAmount p = Some 0
               /\ expectedAmount p
                  = Some (rentAmount h + carried_forward db (t_id t) (h_id h) tm ty)
               /\ deficit p = expectedAmount p
               /\ Js.Date_ymd ty (option_map (fun k => (k - 1)%Z) (Js.parseInt tm)) 1
                  = Some due
               /\ dueDate p = Some due
               /\ (if (Js.addDays due grace <? today)%Z
                   then status p = overdue
                        /\ lateFee p
                           = Some (percent_of
                                     (rentAmount h
                                      + carried_forward db (t_id t) (h_id h) tm ty) pct)
                   else status p = pending /\ lateFee p = Some 0)
         end.
Proof.
  intros pct grace tm ty Hnd Hm Hv.
  pose proof (active_tenants_NoDup tenants Hnd) as Hnd'.
  destruct (generate_loop_total schema houses today pct grace tm ty
              (active_tenants tenants) db [] [] Hm Hv) as (db' & gen' & errs' & Hrun).
  destruct (generate_loop_spec schema houses today pct grace tm ty
              (active_tenants tenants) db [] [] db' gen' errs' Hnd' Hrun)
    as (new & skipped & -> & -> & -> & Hlen & _ & Hper).
  simpl in *.
  exists new, skipped. split; [|split].
  - unfold generate_monthly_rent. fold pct grace tm ty. rewrite Hrun. reflexivity.
  - exact Hlen.
  - intros t h Ht Hh. specialize (Hper t h Ht Hh).
    destruct (findOne (period_query (t_id t) (h_id h) tm ty) db); [exact Hper|].
    destruct Hper as (p & Hb & _ & Hf).
    destruct (generated_payment_props _ _ _ _ _ _ _ _ _ _ Hb)
      as (due & Hymd & Hdue & _ & Hho & Hmo & Hy & Hpa & He & Hd & _ & Hst).
    exists p, due. repeat split; auto.
    all: destruct (Js.addDays due grace <? today)%Z; apply Hst.
Qed.

Lemma carried_forward_nonneg db t h m y : 0 <= carried_forward db t h m y.
Proof.
  unfold carried_forward. destruct (prev_period m y) as [pm py].
  destruct (findLatest _ db) as [prev|]; [|apply Qle_refl].
  destruct (deficit prev) as [d|]; [|apply Qle_refl].
  destruct (Qlt_bool 0 d) eqn:E; [|apply Qle_refl].
  apply Qlt_le_weak, Qlt_bool_iff. exact E.
Qed.

Lemma generated_payment_spec_valid today pct grace tm ty db t h p :
  0 <= rentAmount h ->
  generated_payment spec_schema today pct grace tm ty db t h = Some p ->
  validate spec_schema p = true.
Proof.
  intros Hr. unfold generated_payment.
  destruct (Js.Date_ymd _ _ _); [|discriminate].
  intro H. inversion H; subst; clear H. simpl.
  unfold spec_validate. simpl. rewrite andb_true_r.
  apply Qle_bool_iff.
  rewrite <- (Qplus_0_l 0) at 1.
  apply Qplus_le_compat; [exact Hr|apply carried_forward_nonneg].
Qed.

Lemma monthly_rent_generation_witness :
  exists generated details,
    generate_monthly_rent spec_schema sample_houses sample_tenants march_1
      [partial_march] april_body
    = ([partial_march] ++ generated,
       Some {| gen_generated := List.length generated;
               gen_errors := List.length details;
               gen_details := details |})
    /\ (List.length generated + List.length details = 2)%nat.
Proof.
  destruct (monthly_rent_generation spec_schema sample_houses sample_tenants march_1
              [partial_march] april_body) as (g & d & H1 & H2 & _).
  - simpl. repeat constructor; simpl; intuition discriminate.
  - vm_compute. discriminate.
  - intros db1 t h p Ht Hh Hb.
    refine (generated_payment_spec_valid _ _ _ _ _ _ _ _ _ _ Hb).
    simpl in Ht. destruct Ht as [<-|[<-|[]]]; vm_compute in Hh;
      inversion Hh; subst; vm_compute; discriminate.
  - exists g, d. split; [exact H1|exact H2].
Defined.

(** ** C2: carrying a deficit forward *)

Lemma prev_period_parsed (s : string) (y k : Z) :
  Js.parseInt s = Some k ->
  prev_period s y
  = if (k - 1 =? 0)%Z then ("12"%string, (y - 1)%Z)
    else (Js.padStart 2 "0" (Js.String_of_Z (k - 1)), y).
Proof.
  intro H. unfold prev_period. rewrite H. simpl.
  destruct (k - 1)%Z; reflexivity.
Qed.

(** The handlers' "preceding period" undoes [next_period] on canonical
    months; for January it is month 12 of the year before. *)
Lemma prev_period_of_next (m y : Z) :
  (1 <= m <= 12)%Z ->
  prev_period (month_name (fst (next_period m y))) (snd (next_period m y))
  = (month_name m, y).
Proof.
  intro Hm.
  assert (Hc : (m = 1 \/ m = 2 \/ m = 3 \/ m = 4 \/ m = 5 \/ m = 6 \/ m = 7
                \/ m = 8 \/ m = 9 \/ m = 10 \/ m = 11 \/ m = 12)%Z) by lia.
  repeat (destruct Hc as [->|Hc]); try subst m; unfold next_period; simpl fst; simpl snd;
    match goal with
    | |- prev_period (month_name ?k) _ = _ =>
        rewrite (prev_period_parsed (month_name k) _ k eq_refl)
    end; simpl; try reflexivity.
  f_equal. lia.
Qed.

Lemma carried_forward_latest db t h m y pm py r D :
  prev_period m y = (pm, py) ->
  findLatest (period_query t h pm py) db = Some r ->
  deficit r = Some D -> 0 < D ->
  carried_forward db t h m y = D.
Proof.
  intros Hp Hr Hd HD. unfold carried_forward. rewrite Hp, Hr, Hd.
  apply Qlt_bool_iff in HD. rewrite HD. reflexivity.
Qed.

Lemma month_name_truthy (m : Z) :
  (1 <= m <= 12)%Z -> Js.truthy_string (month_name m) = true.
Proof.
  intro Hm.
  assert (Hc : (m = 1 \/ m = 2 \/ m = 3 \/ m = 4 \/ m = 5 \/ m = 6 \/ m = 7
                \/ m = 8 \/ m = 9 \/ m = 10 \/ m = 11 \/ m = 12)%Z) by lia.
  repeat (destruct Hc as [->|Hc]); try subst m; reflexivity.
Qed.

Lemma next_period_range (m y : Z) :
  (1 <= m <= 12)%Z -> (1 <= fst (next_period m y) <= 12)%Z.
Proof.
  intro Hm. unfold next_period. destruct (m =? 12)%Z eqn:E; simpl; lia.
Qed.

Lemma next_period_year (m y : Z) :
  (0 < y)%Z -> (0 < snd (next_period m y))%Z.
Proof.
  intro Hy. unfold next_period. destruct (m =? 12)%Z; simpl; lia.
Qed.

Lemma House_findById_id houses i h : House_findById houses i = Some h -> h_id h = i.
Proof.
  unfold House_findById, findOne. intro H.
  apply find_some in H. destruct H as [_ H]. apply Nat.eqb_eq. exact H.
Qed.

Lemma populate_house_found houses t h :
  populate_house houses t = Some h -> House_findById houses (h_id h) = Some h.
Proof.
  unfold populate_house. destruct (t_house t) as [i|]; [|discriminate].
  intro H. rewrite (House_findById_id _ _ _ H). exact H.
Qed.

(** C2.  Let the latest record of period ([m], [y]) for the occupant [t]
    and the unit [h] hold a deficit [D > 0].  Then every record that the
    generator or [POST /] creates for the next period and the same
    occupant and unit has [expectedAmount = rent + D]; the period before
    January is month 12 of the year before. *)
Theorem carry_forward_correct schema houses tenants (m y : Z) (t h : Id) db r D :
  (1 <= m <= 12)%Z -> (0 < y)%Z ->
  findLatest (period_query t h (month_name m) y) db = Some r ->
  deficit r = Some D -> 0 < D ->
  let m' := month_name (fst (next_period m y)) in
  let y' := snd (next_period m y) in
  (forall today b db' summary,
      NoDup (map t_id tenants) ->
      target_month today b = m' -> target_year today b = y' ->
      generate_monthly_rent schema houses tenants today db b = (db', Some summary) ->
      exists generated,
        db' = db ++ generated
        /\ forall p, In p generated -> tenant p = Some t -> house p = Some h ->
             exists hs, House_findById houses h = Some hs
                        /\ expectedAmount p = Some (rentAmount hs + D)
                        /\ carriedForward p = Some D)
  /\ (forall now b db' resp p,
         post_payment schema houses now db b = (db', resp) ->
         resp_payment resp = Some p ->
         tenant p = Some t -> house p = Some h ->
         month p = Some m' -> year p = Some y' ->
         exists hs, House_findById houses h = Some hs
                    /\ expectedAmount p = Some (rentAmount hs + D)
                    /\ carriedForward p = Some D)
  /\ prev_period (month_name 1) y = (month_name 12, (y - 1)%Z).
Proof.
  intros Hm Hy Hr Hd HD m' y'.
  assert (Hcf : carried_forward db t h m' y' = D).
  { apply (carried_forward_latest db t h m' y' (month_name m) y r D); auto.
    apply prev_period_of_next. exact Hm. }
  split; [|split].
  - intros today b db' summary Hnd Htm Hty Hrun.
    unfold generate_monthly_rent in Hrun. rewrite Htm, Hty in Hrun.
    destruct (generate_loop _ _ _ _ _ _ _ _ _ _ _) as [db1 [[gen1 errs1]|]] eqn:Hloop;
      inversion Hrun; subst db1; clear Hrun.
    pose proof (active_tenants_NoDup tenants Hnd) as Hnd'.
    destruct (generate_loop_spec _ _ _ _ _ _ _ _ _ _ _ _ _ _ Hnd' Hloop)
      as (new & skipped & -> & _ & _ & _ & Hall & Hper).
    exists new. split; [reflexivity|].
    intros p Hp Htp Hhp.
    rewrite Forall_forall in Hall.
    destruct (Hall p Hp) as (tn & hs & Htn & Hpop & Htn').
    assert (t_id tn = t) by congruence. subst t.
    specialize (Hper tn hs Htn Hpop).
    assert (Hin : In p (filter (tenant_is (t_id tn)) new)).
    { apply filter_In. split; [exact Hp|]. apply tenant_is_refl. exact Htp. }
    destruct (findOne _ db).
    + destruct Hper as [_ Hnil]. rewrite Hnil in Hin. destruct Hin.
    + destruct Hper as (p' & Hb & _ & Hone). rewrite Hone in Hin.
      destruct Hin as [<-|[]].
      destruct (generated_payment_props _ _ _ _ _ _ _ _ _ _ Hb)
        as (due & _ & _ & _ & Hho & _ & _ & _ & He & _ & Hc & _).
      assert (h_id hs = h) by congruence. subst h.
      exists hs. split; [exact (populate_house_found _ _ _ Hpop)|].
      rewrite He, Hc, Hcf. split; reflexivity.
  - intros now b db' resp p Hpost Hp Htp Hhp Hmp Hyp.
    destruct (post_payment_inv _ _ _ _ _ _ _ _ Hpost Hp)
      as (hs & pa & Hh & _ & He & Hc & _).
    unfold house_of in Hh. rewrite Hhp in Hh.
    pose proof (House_findById_id _ _ _ Hh) as Hid.
    exists hs. split; [exact Hh|].
    assert (Hpc : post_carried db (tenant p) (month p) (year p) hs = D).
    { rewrite Htp, Hmp, Hyp. unfold post_carried.
      subst m'. rewrite month_name_truthy by (apply next_period_range; exact Hm).
      unfold truthy_year.
      pose proof (next_period_year m y Hy) as Hy'. fold y'.
      destruct (y' =? 0)%Z eqn:E; [apply Z.eqb_eq in E; subst y'; lia|].
      simpl. rewrite Hid. exact Hcf. }
    rewrite He, Hc, Hpc. split; reflexivity.
  - rewrite (prev_period_parsed (month_name 1) y 1 eq_refl). reflexivity.
Qed.

Lemma carry_forward_correct_witness :
  exists generated,
    fst (generate_monthly_rent spec_schema sample_houses sample_tenants march_1
           [partial_march] april_body) = [partial_march] ++ generated
    /\ forall p, In p generated -> tenant p = Some 7%nat -> house p = Some 1%nat ->
         exists hs, House_findById sample_houses 1%nat = Some hs
                    /\ expectedAmount p = Some (rentAmount hs + 400)
                    /\ carriedForward p = Some 400.
Proof.
  assert (H3 : (1 <= 3 <= 12)%Z) by lia.
  assert (Hy : (0 < 2024)%Z) by lia.
  assert (HD : 0 < 400) by reflexivity.
  destruct (carry_forward_correct spec_schema sample_houses sample_tenants
              3 2024 7%nat 1%nat [partial_march] partial_march 400
              H3 Hy eq_refl eq_refl HD) as (Hgen & _ & _).
  remember (generate_monthly_rent spec_schema sample_houses sample_tenants march_1
              [partial_march] april_body) as run eqn:Hrun.
  destruct run as [db' [summary|]].
  - destruct (Hgen march_1 april_body db' summary) as (g & Hg & Hall).
    + simpl. repeat constructor; simpl; intuition discriminate.
    + reflexivity.
    + reflexivity.
    + symmetry. exact Hrun.
    + exists g. split; [exact Hg|exact Hall].
  - vm_compute in Hrun. discriminate.
Defined.

(** ** C9: the overdue sweep is idempotent *)

Lemma overdue_update_status houses today pct grace p p' :
  overdue_update houses today pct grace p = Some p' -> status p' = overdue.
Proof.
  unfold overdue_update.
  destruct (past_grace today grace p && negb (Status_eqb (status p) overdue));
    [|discriminate].
  intro H. inversion H. reflexivity.
Qed.

Lemma sweep_selects_overdue p : status p = overdue -> sweep_selects p = false.
Proof. unfold sweep_selects. intros ->. reflexivity. Qed.

Lemma sweep_twice schema houses today pct grace (coll : list Payment) :
  sweep schema houses today pct grace
    (fst (fst (sweep schema houses today pct grace coll)))
  = (fst (fst (sweep schema houses today pct grace coll)), [],
     snd (sweep schema houses today pct grace coll)).
Proof.
  induction coll as [|p rest IH]; [reflexivity|].
  simpl.
  destruct (if sweep_selects p then overdue_update houses today pct grace p else None)
    as [p'|] eqn:Hstep.
  - destruct (validate schema p') eqn:Hv.
    + destruct (sweep schema houses today pct grace rest) as [[rest' upd] ok] eqn:Hrest.
      simpl in *.
      assert (Hp' : status p' = overdue).
      { destruct (sweep_selects p); [|discriminate].
        exact (overdue_update_status _ _ _ _ _ _ Hstep). }
      rewrite (sweep_selects_overdue p' Hp'). rewrite IH. reflexivity.
    + simpl. rewrite Hstep, Hv. reflexivity.
  - destruct (sweep schema houses today pct grace rest) as [[rest' upd] ok] eqn:Hrest.
    simpl in *. rewrite Hstep, IH. reflexivity.
Qed.

Lemma sweep_keeps_unselected schema houses today pct grace (coll : list Payment) :
  forall i p,
    nth_error coll i = Some p -> sweep_selects p = false ->
    nth_error (fst (fst (sweep schema houses today pct grace coll))) i = Some p.
Proof.
  induction coll as [|q rest IH]; intros i p Hi Hp; [destruct i; discriminate|].
  simpl.
  destruct (if sweep_selects q then overdue_update houses today pct grace q else None)
    as [q'|] eqn:Hstep.
  - destruct (validate schema q'); [|exact Hi].
    destruct (sweep schema houses today pct grace rest) as [[rest' upd] ok] eqn:Hrest.
    destruct i as [|i]; simpl in *.
    + inversion Hi; subst. rewrite Hp in Hstep. discriminate.
    + exact (IH i p Hi Hp).
  - destruct (sweep schema houses today pct grace rest) as [[rest' upd] ok] eqn:Hrest.
    destruct i as [|i]; simpl in *; [exact Hi|].
    exact (IH i p Hi Hp).
Qed.

(** C9.  Running the sweep a second time, at the same instant and with the
    same parameters, on the collection the first run left behind changes no
    document: the collection, hence every status and late fee, is the one
    the first run produced, and the second run reports no update.  Moreover
    a record that is ['overdue'], such as one the first run has charged, is
    left as it is by any later run, whatever its instant and parameters. *)
Theorem sweeper_idempotent schema houses today db b :
  check_overdue schema houses today
    (fst (check_overdue schema houses today db b)) b
  = (fst (check_overdue schema houses today db b),
     match snd (check_overdue schema houses today db b) with
     | Some _ => Some {| sw_updated := 0; sw_payments := [] |}
     | None => None
     end)
  /\ forall later b2 i p,
       nth_error (fst (check_overdue schema houses today db b)) i = Some p ->
       status p = overdue ->
       nth_error (fst (check_overdue schema houses later
                         (fst (check_overdue schema houses today db b)) b2)) i
       = Some p.
Proof.
  split.
  - unfold check_overdue.
    pose proof (sweep_twice schema houses today
                  (or_default_5 (s_lateFeePercentage b))
                  (grace_or_default (s_gracePeriodDays b)) db) as H.
    destruct (sweep schema houses today _ _ db) as [[db1 upd] ok].
    simpl in *. rewrite H. destruct ok; reflexivity.
  - intros later b2 i p Hi Hp.
    apply sweep_selects_overdue in Hp.
    pose proof (sweep_keeps_unselected schema houses later
                  (or_default_5 (s_lateFeePercentage b2))
                  (grace_or_default (s_gracePeriodDays b2)) _ i p Hi Hp) as H.
    unfold check_overdue at 1.
    destruct (sweep schema houses later _ _ _) as [[db2 upd2] ok2].
    exact H.
Qed.

(** ** C5: the late fee of the sweep *)

(** A document the sweep promotes has its late fee, when it was 0, set
    from the rent of its unit: the expected amount plays no part. *)
Lemma overdue_update_fee houses today pct grace p p' f h :
  overdue_update houses today pct grace p = Some p' ->
  lateFee p = Some f -> f == 0 -> house_of houses p = Some h ->
  status p' = overdue /\ lateFee p' = Some (percent_of (rentAmount h) pct).
Proof.
  unfold overdue_update, house_of.
  destruct (past_grace today grace p && negb (Status_eqb (status p) overdue));
    [|discriminate].
  intros H Hf H0 Hh. inversion H; subst; clear H. simpl.
  rewrite Hf, Hh. apply Qeq_bool_iff in H0. rewrite H0. split; reflexivity.
Qed.

(** C5, the code at the failing input.  The April record expects 1600
    (rent 1200 plus 400 carried forward).  Swept ten days after its due
    date with the default grace period of 5 days and fee of 5 percent, it
    becomes ['overdue'] with a late fee of 60, five percent of the rent,
    where five percent of the expected amount is 80; the generator, run on
    the same day for the same period, charges the 80. *)
Lemma sweep_charges_on_rent :
  expectedAmount april_pending = Some 1600
  /\ status april_pending = pending
  /\ exists p f,
       fst (check_overdue spec_schema sample_houses april_11
              [partial_march; april_pending] default_sweep)
       = [partial_march; p]
       /\ status p = overdue
       /\ lateFee p = Some f
       /\ f == 60
       /\ ~ f == percent_of 1600 5
       /\ exists g,
            nth_error (fst (generate_monthly_rent spec_schema sample_houses [tenant_7]
                              april_11 [partial_march] april_body)) 1 = Some g
            /\ status g = overdue
            /\ lateFee g = Some (percent_of 1600 5).
Proof.
  split; [reflexivity|]. split; [reflexivity|].
  eexists. eexists. split; [vm_compute; reflexivity|].
  split; [reflexivity|]. split; [reflexivity|].
  split; [reflexivity|]. split; [intro H; discriminate H|].
  eexists. split; [vm_compute; reflexivity|].
  split; reflexivity.
Qed.

(** ** C4: replays of the STK push callback *)

Lemma find_index_none {A} (q : A -> bool) (l : list A) :
  find q l = None -> find_index q l = None.
Proof.
  induction l as [|a l IH]; simpl; [reflexivity|].
  destruct (q a); [discriminate|]. intro H. rewrite (IH H). reflexivity.
Qed.

Lemma find_index_found {A} (q : A -> bool) (l : list A) i :
  find_index q l = Some i -> exists x, nth_error l i = Some x /\ q x = true.
Proof.
  revert i. induction l as [|a l IH]; simpl; intros i H; [discriminate|].
  destruct (q a) eqn:E.
  - inversion H; subst. exists a. auto.
  - destruct (find_index q l) as [j|]; [|discriminate].
    inversion H; subst. simpl. apply IH. reflexivity.
Qed.

(** Replacing the only match of a query by a document that does not match
    leaves no match. *)
Lemma find_index_replaced {A} (q : A -> bool) (l : list A) i x :
  find_index q l = Some i ->
  (List.length (filter q l) <= 1)%nat ->
  q x = false ->
  find q (update_nth i x l) = None.
Proof.
  revert i. induction l as [|a l IH]; simpl; intros i H Hlen Hx; [discriminate|].
  destruct (q a) eqn:E.
  - inversion H; subst. simpl. rewrite Hx.
    simpl in Hlen. destruct (filter q l) as [|b f] eqn:Hf; [|simpl in Hlen; lia].
    clear - Hf. induction l as [|c l IH]; simpl in *; [reflexivity|].
    destruct (q c); [discriminate|]. apply IH. exact Hf.
  - destruct (find_index q l) as [j|]; [|discriminate].
    inversion H; subst. simpl. rewrite E. apply IH; auto.
Qed.

Lemma stk_callback_unknown schema Date_parse db cb :
  findOne (txn_query (CheckoutRequestID cb)) db = None ->
  stk_callback schema Date_parse db cb = (db, reply 404 msg_payment_not_found).
Proof.
  intro H. unfold stk_callback. rewrite (find_index_none _ _ H). reflexivity.
Qed.

Lemma txn_query_other txn other p :
  transactionId p = Some other -> other <> txn -> txn_query txn p = false.
Proof.
  unfold txn_query. intros -> Hne. simpl. apply String.eqb_neq. exact Hne.
Qed.

(** C4 (as amended).  Let a success callback for the correlation id [C],
    which at most one record carries, be processed: the record becomes
    ['paid'] and its transaction identifier becomes the provider receipt id
    [R], different from [C].  Then every later callback with correlation
    id [C] leaves the collection unchanged and is answered with HTTP 404
    "Payment not found"; and in general a callback whose correlation id is
    the transaction identifier of no record is answered with HTTP 404 and
    changes nothing. *)
Theorem stk_callback_replay schema Date_parse :
  (forall db cb items v db1 r1,
      stk_callback schema Date_parse db cb = (db1, r1) ->
      http_status r1 = 200%Z ->
      ResultCode cb = Some 0%Z ->
      CallbackMetadata cb = Some items ->
      item_value items "MpesaReceiptNumber" = Some v ->
      string_of_value v <> CheckoutRequestID cb ->
      (List.length (filter (txn_query (CheckoutRequestID cb)) db) <= 1)%nat ->
      (exists i old new,
          nth_error db i = Some old
          /\ transactionId old = Some (CheckoutRequestID cb)
          /\ db1 = update_nth i new db
          /\ status new = paid
          /\ transactionId new = Some (string_of_value v))
      /\ forall replay,
           CheckoutRequestID replay = CheckoutRequestID cb ->
           stk_callback schema Date_parse db1 replay
           = (db1, reply 404 msg_payment_not_found)
             /\ is_success (reply 404 msg_payment_not_found) = false)
  /\ (forall db cb,
         findOne (txn_query (CheckoutRequestID cb)) db = None ->
         stk_callback schema Date_parse db cb = (db, reply 404 msg_payment_not_found)).
Proof.
  split; [|apply stk_callback_unknown].
  intros db cb items v db1 r1 H H200 Hrc Hmd Hv Hne Huniq.
  unfold stk_callback in H. rewrite Hrc, Hmd, Hv in H.
  destruct (find_index (txn_query (CheckoutRequestID cb)) db) as [i|] eqn:Hi;
    [|inversion H; subst; discriminate].
  destruct (find_index_found _ _ _ Hi) as (old & Hold & Hq).
  rewrite Hold in H.
  match type of H with
  | (if ?c then _ else _) = _ => destruct c eqn:Hsave
  end; inversion H; subst; clear H; [|discriminate].
  match goal with
  | |- context [update_nth i ?n db] => set (new := n)
  end.
  assert (Hnew : txn_query (CheckoutRequestID cb) new = false).
  { apply (txn_query_other _ (string_of_value v)); [reflexivity|exact Hne]. }
  split.
  - exists i, old, new. repeat split; auto.
    unfold txn_query, opt_eqb in Hq.
    destruct (transactionId old) as [x|]; [|discriminate].
    apply String.eqb_eq in Hq. congruence.
  - intros replay Hsame. split; [|reflexivity].
    apply stk_callback_unknown. rewrite Hsame.
    apply (find_index_replaced _ _ _ _ Hi Huniq Hnew).
Qed.

Lemma stk_callback_replay_witness :
  (exists i old new,
      nth_error after_push i = Some old
      /\ transactionId old = Some "ws_CO_01032024120000"%string
      /\ after_callback = update_nth i new after_push
      /\ status new = paid
      /\ transactionId new = Some "SC12345XYZ"%string)
  /\ stk_callback spec_schema no_date_parse after_callback success_callback
     = (after_callback, reply 404 msg_payment_not_found).
Proof.
  destruct (proj1 (stk_callback_replay spec_schema no_date_parse)
              after_push success_callback
              [ {| Name := "Amount"; Value := VNum 1200 |};
                {| Name := "MpesaReceiptNumber"; Value := VStr "SC12345XYZ" |};
                {| Name := "TransactionDate"; Value := VNum 20240301120000 |};
                {| Name := "PhoneNumber"; Value := VNum 254712345678 |} ]
              (VStr "SC12345XYZ") after_callback
              {| http_status := 200; message := msg_processed;
                 resp_receiptNumber := None; resp_existingPayment := None;
                 resp_payment := None; resp_ResultCode := Some 0%Z |})
    as [Hfirst Hreplay].
  - vm_compute. reflexivity.
  - reflexivity.
  - reflexivity.
  - reflexivity.
  - reflexivity.
  - vm_compute. discriminate.
  - vm_compute. lia.
  - split; [exact Hfirst|].
    exact (proj1 (Hreplay success_callback eq_refl)).
Defined.

(** C4, the claim as stated fails.  The push of scenario C is confirmed by
    a success callback: the record becomes ['paid'] under the provider
    receipt id.  The same callback delivered again is answered with HTTP
    404 "Payment not found", an error response, although it changes
    nothing. *)
Lemma replayed_callback_gets_404 :
  http_status (snd (stk_callback spec_schema no_date_parse after_push success_callback))
  = 200%Z
  /\ (exists p, after_callback = [p] /\ status p = paid
                /\ transactionId p = Some "SC12345XYZ"%string)
  /\ fst (stk_callback spec_schema no_date_parse after_callback success_callback)
     = after_callback
  /\ http_status
       (snd (stk_callback spec_schema no_date_parse after_callback success_callback))
     = 404%Z
  /\ is_success
       (snd (stk_callback spec_schema no_date_parse after_callback success_callback))
     = false.
Proof.
  split; [vm_compute; reflexivity|].
  split; [eexists; split; [reflexivity|split; reflexivity]|].
  split; [vm_compute; reflexivity|].
  split; vm_compute; reflexivity.
Qed.

(** ** What the channels without a ledger store *)

Ltac destruct_matches H :=
  repeat match type of H with
         | context [match ?x with _ => _ end] => destruct x eqn:?
         end.

Lemma paybill_inv schema houses tenants cfg now db b db' r p :
  paybill schema houses tenants cfg now db b = (db', r) ->
  resp_payment r = Some p ->
  exists acc h t amt,
    pb_accountNumber b = Some acc
    /\ House_findByNumber houses (Js.trim acc) = Some h
    /\ populate_tenant tenants h = Some t
    /\ parseFloat (pb_amount b) = Some amt
    /\ p = channel_payment schema t h (Some amt) now (Js.month_string now)
             (Js.getFullYear now) (rent_status (toNumber (pb_amount b)) h)
             (Js.or_string (pb_transactionId b) (pb_referenceNumber b))
             (pb_referenceNumber b) (Some acc) src_paybill
             (receipt_number (Js.getFullYear now) (List.length db))
    /\ db' = db ++ [p]
    /\ r = created_response p
    /\ validate schema p = true
    /\ (forall txn, pb_transactionId b = Some txn -> Js.truthy_string txn = true ->
        findOne (txn_query txn) db = None)
    /\ findOne (paid_period_query (t_id t) (h_id h) (Js.month_string now)
                  (Js.getFullYear now)) db = None.
Proof.
  unfold paybill. intros H Hp.
  destruct_matches H; inversion H; subst; simpl in Hp; try discriminate.
  all: inversion Hp; subst; clear Hp H.
  all: match goal with
       | S : save _ _ _ = Some _ |- _ => apply save_Some in S; destruct S as [-> Hv]
       end.
  all: do 4 eexists; repeat split; eauto.
  all: intros txn Ht Htr.
  all: match goal with
       | E : _ = None |- _ => rewrite Ht, Htr in E; exact E
       end.
Qed.

Lemma receive_inv schema houses tenants now db b db' r p :
  receive schema houses tenants now db b = (db', r) ->
  resp_payment r = Some p ->
  exists hn h t amt,
    rc_houseNumber b = Some hn
    /\ House_findByNumber houses (Js.trim hn) = Some h
    /\ populate_tenant tenants h = Some t
    /\ parseFloat (rc_amount b) = Some amt
    /\ p = channel_payment schema t h (Some amt) now (Js.month_string now)
             (Js.getFullYear now) (rent_status (toNumber (rc_amount b)) h)
             (rc_transactionId b) (rc_referenceNumber b) (Some hn) src_webhook
             (receipt_number (Js.getFullYear now) (List.length db))
    /\ db' = db ++ [p]
    /\ r = created_response p
    /\ validate schema p = true
    /\ (forall txn, rc_transactionId b = Some txn -> Js.truthy_string txn = true ->
        findOne (txn_query txn) db = None)
    /\ findOne (paid_period_query (t_id t) (h_id h) (Js.month_string now)
                  (Js.getFullYear now)) db = None.
Proof.
  unfold receive. intros H Hp.
  destruct_matches H; inversion H; subst; simpl in Hp; try discriminate.
  all: inversion Hp; subst; clear Hp H.
  all: match goal with
       | S : save _ _ _ = Some _ |- _ => apply save_Some in S; destruct S as [-> Hv]
       end.
  all: do 4 eexists; repeat split; eauto.
  all: intros txn Ht Htr.
  all: match goal with
       | E : _ = None |- _ => rewrite Ht, Htr in E; exact E
       end.
Qed.

(** The mobile-money confirmation either leaves the collection alone or
    appends one document, which carries the transaction id of the
    notification. *)
Lemma mpesa_confirmation_inv schema houses tenants db b db' ack logs :
  mpesa_confirmation schema houses tenants db b = (db', ack, logs) ->
  ack = confirmation_ack
  /\ (db' = db
      \/ exists bill txn h t amt transDate,
           BillRefNumber b = Some bill /\ TransID b = Some txn
           /\ TransTime b = Some transDate
           /\ House_findByNumber houses (Js.trim bill) = Some h
           /\ populate_tenant tenants h = Some t
           /\ parseFloat (TransAmount b) = Some amt
           /\ findOne (txn_query txn) db = None
           /\ db' = db ++ [channel_payment schema t h (Some amt) transDate
                             (Js.month_string transDate) (Js.getFullYear transDate)
                             (rent_status (parseFloat (TransAmount b)) h)
                             (Some txn) (Some txn) (Some bill) src_paybill
                             (receipt_number (Js.getFullYear transDate)
                                (List.length db))]).
Proof.
  unfold mpesa_confirmation. intro H.
  destruct_matches H; inversion H; subst; clear H; split; auto.
  match goal with
  | S : save _ _ _ = Some _ |- _ => apply save_Some in S; destruct S as [-> Hv]
  end.
  right. do 6 eexists. repeat split; eauto.
Qed.

(** The bank webhook either leaves the collection alone and returns
    nothing, or appends the one document it returns. *)
Lemma bank_inv schema houses tenants now db w db' res logs :
  processEquityBankPayment schema houses tenants now db w = (db', res, logs) ->
  (res = None /\ db' = db)
  \/ exists p acc amt t th h,
       res = Some p /\ db' = db ++ [p]
       /\ validate schema p = true
       /\ webhook_account w = Some acc
       /\ webhook_amount w = Some amt /\ 0 < amt
       /\ Tenant_findByAccount tenants (Js.trim acc) = Some t
       /\ populate_house houses t = Some th
       /\ House_findById houses (h_id th) = Some h
       /\ (forall txn, webhook_transactionId w = Some txn ->
                       Js.truthy_string txn = true ->
                       findOne (txn_query txn) db = None)
       /\ transactionId p
          = Js.or_string (webhook_transactionId w) (webhook_referenceNumber w)
       /\ amount p = Some amt
       /\ tenant p = Some (t_id t) /\ house p = Some (h_id h).
Proof.
  unfold processEquityBankPayment. intro H.
  destruct_matches H; inversion H; subst; clear H; auto.
  all: match goal with
       | S : save _ _ _ = Some _ |- _ => apply save_Some in S; destruct S as [-> Hv]
       end.
  all: right; do 6 eexists; repeat split; eauto.
  all: try match goal with
       | E : _ || _ || Qle_bool ?a 0 = false |- 0 < ?a =>
           apply orb_false_iff in E; destruct E as [_ E];
           apply Qle_bool_false; exact E
       end.
  all: intros txn Ht Htr.
  all: match goal with
       | E : _ = None |- _ => rewrite Ht, Htr in E; exact E
       end.
Qed.

(** ** C3: a transaction identifier that is already recorded *)

Lemma findOne_appended {A} (q : A -> bool) (l : list A) (x : A) :
  findOne q l = None -> q x = true -> findOne q (l ++ [x]) = Some x.
Proof.
  unfold findOne. intros Hn Hx. rewrite find_app_none by exact Hn.
  simpl. rewrite Hx. reflexivity.
Qed.

Lemma txn_query_self txn p : transactionId p = Some txn -> txn_query txn p = true.
Proof. unfold txn_query. intros ->. simpl. apply String.eqb_refl. Qed.

Lemma or_string_truthy txn other :
  Js.truthy_string txn = true -> Js.or_string (Some txn) other = Some txn.
Proof. unfold Js.or_string. simpl. intros ->. reflexivity. Qed.

Lemma paybill_known_txn schema houses tenants cfg now db b txn e :
  pb_transactionId b = Some txn -> Js.truthy_string txn = true ->
  findOne (txn_query txn) db = Some e ->
  fst (paybill schema houses tenants cfg now db b) = db
  /\ is_success (snd (paybill schema houses tenants cfg now db b)) = false
  /\ (message (snd (paybill schema houses tenants cfg now db b)) = msg_txn_exists ->
      snd (paybill schema houses tenants cfg now db b) = txn_exists_response e).
Proof.
  intros Ht Htr He. unfold paybill. rewrite Ht, Htr, He.
  repeat match goal with
         | |- context [match ?x with _ => _ end] => destruct x
         end; simpl; repeat split; auto; intro Hm; discriminate Hm.
Qed.

Lemma receive_known_txn schema houses tenants now db b txn e :
  rc_transactionId b = Some txn -> Js.truthy_string txn = true ->
  findOne (txn_query txn) db = Some e ->
  fst (receive schema houses tenants now db b) = db
  /\ is_success (snd (receive schema houses tenants now db b)) = false
  /\ resp_receiptNumber (snd (receive schema houses tenants now db b)) = None.
Proof.
  intros Ht Htr He. unfold receive. rewrite Ht, Htr, He.
  repeat match goal with
         | |- context [match ?x with _ => _ end] => destruct x
         end; simpl; repeat split; auto.
Qed.

Lemma mpesa_known_txn schema houses tenants db b txn e :
  TransID b = Some txn ->
  findOne (txn_query txn) db = Some e ->
  exists logs,
    mpesa_confirmation schema houses tenants db b = (db, confirmation_ack, logs)
    /\ forall r, ~ In (log_recorded r) logs.
Proof.
  intros Ht He. unfold mpesa_confirmation. rewrite Ht, He.
  repeat match goal with
         | |- context [match ?x with _ => _ end] => destruct x
         end; eexists; (split; [reflexivity|]);
    intros r; simpl; intuition discriminate.
Qed.

Lemma bank_known_txn schema houses tenants now db w txn e :
  webhook_transactionId w = Some txn -> Js.truthy_string txn = true ->
  findOne (txn_query txn) db = Some e ->
  fst (fst (processEquityBankPayment schema houses tenants now db w)) = db
  /\ snd (fst (processEquityBankPayment schema houses tenants now db w)) = None.
Proof.
  intros Ht Htr He. unfold processEquityBankPayment. rewrite Ht, Htr, He.
  repeat match goal with
         | |- context [match ?x with _ => _ end] => destruct x
         end; simpl; split; reflexivity.
Qed.

Lemma paybill_201 schema houses tenants cfg now db b :
  http_status (snd (paybill schema houses tenants cfg now db b)) = 201%Z ->
  exists p, resp_payment (snd (paybill schema houses tenants cfg now db b)) = Some p.
Proof.
  unfold paybill.
  repeat match goal with
         | |- context [match ?x with _ => _ end] => destruct x
         end; simpl; intro H; try discriminate H; eauto.
Qed.

Lemma receive_201 schema houses tenants now db b :
  http_status (snd (receive schema houses tenants now db b)) = 201%Z ->
  exists p, resp_payment (snd (receive schema houses tenants now db b)) = Some p.
Proof.
  unfold receive.
  repeat match goal with
         | |- context [match ?x with _ => _ end] => destruct x
         end; simpl; intro H; try discriminate H; eauto.
Qed.

Lemma paybill_resubmitted schema houses tenants cfg now1 now2 db b p txn :
  paybill schema houses tenants cfg now1 db b = (db ++ [p], created_response p) ->
  pb_transactionId b = Some txn -> Js.truthy_string txn = true ->
  findOne (txn_query txn) (db ++ [p]) = Some p ->
  paybill schema houses tenants cfg now2 (db ++ [p]) b
  = (db ++ [p], txn_exists_response p).
Proof.
  intros H Ht Htr Hfound. unfold paybill in *.
  rewrite Ht, Htr in *. rewrite Hfound.
  destruct_matches H; try reflexivity; inversion H.
Qed.

Lemma receive_resubmitted schema houses tenants now1 now2 db b p txn :
  receive schema houses tenants now1 db b = (db ++ [p], created_response p) ->
  rc_transactionId b = Some txn -> Js.truthy_string txn = true ->
  findOne (txn_query txn) (db ++ [p]) = Some p ->
  receive schema houses tenants now2 (db ++ [p]) b
  = (db ++ [p], reply 400 msg_txn_exists).
Proof.
  intros H Ht Htr Hfound. unfold receive in *.
  rewrite Ht, Htr in *. rewrite Hfound.
  destruct_matches H; try reflexivity; inversion H.
Qed.

Lemma mpesa_resubmitted schema houses tenants db b db1 ack receipt txn :
  mpesa_confirmation schema houses tenants db b = (db1, ack, [log_recorded receipt]) ->
  TransID b = Some txn ->
  exists p,
    db1 = db ++ [p] /\ transactionId p = Some txn
    /\ receiptNumber p = Some receipt
    /\ mpesa_confirmation schema houses tenants db1 b
       = (db1, confirmation_ack, [log_txn_exists]).
Proof.
  intros H Ht. unfold mpesa_confirmation in H. rewrite Ht in H.
  destruct_matches H; inversion H; subst; clear H.
  match goal with
  | S : save _ _ _ = Some _ |- _ => apply save_Some in S; destruct S as [-> Hv]
  end.
  eexists. split; [reflexivity|]. split; [reflexivity|]. split; [reflexivity|].
  unfold mpesa_confirmation. rewrite Ht.
  repeat match goal with
         | E : ?x = _ |- context [?x] => rewrite E
         end.
  match goal with
  | |- context [findOne (txn_query txn) (db ++ [?p])] =>
      rewrite (findOne_appended (txn_query txn) db p) by
        (auto; apply txn_query_self; reflexivity)
  end.
  reflexivity.
Qed.

Lemma bank_resubmitted schema houses tenants now1 now2 db w db1 p logs txn :
  processEquityBankPayment schema houses tenants now1 db w = (db1, Some p, logs) ->
  webhook_transactionId w = Some txn -> Js.truthy_string txn = true ->
  db1 = db ++ [p] /\ transactionId p = Some txn
  /\ processEquityBankPayment schema houses tenants now2 db1 w
     = (db1, None, [log_txn_exists]).
Proof.
  intros H Ht Htr.
  destruct (bank_inv _ _ _ _ _ _ _ _ _ H)
    as [[Hnone _]|(p' & acc & amt & t & th & h & Hres & -> & _ & Hacc & Hamt & Hpos
                   & Hten & Hpop & _ & Hnew & Htxn & _)];
    [discriminate|].
  inversion Hres; subst p'; clear Hres.
  rewrite Ht, (or_string_truthy txn _ Htr) in Htxn.
  split; [reflexivity|]. split; [exact Htxn|].
  unfold processEquityBankPayment.
  rewrite Hacc, Hamt, Hten, Hpop, Ht, Htr.
  rewrite (findOne_appended (txn_query txn) db p (Hnew txn Ht Htr)
             (txn_query_self txn p Htxn)).
  unfold processEquityBankPayment in H. rewrite Hacc, Hamt in H.
  destruct (negb (Js.truthy_string acc) || Qeq_bool amt 0 || Qle_bool amt 0);
    [inversion H|reflexivity].
Qed.

(** C3 (as amended).  A notification whose external transaction identifier
    is already recorded never creates a second record, on any of the
    pay-bill, generic webhook, mobile-money confirmation and bank webhook
    channels.  Submitted twice, a notification is recorded once; the second
    submission is answered by pay-bill with HTTP 400 and the receipt number
    of the existing record, by the generic webhook with HTTP 400 and no
    receipt number, and is dropped by the acknowledge-first webhooks, whose
    acknowledgement names no receipt. *)
Theorem duplicate_transaction_id schema houses tenants cfg :
  (forall now1 now2 db b db1 r1 txn,
      paybill schema houses tenants cfg now1 db b = (db1, r1) ->
      http_status r1 = 201%Z ->
      pb_transactionId b = Some txn -> Js.truthy_string txn = true ->
      exists p,
        db1 = db ++ [p]
        /\ resp_receiptNumber r1 = receiptNumber p
        /\ paybill schema houses tenants cfg now2 db1 b
           = (db1, txn_exists_response p)
        /\ is_success (txn_exists_response p) = false)
  /\ (forall now1 now2 db b db1 r1 txn,
         receive schema houses tenants now1 db b = (db1, r1) ->
         http_status r1 = 201%Z ->
         rc_transactionId b = Some txn -> Js.truthy_string txn = true ->
         exists p,
           db1 = db ++ [p]
           /\ resp_receiptNumber r1 = receiptNumber p
           /\ receive schema houses tenants now2 db1 b
              = (db1, reply 400 msg_txn_exists)
           /\ resp_receiptNumber (reply 400 msg_txn_exists) = None)
  /\ (forall db b db1 ack receipt txn,
         mpesa_confirmation schema houses tenants db b
         = (db1, ack, [log_recorded receipt]) ->
         TransID b = Some txn ->
         exists p,
           db1 = db ++ [p]
           /\ mpesa_confirmation schema houses tenants db1 b
              = (db1, confirmation_ack, [log_txn_exists])
           /\ resp_receiptNumber confirmation_ack = None)
  /\ (forall now1 now2 db w db1 p logs txn,
         processEquityBankPayment schema houses tenants now1 db w
         = (db1, Some p, logs) ->
         webhook_transactionId w = Some txn -> Js.truthy_string txn = true ->
         db1 = db ++ [p]
         /\ processEquityBankPayment schema houses tenants now2 db1 w
            = (db1, None, [log_txn_exists])
         /\ equity_webhook schema houses tenants now2 db1 w
            = (db1, webhook_ack, [log_txn_exists])
         /\ resp_receiptNumber webhook_ack = None)
  /\ (forall db txn e,
         Js.truthy_string txn = true ->
         findOne (txn_query txn) db = Some e ->
         (forall now b,
             pb_transactionId b = Some txn ->
             fst (paybill schema houses tenants cfg now db b) = db
             /\ is_success (snd (paybill schema houses tenants cfg now db b)) = false)
         /\ (forall now b,
                rc_transactionId b = Some txn ->
                fst (receive schema houses tenants now db b) = db
                /\ is_success (snd (receive schema houses tenants now db b)) = false)
         /\ (forall b,
                TransID b = Some txn ->
                fst (fst (mpesa_confirmation schema houses tenants db b)) = db)
         /\ (forall now w,
                webhook_transactionId w = Some txn ->
                fst (fst (processEquityBankPayment schema houses tenants now db w))
                = db)).
Proof.
  split; [|split; [|split; [|split]]].
  - intros now1 now2 db b db1 r1 txn H H201 Ht Htr.
    pose proof (paybill_201 schema houses tenants cfg now1 db b) as Hc.
    rewrite H in Hc. destruct (Hc H201) as [p Hp].
    destruct (paybill_inv _ _ _ _ _ _ _ _ _ _ H Hp)
      as (acc & h & t & amt & _ & _ & _ & _ & Hpe & -> & -> & _ & Hnew & _).
    assert (Htx : transactionId p = Some txn).
    { rewrite Hpe. simpl. rewrite Ht. apply or_string_truthy. exact Htr. }
    exists p. split; [reflexivity|]. split; [reflexivity|]. split; [|reflexivity].
    apply (paybill_resubmitted _ _ _ _ now1 now2 db b p txn H Ht Htr).
    apply findOne_appended; [exact (Hnew txn Ht Htr)|apply txn_query_self; exact Htx].
  - intros now1 now2 db b db1 r1 txn H H201 Ht Htr.
    pose proof (receive_201 schema houses tenants now1 db b) as Hc.
    rewrite H in Hc. destruct (Hc H201) as [p Hp].
    destruct (receive_inv _ _ _ _ _ _ _ _ _ H Hp)
      as (hn & h & t & amt & _ & _ & _ & _ & Hpe & -> & -> & _ & Hnew & _).
    assert (Htx : transactionId p = Some txn).
    { rewrite Hpe. simpl. exact Ht. }
    exists p. split; [reflexivity|]. split; [reflexivity|]. split; [|reflexivity].
    apply (receive_resubmitted _ _ _ now1 now2 db b p txn H Ht Htr).
    apply findOne_appended; [exact (Hnew txn Ht Htr)|apply txn_query_self; exact Htx].
  - intros db b db1 ack receipt txn H Ht.
    destruct (mpesa_resubmitted _ _ _ _ _ _ _ _ _ H Ht) as (p & -> & _ & _ & H2).
    exists p. split; [reflexivity|]. split; [exact H2|reflexivity].
  - intros now1 now2 db w db1 p logs txn H Ht Htr.
    destruct (bank_resubmitted _ _ _ now1 now2 _ _ _ _ _ _ H Ht Htr) as (-> & _ & H2).
    split; [reflexivity|]. split; [exact H2|]. split; [|reflexivity].
    unfold equity_webhook. rewrite H2. reflexivity.
  - intros db txn e Htr He. split; [|split; [|split]].
    + intros now b Ht.
      destruct (paybill_known_txn schema houses tenants cfg now db b txn e Ht Htr He)
        as (H1 & H2 & _). split; assumption.
    + intros now b Ht.
      destruct (receive_known_txn schema houses tenants now db b txn e Ht Htr He)
        as (H1 & H2 & _). split; assumption.
    + intros b Ht.
      destruct (mpesa_known_txn schema houses tenants db b txn e Ht He) as (logs & H1 & _).
      rewrite H1. reflexivity.
    + intros now w Ht.
      destruct (bank_known_txn schema houses tenants now db w txn e Ht Htr He) as [H1 _].
      exact H1.
Qed.

Lemma duplicate_transaction_id_witness :
  exists p,
    fst after_paybill = [] ++ [p]
    /\ resp_receiptNumber (snd after_paybill) = receiptNumber p
    /\ paybill spec_schema sample_houses sample_tenants None march_11
         (fst after_paybill) paybill_body
       = (fst after_paybill, txn_exists_response p)
    /\ is_success (txn_exists_response p) = false.
Proof.
  exact (proj1 (duplicate_transaction_id spec_schema sample_houses sample_tenants None)
           march_1 march_11 [] paybill_body (fst after_paybill) (snd after_paybill)
           "TEST-20240301093000"%string eq_refl eq_refl eq_refl eq_refl).
Defined.

(** C3, the claim as stated fails.  The same notification submitted twice
    is recorded once, but the second submission is not a success: pay-bill
    answers it with HTTP 400 (naming the receipt of the first), the generic
    webhook with HTTP 400 and no receipt. *)
Lemma second_submission_is_rejected :
  http_status (snd after_paybill) = 201%Z
  /\ resp_receiptNumber (snd after_paybill) = Some "RCP-2024-000001"%string
  /\ fst (paybill spec_schema sample_houses sample_tenants None march_11
            (fst after_paybill) paybill_body) = fst after_paybill
  /\ List.length (fst after_paybill) = 1%nat
  /\ http_status (snd (paybill spec_schema sample_houses sample_tenants None march_11
                         (fst after_paybill) paybill_body)) = 400%Z
  /\ is_success (snd (paybill spec_schema sample_houses sample_tenants None march_11
                        (fst after_paybill) paybill_body)) = false
  /\ http_status (snd after_receive) = 201%Z
  /\ http_status (snd (receive spec_schema sample_houses sample_tenants march_11
                         (fst after_receive) receive_body)) = 400%Z
  /\ resp_receiptNumber (snd (receive spec_schema sample_houses sample_tenants march_11
                                (fst after_receive) receive_body)) = None.
Proof.
  repeat split; vm_compute; reflexivity.
Qed.

(** ** C6: a period that is already paid *)

Lemma unknown_txn_lookup db txn :
  unknown_txn db txn ->
  match txn with
  | Some x => if Js.truthy_string x then findOne (txn_query x) db else None
  | None => None
  end = None.
Proof.
  unfold unknown_txn. intro H. destruct txn as [x|]; [|reflexivity].
  destruct (Js.truthy_string x) eqn:E; [|reflexivity]. apply H; auto.
Qed.

Lemma paybill_period_duplicate schema houses tenants cfg now db b acc h t e :
  paybill_number_mismatch cfg b = false ->
  pb_accountNumber b = Some acc ->
  Js.truthy_string acc = true -> truthy_amount (pb_amount b) = true ->
  House_findByNumber houses (Js.trim acc) = Some h ->
  populate_tenant tenants h = Some t ->
  unknown_txn db (pb_transactionId b) ->
  findOne (paid_period_query (t_id t) (h_id h) (Js.month_string now)
             (Js.getFullYear now)) db = Some e ->
  paybill schema houses tenants cfg now db b = (db, period_exists_paybill e).
Proof.
  intros Hm Ha Hta Htm Hh Ht Hu He. unfold paybill.
  rewrite Hm, Ha, Hta, Htm, Hh, Ht, (unknown_txn_lookup _ _ Hu), He. reflexivity.
Qed.

Lemma receive_period_duplicate schema houses tenants now db b hn h t e :
  rc_houseNumber b = Some hn ->
  Js.truthy_string hn = true -> truthy_amount (rc_amount b) = true ->
  House_findByNumber houses (Js.trim hn) = Some h ->
  populate_tenant tenants h = Some t ->
  unknown_txn db (rc_transactionId b) ->
  findOne (paid_period_query (t_id t) (h_id h) (Js.month_string now)
             (Js.getFullYear now)) db = Some e ->
  receive schema houses tenants now db b = (db, period_exists_receive e).
Proof.
  intros Ha Hta Htm Hh Ht Hu He. unfold receive.
  rewrite Ha, Hta, Htm, Hh, Ht, (unknown_txn_lookup _ _ Hu), He. reflexivity.
Qed.

Lemma bank_period_duplicate schema houses tenants now db w acc amt t h e :
  webhook_account w = Some acc -> Js.truthy_string acc = true ->
  webhook_amount w = Some amt -> 0 < amt ->
  Tenant_findByAccount tenants (Js.trim acc) = Some t ->
  populate_house houses t = Some h ->
  unknown_txn db (webhook_transactionId w) ->
  findOne (paid_period_query (t_id t) (h_id h)
             (Js.month_string (webhook_date now w))
             (Js.getFullYear (webhook_date now w))) db = Some e ->
  processEquityBankPayment schema houses tenants now db w
  = if amount_differs e amt
    then match save schema db (bank_payment schema db w t h amt (webhook_date now w)) with
         | Some db' =>
             (db', Some (bank_payment schema db w t h amt (webhook_date now w)),
              [log_additional_payment;
               log_recorded (receipt_number (Js.getFullYear (webhook_date now w))
                               (List.length db))])
         | None => (db, None, [log_additional_payment; log_exception])
         end
    else (db, None, [log_period_exists]).
Proof.
  intros Ha Hta Hamt Hpos Ht Hh Hu He. unfold processEquityBankPayment.
  rewrite Ha, Hamt, Hta, Ht, Hh, (unknown_txn_lookup _ _ Hu).
  fold (webhook_date now w). rewrite He.
  assert (Hq : Qeq_bool amt 0 = false).
  { destruct (Qeq_bool amt 0) eqn:E; [|reflexivity].
    apply Qeq_bool_iff in E. rewrite E in Hpos. discriminate Hpos. }
  assert (Hl : Qle_bool amt 0 = false) by (apply Qle_bool_false; exact Hpos).
  rewrite Hq, Hl. simpl.
  rewrite (populate_house_found _ _ _ Hh).
  destruct (amount_differs e amt); reflexivity.
Qed.

Lemma amount_differs_iff e amt a :
  amount e = Some a -> (amount_differs e amt = true <-> ~ a == amt).
Proof.
  intro H. unfold amount_differs. rewrite H. rewrite negb_true_iff.
  split.
  - intros Hf Heq. apply Qeq_bool_iff in Heq. congruence.
  - intro Hne. destruct (Qeq_bool a amt) eqn:E; [|reflexivity].
    exfalso. apply Hne. apply Qeq_bool_iff. exact E.
Qed.

(** C6 (as amended).  Let a ['paid'] record [e] exist for the occupant, the
    unit and the period of a notification that passes the earlier checks.
    Pay-bill rejects the notification with HTTP 400 and names the existing
    record and its receipt number.  The generic webhook rejects it with
    HTTP 400 and names the existing record only: no receipt number is in
    its answer.  The bank webhook, comparing with the first such record,
    drops the notification when the reported amount equals that record's
    amount, and otherwise stores an additional record for the reported
    amount (provided the schema accepts the document). *)
Theorem period_duplicate_policy schema houses tenants cfg :
  (forall now db b acc h t e,
      paybill_number_mismatch cfg b = false ->
      pb_accountNumber b = Some acc ->
      Js.truthy_string acc = true -> truthy_amount (pb_amount b) = true ->
      House_findByNumber houses (Js.trim acc) = Some h ->
      populate_tenant tenants h = Some t ->
      unknown_txn db (pb_transactionId b) ->
      findOne (paid_period_query (t_id t) (h_id h) (Js.month_string now)
                 (Js.getFullYear now)) db = Some e ->
      paybill schema houses tenants cfg now db b = (db, period_exists_paybill e)
      /\ is_success (period_exists_paybill e) = false
      /\ resp_receiptNumber (period_exists_paybill e) = receiptNumber e)
  /\ (forall now db b hn h t e,
         rc_houseNumber b = Some hn ->
         Js.truthy_string hn = true -> truthy_amount (rc_amount b) = true ->
         House_findByNumber houses (Js.trim hn) = Some h ->
         populate_tenant tenants h = Some t ->
         unknown_txn db (rc_transactionId b) ->
         findOne (paid_period_query (t_id t) (h_id h) (Js.month_string now)
                    (Js.getFullYear now)) db = Some e ->
         receive schema houses tenants now db b = (db, period_exists_receive e)
         /\ is_success (period_exists_receive e) = false
         /\ resp_existingPayment (period_exists_receive e) = Some e
         /\ resp_receiptNumber (period_exists_receive e) = None)
  /\ (forall now db w acc amt t h e,
         webhook_account w = Some acc -> Js.truthy_string acc = true ->
         webhook_amount w = Some amt -> 0 < amt ->
         Tenant_findByAccount tenants (Js.trim acc) = Some t ->
         populate_house houses t = Some h ->
         unknown_txn db (webhook_transactionId w) ->
         findOne (paid_period_query (t_id t) (h_id h)
                    (Js.month_string (webhook_date now w))
                    (Js.getFullYear (webhook_date now w))) db = Some e ->
         let p := bank_payment schema db w t h amt (webhook_date now w) in
         (forall a, amount e = Some a -> a == amt ->
                    processEquityBankPayment schema houses tenants now db w
                    = (db, None, [log_period_exists]))
         /\ (amount_differs e amt = true -> validate schema p = true ->
             processEquityBankPayment schema houses tenants now db w
             = (db ++ [p], Some p,
                [log_additional_payment;
                 log_recorded (receipt_number (Js.getFullYear (webhook_date now w))
                                 (List.length db))])
             /\ amount p = Some amt)
         /\ (forall a, amount e = Some a ->
                       (amount_differs e amt = true <-> ~ a == amt))
         /\ (fst (fst (processEquityBankPayment schema houses tenants now db w)) <> db ->
             amount_differs e amt = true)).
Proof.
  split; [|split].
  - intros now db b acc h t e Hm Ha Hta Htm Hh Ht Hu He.
    split; [|split; reflexivity].
    apply (paybill_period_duplicate _ _ _ _ _ _ _ acc h t e); assumption.
  - intros now db b hn h t e Ha Hta Htm Hh Ht Hu He.
    split; [|repeat split; reflexivity].
    apply (receive_period_duplicate _ _ _ _ _ _ hn h t e); assumption.
  - intros now db w acc amt t h e Ha Hta Hamt Hpos Ht Hh Hu He p.
    pose proof (bank_period_duplicate schema _ _ now db w acc amt t h e
                  Ha Hta Hamt Hpos Ht Hh Hu He) as Heq.
    fold p in Heq.
    split; [|split; [|split]].
    + intros a Hae Hsame. rewrite Heq.
      assert (Hd : amount_differs e amt = false).
      { destruct (amount_differs e amt) eqn:E; [|reflexivity].
        exfalso. exact (proj1 (amount_differs_iff e amt a Hae) E Hsame). }
      rewrite Hd. reflexivity.
    + intros Hd Hv. rewrite Heq, Hd. unfold save. rewrite Hv.
      split; reflexivity.
    + intros a Hae. apply amount_differs_iff. exact Hae.
    + intro Hne. destruct (amount_differs e amt) eqn:E; [reflexivity|].
      exfalso. apply Hne. rewrite Heq. reflexivity.
Qed.

Lemma period_duplicate_policy_witness :
  paybill spec_schema sample_houses sample_tenants None march_11
    (fst after_paybill) second_paybill_body
  = (fst after_paybill, period_exists_paybill paid_march)
  /\ is_success (period_exists_paybill paid_march) = false
  /\ resp_receiptNumber (period_exists_paybill paid_march) = receiptNumber paid_march.
Proof.
  apply (proj1 (period_duplicate_policy spec_schema sample_houses sample_tenants None)
           march_11 (fst after_paybill) second_paybill_body
           "101"%string house_101 tenant_7 paid_march);
    try reflexivity.
  intros x Hx Htr. inversion Hx; subst. reflexivity.
Defined.

(** C6, the claim as stated fails on the generic webhook: its rejection
    names the existing record but not its receipt, although the record has
    one. *)
Lemma generic_webhook_surfaces_no_receipt :
  status paid_march = paid
  /\ receiptNumber paid_march = Some "RCP-2024-000001"%string
  /\ receive spec_schema sample_houses sample_tenants march_11
       (fst after_paybill) receive_body
     = (fst after_paybill, period_exists_receive paid_march)
  /\ resp_receiptNumber
       (snd (receive spec_schema sample_houses sample_tenants march_11
               (fst after_paybill) receive_body)) = None.
Proof.
  repeat split; vm_compute; reflexivity.
Qed.

(** ** C10: the channels that store no ledger *)

Lemma rent_status_cases (amt : Q) (h : House) :
  (amt < rentAmount h -> rent_status (Some amt) h = partial)
  /\ (rentAmount h <= amt -> rent_status (Some amt) h = paid).
Proof.
  unfold rent_status, num_lt. split; intro H.
  - apply Qlt_bool_iff in H. rewrite H. reflexivity.
  - apply Qlt_bool_false in H. rewrite H. reflexivity.
Qed.

(** A record whose stored deficit is not positive is never carried
    forward. *)
Lemma carried_forward_no_deficit db t h m y p :
  findLatest (period_query t h (fst (prev_period m y)) (snd (prev_period m y))) db
  = Some p ->
  match deficit p with Some d => d <= 0 | None => True end ->
  carried_forward db t h m y = 0.
Proof.
  intros Hl Hd. unfold carried_forward.
  destruct (prev_period m y) as [pm py]. simpl in Hl. rewrite Hl.
  destruct (deficit p) as [d|]; [|reflexivity].
  apply Qlt_bool_false in Hd. rewrite Hd. reflexivity.
Qed.

Lemma channel_payment_no_ledger schema t h amt compared date m y txn ref hn src receipt :
  stores_no_ledger schema compared amt h
    (channel_payment schema t h (Some amt) date m y (rent_status compared h)
       txn ref hn src receipt).
Proof.
  unfold stores_no_ledger.
  do 6 (split; [reflexivity|]).
  destruct compared as [c|]; [apply rent_status_cases|reflexivity].
Qed.

(** C10.  A record created through pay-bill, the mobile-money confirmation
    or the generic webhook is given no expected amount, paid amount,
    deficit or carried-forward amount by the handler (each is what the
    schema defaults to, if anything).  Its amount is what [parseFloat]
    reads from the reported amount, and its status is decided by the
    comparison of the reported amount with the rent of the unit alone:
    ['partial'] when the amount, as the handler compares it, is a number
    below the rent and ['paid'] otherwise.  Pay-bill and the generic
    webhook compare the reported value itself, so that a text such as
    "800/=", which is no number, is recorded as ['paid'] with amount 800;
    the confirmation compares what [parseFloat] read.  The stored deficit
    not being positive, the look-up of the preceding period carries
    nothing forward from such a record, shortfall or not. *)
Theorem ledgerless_channels schema houses tenants cfg :
  match default_deficit schema with Some d => d <= 0 | None => True end ->
  (forall now db b db' r p,
      paybill schema houses tenants cfg now db b = (db', r) ->
      resp_payment r = Some p ->
      exists acc h amt,
        pb_accountNumber b = Some acc
        /\ House_findByNumber houses (Js.trim acc) = Some h
        /\ parseFloat (pb_amount b) = Some amt
        /\ db' = db ++ [p]
        /\ stores_no_ledger schema (toNumber (pb_amount b)) amt h p)
  /\ (forall now db b db' r p,
         receive schema houses tenants now db b = (db', r) ->
         resp_payment r = Some p ->
         exists hn h amt,
           rc_houseNumber b = Some hn
           /\ House_findByNumber houses (Js.trim hn) = Some h
           /\ parseFloat (rc_amount b) = Some amt
           /\ db' = db ++ [p]
           /\ stores_no_ledger schema (toNumber (rc_amount b)) amt h p)
  /\ (forall db b db' ack logs,
         mpesa_confirmation schema houses tenants db b = (db', ack, logs) ->
         db' = db
         \/ exists bill h amt p,
              BillRefNumber b = Some bill
              /\ House_findByNumber houses (Js.trim bill) = Some h
              /\ parseFloat (TransAmount b) = Some amt
              /\ db' = db ++ [p]
              /\ stores_no_ledger schema (parseFloat (TransAmount b)) amt h p)
  /\ (forall compared stored h p,
         stores_no_ledger schema compared stored h p ->
         forall db0 t u m y,
           findLatest (period_query t u (fst (prev_period m y)) (snd (prev_period m y)))
             db0 = Some p ->
           carried_forward db0 t u m y = 0).
Proof.
  intro Hdef. split; [|split; [|split]].
  - intros now db b db' r p H Hp.
    destruct (paybill_inv _ _ _ _ _ _ _ _ _ _ H Hp)
      as (acc & h & t & amt & Hacc & Hh & _ & Hamt & -> & -> & _).
    exists acc, h, amt. repeat (split; [assumption || reflexivity|]).
    apply channel_payment_no_ledger.
  - intros now db b db' r p H Hp.
    destruct (receive_inv _ _ _ _ _ _ _ _ _ H Hp)
      as (hn & h & t & amt & Hhn & Hh & _ & Hamt & -> & -> & _).
    exists hn, h, amt. repeat (split; [assumption || reflexivity|]).
    apply channel_payment_no_ledger.
  - intros db b db' ack logs H.
    destruct (mpesa_confirmation_inv _ _ _ _ _ _ _ _ H)
      as [_ [->|(bill & txn & h & t & amt & d & Hb & _ & _ & Hh & _ & Hamt & _ & ->)]];
      [left; reflexivity|].
    right. eexists bill, h, amt, _. repeat (split; [assumption || reflexivity|]).
    apply channel_payment_no_ledger.
  - intros compared stored h p (_ & _ & Hd & _) db0 t u m y Hl.
    apply (carried_forward_no_deficit db0 t u m y p Hl).
    rewrite Hd. exact Hdef.
Qed.

Lemma ledgerless_channels_witness :
  exists p,
    fst after_shortfall = [p]
    /\ status p = partial
    /\ amount p = Some 800
    /\ deficit p = None
    /\ carried_forward (fst after_shortfall) 7%nat 1%nat "04" 2024 = 0.
Proof.
  destruct (ledgerless_channels spec_schema sample_houses sample_tenants None I)
    as (Hpay & _ & _ & Hcarry).
  destruct (Hpay march_1 [] shortfall_body (fst after_shortfall) (snd after_shortfall)
              (nth 0 (fst after_shortfall) blank_payment) eq_refl eq_refl)
    as (acc & h & amt & _ & _ & _ & Hdb & Hno).
  exists (nth 0 (fst after_shortfall) blank_payment).
  split; [reflexivity|]. split; [reflexivity|]. split; [reflexivity|].
  split; [reflexivity|].
  apply (Hcarry _ _ h _ Hno). reflexivity.
Defined.

(** ** C7: validation of the input *)

(** *** Missing account reference or amount *)






(** *** An amount that is not a number *)







(** *** The sign of the amount *)







(** *** Only validated records are persisted *)



Section Persisted.

Variable schema : PaymentSchema.















End Persisted.





(** * Further properties *)

(** ** The calendar *)

Section Calendar.

Local Open Scope Z_scope.

Lemma all_from_spec (f : Z -> bool) (n : nat) (z : Z) :
  Era.all_from f n z = true ->
  forall k, z <= k < z + Z.of_nat n -> f k = true.
Proof.
  revert z. induction n as [|n IH]; intros z H k Hk.
  - simpl in Hk. lia.
  - simpl in H. apply andb_true_iff in H. destruct H as [Hz Hr].
    destruct (Z.eq_dec k z) as [->|Hne]; [exact Hz|].
    apply (IH (z + 1) Hr). lia.
Qed.

Lemma era_days_ok : Era.all_from Era.day_ok (Z.to_nat 146097) 0 = true.
Proof. vm_compute. reflexivity. Qed.

Lemma era_firsts_ok : Era.all_from Era.first_ok (Z.to_nat 4800) 0 = true.
Proof. vm_compute. reflexivity. Qed.

Lemma era_day_ok (doe : Z) : 0 <= doe < 146097 -> Era.day_ok doe = true.
Proof.
  intro H. apply (all_from_spec _ _ _ era_days_ok).
  rewrite Z2Nat.id by lia. lia.
Qed.

Lemma era_first_ok (i : Z) : 0 <= i < 4800 -> Era.first_ok i = true.
Proof.
  intro H. apply (all_from_spec _ _ _ era_firsts_ok).
  rewrite Z2Nat.id by lia. lia.
Qed.

Lemma civil_from_days_era (z : Z) :
  Js.civil_from_days z
  = let era := (z + 719468) / 146097 in
    let '(yoe, m, d) := Era.date_of_day ((z + 719468) mod 146097) in
    ((if m <=? 2 then yoe + era * 400 + 1 else yoe + era * 400), m, d).
Proof.
  unfold Js.civil_from_days, Era.date_of_day.
  rewrite (Z.mod_eq (z + 719468) 146097) by lia.
  replace (z + 719468 - 146097 * ((z + 719468) / 146097))
    with (z + 719468 - (z + 719468) / 146097 * 146097) by ring.
  cbv zeta. reflexivity.
Qed.

Lemma days_from_civil_era (y m d : Z) :
  Js.days_from_civil y m d
  = let y' := if m <=? 2 then y - 1 else y in
    (y' / 400) * 146097 + Era.day_of_date (y' mod 400) m d - 719468.
Proof.
  unfold Js.days_from_civil, Era.day_of_date. cbv zeta.
  rewrite (Z.mod_eq _ 400) by lia.
  replace ((if m <=? 2 then y - 1 else y) - 400 * ((if m <=? 2 then y - 1 else y) / 400))
    with ((if m <=? 2 then y - 1 else y) - (if m <=? 2 then y - 1 else y) / 400 * 400) by ring.
  reflexivity.
Qed.

Ltac bools :=
  repeat match goal with
         | H : _ && _ = true |- _ => apply andb_true_iff in H; destruct H
         | H : (_ <=? _) = true |- _ => apply Z.leb_le in H
         | H : (_ <? _) = true |- _ => apply Z.ltb_lt in H
         | H : (_ =? _) = true |- _ => apply Z.eqb_eq in H
         end.

(** The month of a civil date is in 1..12 and its day in 1..31. *)
Lemma civil_from_days_range (z : Z) :
  let '(y, m, d) := Js.civil_from_days z in 1 <= m <= 12 /\ 1 <= d <= 31.
Proof.
  rewrite civil_from_days_era. cbv zeta.
  pose proof (era_day_ok ((z + 719468) mod 146097)
                (Z.mod_pos_bound _ 146097 eq_refl)) as H.
  unfold Era.day_ok in H.
  destruct (Era.date_of_day ((z + 719468) mod 146097)) as [[yoe m] d].
  bools. lia.
Qed.

(** The day count of the civil date of a day count is that day count. *)
Lemma days_from_civil_from_days (z : Z) :
  let '(y, m, d) := Js.civil_from_days z in Js.days_from_civil y m d = z.
Proof.
  rewrite civil_from_days_era. cbv zeta.
  pose proof (era_day_ok ((z + 719468) mod 146097)
                (Z.mod_pos_bound _ 146097 eq_refl)) as H.
  unfold Era.day_ok in H.
  destruct (Era.date_of_day ((z + 719468) mod 146097)) as [[yoe m] d] eqn:E.
  bools.
  rewrite days_from_civil_era. cbv zeta.
  set (era := (z + 719468) / 146097) in *.
  assert (Hy : (if m <=? 2
                then (if m <=? 2 then yoe + era * 400 + 1 else yoe + era * 400) - 1
                else (if m <=? 2 then yoe + era * 400 + 1 else yoe + era * 400))
               = yoe + era * 400).
  { destruct (m <=? 2); lia. }
  rewrite Hy.
  assert (Hdiv : (yoe + era * 400) / 400 = era).
  { rewrite Z.div_add by lia. rewrite Z.div_small by lia. lia. }
  assert (Hmod : (yoe + era * 400) mod 400 = yoe).
  { rewrite Z.mod_add by lia. apply Z.mod_small. lia. }
  rewrite Hdiv, Hmod.
  match goal with Hd : Era.day_of_date _ _ _ = _ |- _ => rewrite Hd end.
  pose proof (Z.div_mod (z + 719468) 146097 ltac:(lia)) as Hdm.
  unfold era. lia.
Qed.

(** The civil date of the day count of the first day of a month is that
    day. *)
Lemma civil_from_days_first (y m : Z) :
  1 <= m <= 12 -> Js.civil_from_days (Js.days_from_civil y m 1) = (y, m, 1).
Proof.
  intro Hm.
  rewrite days_from_civil_era. cbv zeta.
  set (y' := if m <=? 2 then y - 1 else y).
  pose proof (Z.mod_pos_bound y' 400 eq_refl) as Hyoe.
  pose proof (era_first_ok ((y' mod 400) * 12 + (m - 1)) ltac:(lia)) as H.
  unfold Era.first_ok in H. cbv zeta in H.
  assert (E1 : ((y' mod 400) * 12 + (m - 1)) / 12 = y' mod 400).
  { rewrite (Z.add_comm (y' mod 400 * 12)), Z.div_add by lia.
    rewrite Z.div_small by lia. lia. }
  assert (E2 : ((y' mod 400) * 12 + (m - 1)) mod 12 + 1 = m).
  { rewrite (Z.add_comm (y' mod 400 * 12)), Z.mod_add by lia.
    rewrite Z.mod_small by lia. lia. }
  rewrite E1, E2 in H.
  set (doe := Era.day_of_date (y' mod 400) m 1) in *.
  destruct (Era.date_of_day doe) as [[yoe' m'] d'] eqn:E.
  bools.
  rewrite civil_from_days_era. cbv zeta.
  replace (y' / 400 * 146097 + doe - 719468 + 719468) with (doe + y' / 400 * 146097) by ring.
  rewrite Z.mod_add by lia. rewrite Z.div_add by lia.
  rewrite (Z.mod_small doe) by lia. rewrite (Z.div_small doe) by lia.
  rewrite E.
  subst yoe' m' d'.
  pose proof (Z.div_mod y' 400 ltac:(lia)) as Hdm.
  unfold y' in *.
  destruct (m <=? 2) eqn:Em; f_equal; f_equal; lia.
Qed.

(** ** The first day of a month, as [new Date(year, monthIndex, 1)] *)

Lemma getMonth_range (t : Z) : 0 <= Js.getMonth t <= 11.
Proof.
  unfold Js.getMonth.
  pose proof (civil_from_days_range (t / Js.ms_per_day)) as H.
  destruct (Js.civil_from_days (t / Js.ms_per_day)) as [[y m] d]. lia.
Qed.

Lemma parseInt_month_name (k : Z) :
  1 <= k <= 12 -> Js.parseInt (month_name k) = Some k.
Proof.
  intro Hk.
  assert (Hc : k = 1 \/ k = 2 \/ k = 3 \/ k = 4 \/ k = 5 \/ k = 6 \/ k = 7
               \/ k = 8 \/ k = 9 \/ k = 10 \/ k = 11 \/ k = 12) by lia.
  repeat (destruct Hc as [->|Hc]); try subst k; reflexivity.
Qed.

Lemma month_string_name (t : Z) : Js.month_string t = month_name (Js.getMonth t + 1).
Proof. reflexivity. Qed.

Lemma parseInt_month_string (t : Z) :
  Js.parseInt (Js.month_string t) = Some (Js.getMonth t + 1).
Proof.
  rewrite month_string_name. apply parseInt_month_name.
  pose proof (getMonth_range t). lia.
Qed.

Lemma days_from_civil_day (y m d : Z) :
  Js.days_from_civil y m d = Js.days_from_civil y m 1 + (d - 1).
Proof. unfold Js.days_from_civil. cbv zeta. lia. Qed.

(** [new Date(y, mi, 1)] for a year outside 0..99: the first day of
    month [mi mod 12] of year [y + mi / 12]. *)
Lemma Date_ymd_first (y mi : Z) :
  y < 0 \/ 99 < y ->
  exists due,
    Js.Date_ymd y (Some mi) 1 = Some due
    /\ Js.getFullYear due = y + mi / 12
    /\ Js.getMonth due = mi mod 12
    /\ JsDate.getDate due = 1
    /\ due mod Js.ms_per_day = 0
    /\ due = Js.days_from_civil (y + mi / 12) (mi mod 12 + 1) 1 * Js.ms_per_day.
Proof.
  intro Hy. unfold Js.Date_ymd.
  assert (E : ((0 <=? y) && (y <=? 99)) = false).
  { apply andb_false_iff. destruct Hy; [left; apply Z.leb_gt|right; apply Z.leb_gt]; lia. }
  rewrite E.
  eexists. split; [reflexivity|].
  replace (Js.days_from_civil (y + mi / 12) (mi mod 12 + 1) 1 + (1 - 1))
    with (Js.days_from_civil (y + mi / 12) (mi mod 12 + 1) 1) by lia.
  pose proof (Z.mod_pos_bound mi 12 eq_refl) as Hm.
  unfold Js.getFullYear, Js.getMonth, JsDate.getDate.
  rewrite Z.div_mul by (unfold Js.ms_per_day; lia).
  rewrite civil_from_days_first by lia.
  repeat split; try lia.
  apply Z.mod_mul. unfold Js.ms_per_day. lia.
Qed.

Lemma ms_per_day_pos : 0 < Js.ms_per_day.
Proof. reflexivity. Qed.

Lemma floor_day_le (t msd q D d : Z) :
  0 < msd -> q = t / msd -> D + (d - 1) = q -> 1 <= d -> D * msd <= t.
Proof.
  intros Hpos Hq HD Hd.
  pose proof (Z.mul_div_le t msd Hpos) as Hle.
  rewrite <- Hq in Hle.
  assert (D <= q) by lia.
  assert (D * msd <= q * msd) by (apply Z.mul_le_mono_nonneg_r; lia).
  lia.
Qed.

(** The due date every channel computes from the date of a payment,
    [new Date(year, parseInt(month) - 1, 1)] with [month] and [year] read
    off that date, is the first day of the payment's month. *)
Lemma due_date_of_month (t : Z) :
  Js.getFullYear t < 0 \/ 99 < Js.getFullYear t ->
  exists due,
    Js.Date_ymd (Js.getFullYear t)
      (option_map (fun k => k - 1) (Js.parseInt (Js.month_string t))) 1 = Some due
    /\ first_of_month t due.
Proof.
  intro Hy. rewrite parseInt_month_string.
  change (option_map (fun k => k - 1) (Some (Js.getMonth t + 1)))
    with (Some (Js.getMonth t + 1 - 1)).
  replace (Js.getMonth t + 1 - 1) with (Js.getMonth t) by lia.
  destruct (Date_ymd_first (Js.getFullYear t) (Js.getMonth t) Hy)
    as (due & Hd & Hyr & Hmo & Hda & Hmid & Hval).
  pose proof (getMonth_range t) as Hr.
  rewrite Z.div_small in Hyr, Hval by lia.
  rewrite Z.mod_small in Hmo, Hval by lia.
  rewrite Z.add_0_r in Hyr, Hval.
  exists due. split; [exact Hd|].
  unfold first_of_month.
  split; [exact Hyr|]. split; [exact Hmo|]. split; [exact Hda|]. split; [exact Hmid|].
  (* the first of the month is not after [t] *)
  rewrite Hval.
  pose proof (days_from_civil_from_days (t / Js.ms_per_day)) as Hinv.
  pose proof (civil_from_days_range (t / Js.ms_per_day)) as Hrg.
  unfold Js.getFullYear, Js.getMonth.
  destruct (Js.civil_from_days (t / Js.ms_per_day)) as [[y m] d].
  rewrite days_from_civil_day in Hinv.
  replace (m - 1 + 1) with m by lia.
  apply (floor_day_le t Js.ms_per_day (t / Js.ms_per_day) _ d ms_per_day_pos eq_refl Hinv).
  lia.
Qed.

End Calendar.

(** ** The generator run again *)

Lemma generate_loop_extends schema houses today pct grace tm ty ts :
  forall db gen errs,
    exists new,
      fst (generate_loop schema houses today pct grace tm ty ts db gen errs) = db ++ new.
Proof.
  induction ts as [|t rest IH]; intros db gen errs; simpl.
  - exists []. rewrite app_nil_r. reflexivity.
  - destruct (populate_house houses t) as [h|]; [|apply IH].
    destruct (findOne _ db); [apply IH|].
    destruct (generated_payment schema today pct grace tm ty db t h) as [p|];
      [|exists []; rewrite app_nil_r; reflexivity].
    destruct (save schema db p) as [db1|] eqn:Hs;
      [|exists []; rewrite app_nil_r; reflexivity].
    apply save_Some in Hs. destruct Hs as [-> _].
    destruct (IH (db ++ [p]) (gen ++ [p]) errs) as (new & ->).
    exists (p :: new). rewrite <- app_assoc. reflexivity.
Qed.

Lemma is_some_find_app {A} (q : A -> bool) (l1 l2 : list A) :
  is_some (find q l1) = true -> is_some (find q (l1 ++ l2)) = true.
Proof.
  destruct (find q l1) as [x|] eqn:E; [|discriminate].
  intros _. rewrite (find_app_l q l1 l2 x E). reflexivity.
Qed.

Lemma period_query_generated schema today pct grace tm ty db t h p :
  generated_payment schema today pct grace tm ty db t h = Some p ->
  period_query (t_id t) (h_id h) tm ty p = true.
Proof.
  intro H. destruct (generated_payment_props _ _ _ _ _ _ _ _ _ _ H)
    as (due & _ & _ & Ht & Hh & Hm & Hy & _).
  unfold period_query. rewrite Ht, Hh, Hm, Hy. simpl.
  rewrite !Nat.eqb_refl, String.eqb_refl, Z.eqb_refl. reflexivity.
Qed.

(** A run that reaches its end leaves a record of the period for every
    tenant with a unit. *)
Lemma generate_loop_records schema houses today pct grace tm ty ts :
  forall db gen errs db' out,
    generate_loop schema houses today pct grace tm ty ts db gen errs = (db', Some out) ->
    period_recorded houses tm ty db' ts.
Proof.
  induction ts as [|t0 rest IH]; intros db gen errs db' out H t h Ht Hh.
  - destruct Ht.
  - simpl in H.
    destruct (populate_house houses t0) as [h0|] eqn:Hpop.
    + destruct (findOne (period_query (t_id t0) (h_id h0) tm ty) db) as [ex|] eqn:Hex.
      * destruct Ht as [<-|Ht]; [|exact (IH _ _ _ _ _ H t h Ht Hh)].
        rewrite Hpop in Hh. inversion Hh; subst h0.
        destruct (generate_loop_extends schema houses today pct grace tm ty rest db gen
                    (errs ++ [already_exists_message t0 tm ty])) as (new & Hnew).
        rewrite H in Hnew. simpl in Hnew. subst db'.
        apply is_some_find_app. unfold findOne in Hex. rewrite Hex. reflexivity.
      * destruct (generated_payment schema today pct grace tm ty db t0 h0) as [p0|] eqn:Hb;
          [|discriminate].
        destruct (save schema db p0) as [db1|] eqn:Hs; [|discriminate].
        apply save_Some in Hs. destruct Hs as [-> Hv].
        destruct Ht as [<-|Ht]; [|exact (IH _ _ _ _ _ H t h Ht Hh)].
        rewrite Hpop in Hh. inversion Hh; subst h0.
        destruct (generate_loop_extends schema houses today pct grace tm ty rest
                    (db ++ [p0]) (gen ++ [p0]) errs) as (new & Hnew).
        rewrite H in Hnew. simpl in Hnew. subst db'.
        apply is_some_find_app. unfold findOne in Hex.
        rewrite (find_app_none _ db [p0] Hex). simpl.
        rewrite (period_query_generated _ _ _ _ _ _ _ _ _ _ Hb). reflexivity.
    + destruct Ht as [<-|Ht]; [congruence|].
      exact (IH _ _ _ _ _ H t h Ht Hh).
Qed.

(** On a collection that records the period for every tenant with a unit,
    the loop creates nothing and reports each of them. *)
Lemma generate_loop_recorded schema houses today pct grace tm ty ts :
  forall db gen errs,
    period_recorded houses tm ty db ts ->
    exists msgs,
      generate_loop schema houses today pct grace tm ty ts db gen errs
      = (db, Some (gen, errs ++ msgs))
      /\ List.length msgs = List.length (housed houses ts).
Proof.
  induction ts as [|t0 rest IH]; intros db gen errs Hrec; simpl.
  - exists []. rewrite app_nil_r. split; reflexivity.
  - assert (Hrest : period_recorded houses tm ty db rest).
    { intros t h Ht Hh. apply (Hrec t h); [right; exact Ht|exact Hh]. }
    destruct (populate_house houses t0) as [h0|] eqn:Hpop.
    + pose proof (Hrec t0 h0 (or_introl eq_refl) Hpop) as H0.
      destruct (findOne (period_query (t_id t0) (h_id h0) tm ty) db) as [ex|];
        [|discriminate].
      destruct (IH db gen (errs ++ [already_exists_message t0 tm ty]) Hrest)
        as (msgs & -> & Hlen).
      exists (already_exists_message t0 tm ty :: msgs).
      rewrite <- app_assoc. simpl. split; [reflexivity|].
      unfold housed in *. cbn [filter]. try rewrite Hpop. simpl. rewrite Hlen. reflexivity.
    + destruct (IH db gen errs Hrest) as (msgs & -> & Hlen).
      exists msgs. split; [reflexivity|].
      unfold housed in *. cbn [filter]. try rewrite Hpop. simpl. exact Hlen.
Qed.

(** X1.  The generator is idempotent per period: once a run for a period
    has reached its end, every later run for the same period, at any
    time and with any fee parameters, leaves the collection as it is,
    generates 0 records and reports each active tenant with a unit as
    already having a record. *)
Theorem generator_idempotent schema houses tenants today db b db1 s1 :
  generate_monthly_rent schema houses tenants today db b = (db1, Some s1) ->
  forall today' b',
    target_month today' b' = target_month today b ->
    target_year today' b' = target_year today b ->
    exists s2,
      generate_monthly_rent schema houses tenants today' db1 b' = (db1, Some s2)
      /\ gen_generated s2 = 0%nat
      /\ gen_errors s2 = List.length (housed houses (active_tenants tenants)).
Proof.
  intros H today' b' Hm Hy. unfold generate_monthly_rent in *.
  destruct (generate_loop schema houses today _ _ _ _ (active_tenants tenants) db [] [])
    as [db' [[g e]|]] eqn:Hloop; [|discriminate].
  inversion H; subst db1 s1; clear H.
  pose proof (generate_loop_records _ _ _ _ _ _ _ _ _ _ _ _ _ Hloop) as Hrec.
  rewrite Hm, Hy.
  destruct (generate_loop_recorded schema houses today'
              (or_default_5 (g_lateFeePercentage b'))
              (grace_or_default (g_gracePeriodDays b'))
              (target_month today b) (target_year today b)
              (active_tenants tenants) db' [] [] Hrec) as (msgs & -> & Hlen).
  eexists. split; [reflexivity|]. simpl. split; [reflexivity|exact Hlen].
Qed.

Lemma generator_idempotent_witness :
  exists s2,
    generate_monthly_rent spec_schema sample_houses [tenant_7] april_11
      [partial_march; april_pending] april_body
    = ([partial_march; april_pending], Some s2)
    /\ gen_generated s2 = 0%nat /\ gen_errors s2 = 1%nat.
Proof.
  destruct (generator_idempotent spec_schema sample_houses [tenant_7] march_1
              [partial_march] april_body [partial_march; april_pending]
              {| gen_generated := 1; gen_errors := 0; gen_details := [] |}
              eq_refl april_11 april_body eq_refl eq_refl)
    as (s2 & H & Hg & He).
  exists s2. split; [exact H|]. split; [exact Hg|exact He].
Defined.

(** ** An STK push and its callback *)

Lemma stk_push_sent schema houses tenants provider now db b db1 r :
  stk_push schema houses tenants provider now db b = (db1, r) ->
  http_status r = 200%Z ->
  exists stored c phone hn,
    sp_phoneNumber b = Some phone /\ sp_houseNumber b = Some hn
    /\ provider phone (sp_amount b) hn = PushSent c
    /\ db1 = db ++ [stored]
    /\ resp_payment r = Some stored
    /\ transactionId stored = Some c
    /\ status stored = pending
    /\ amount stored = parseFloat (sp_amount b)
    /\ validate schema stored = true.
Proof.
  unfold stk_push. intros H H200.
  destruct_matches H; inversion H; subst; clear H; simpl in H200; try discriminate.
  all: do 4 eexists; repeat split; eauto; simpl; try (symmetry; assumption).
Qed.

Lemma find_index_app_new {A} (q : A -> bool) (l : list A) (x : A) :
  find q l = None -> q x = true -> find_index q (l ++ [x]) = Some (List.length l).
Proof.
  induction l as [|a l IH]; simpl; intros Hn Hx.
  - rewrite Hx. reflexivity.
  - destruct (q a); [discriminate|]. rewrite (IH Hn Hx). reflexivity.
Qed.

Lemma update_nth_last {A} (l : list A) (x y : A) :
  update_nth (List.length l) y (l ++ [x]) = l ++ [y].
Proof. induction l as [|a l IH]; simpl; [reflexivity|]. rewrite IH. reflexivity. Qed.

Lemma nth_error_last {A} (l : list A) (x : A) :
  nth_error (l ++ [x]) (List.length l) = Some x.
Proof. induction l as [|a l IH]; simpl; auto. Qed.

(** X2.  A push and its callback meet in the same record.  Let a push be
    answered with HTTP 200 and the checkout request id [c], which no
    earlier record carries as its transaction id.  Then the collection
    has grown by exactly the pushed record, pending under [c]; and every
    callback for [c] that is answered with HTTP 200 rewrites that record
    and no other: a success callback makes it ['paid'], a failed or
    cancelled one leaves it ['pending'] under [c]; tenant, unit, amount
    and receipt number stay as the push stored them. *)
Theorem stk_push_then_callback schema houses tenants provider Date_parse
    now db b db1 r stored c :
  stk_push schema houses tenants provider now db b = (db1, r) ->
  http_status r = 200%Z ->
  resp_payment r = Some stored ->
  transactionId stored = Some c ->
  findOne (txn_query c) db = None ->
  db1 = db ++ [stored]
  /\ status stored = pending
  /\ forall cb db2 r2,
       CheckoutRequestID cb = c ->
       stk_callback schema Date_parse db1 cb = (db2, r2) ->
       http_status r2 = 200%Z ->
       exists p,
         db2 = db ++ [p]
         /\ tenant p = tenant stored /\ house p = house stored
         /\ amount p = amount stored
         /\ receiptNumber p = receiptNumber stored
         /\ match ResultCode cb, CallbackMetadata cb with
            | Some 0%Z, Some _ => status p = paid
            | _, _ => status p = pending /\ transactionId p = Some c
            end.
Proof.
  intros H H200 Hp Hc Hnew.
  destruct (stk_push_sent _ _ _ _ _ _ _ _ _ H H200)
    as (stored' & c' & phone & hn & _ & _ & _ & -> & Hp' & Hc' & Hst & _ & _).
  rewrite Hp in Hp'. inversion Hp'; subst stored'.
  split; [reflexivity|]. split; [exact Hst|].
  intros cb db2 r2 Hcb Hcall H2.
  unfold stk_callback in Hcall. rewrite Hcb in Hcall.
  rewrite (find_index_app_new _ db stored Hnew (txn_query_self _ _ Hc)) in Hcall.
  rewrite nth_error_last in Hcall.
  destruct (ResultCode cb) as [[| |]|]; destruct (CallbackMetadata cb) as [items|];
    destruct_matches Hcall; inversion Hcall; subst; clear Hcall;
    simpl in H2; try discriminate;
    rewrite update_nth_last; eexists; (split; [reflexivity|]); simpl;
    repeat split; try reflexivity; try exact Hc.
Qed.

Lemma stk_push_then_callback_witness :
  exists p,
    after_callback = [p] /\ status p = paid /\ amount p = Some 1200.
Proof.
  destruct (stk_push_then_callback spec_schema sample_houses sample_tenants
              sample_provider no_date_parse march_1 [] push_body after_push
              (snd (stk_push spec_schema sample_houses sample_tenants sample_provider
                      march_1 [] push_body))
              (nth 0 after_push blank_payment) "ws_CO_01032024120000"
              eq_refl eq_refl eq_refl eq_refl eq_refl) as (_ & _ & Hcb).
  destruct (Hcb success_callback after_callback
              (snd (stk_callback spec_schema no_date_parse after_push success_callback))
              eq_refl eq_refl eq_refl) as (p & Hdb & _ & _ & Ha & _ & Hst).
  exists p. split; [exact Hdb|]. split; [exact Hst|]. rewrite Ha. reflexivity.
Defined.

(** ** What the sweep leaves alone *)

Lemma swept_refl p : swept p p.
Proof.
  unfold swept, same_but_status_and_fee. repeat split; auto.
Qed.

Lemma overdue_update_swept houses today pct grace p p' :
  sweep_selects p = true ->
  overdue_update houses today pct grace p = Some p' -> swept p p'.
Proof.
  unfold overdue_update. intros Hsel H.
  destruct (past_grace today grace p && negb (Status_eqb (status p) overdue));
    [|discriminate].
  inversion H; subst; clear H.
  unfold swept, same_but_status_and_fee. simpl.
  split; [repeat split|]. split; [right; split; [exact Hsel|reflexivity]|].
  split.
  - intros f Hf Hnz. rewrite Hf.
    destruct (match house p with Some i => House_findById houses i | None => None end);
      [|reflexivity].
    destruct (Qeq_bool f 0) eqn:E; [|reflexivity].
    apply Qeq_bool_iff in E. contradiction.
  - intros ->. reflexivity.
Qed.

Lemma sweep_swept schema houses today pct grace (coll : list Payment) :
  List.length (fst (fst (sweep schema houses today pct grace coll))) = List.length coll
  /\ forall i p,
       nth_error coll i = Some p ->
       exists p',
         nth_error (fst (fst (sweep schema houses today pct grace coll))) i = Some p'
         /\ swept p p'.
Proof.
  induction coll as [|q rest [IHlen IH]]; [split; [reflexivity|intros [|i] p H; discriminate H]|].
  simpl.
  destruct (sweep_selects q) eqn:Hsel.
  - destruct (overdue_update houses today pct grace q) as [q'|] eqn:Hstep.
    + destruct (validate schema q').
      * destruct (sweep schema houses today pct grace rest) as [[rest' upd] ok].
        simpl in *. split; [rewrite IHlen; reflexivity|].
        intros [|i] p Hi; simpl in *.
        -- inversion Hi; subst. exists q'. split; [reflexivity|].
           exact (overdue_update_swept _ _ _ _ _ _ Hsel Hstep).
        -- exact (IH i p Hi).
      * simpl. split; [reflexivity|].
        intros i p Hi. exists p. split; [exact Hi|apply swept_refl].
    + destruct (sweep schema houses today pct grace rest) as [[rest' upd] ok].
      simpl in *. split; [rewrite IHlen; reflexivity|].
      intros [|i] p Hi; simpl in *.
      * inversion Hi; subst. exists p. split; [reflexivity|apply swept_refl].
      * exact (IH i p Hi).
  - destruct (sweep schema houses today pct grace rest) as [[rest' upd] ok].
    simpl in *. split; [rewrite IHlen; reflexivity|].
    intros [|i] p Hi; simpl in *.
    + inversion Hi; subst. exists p. split; [reflexivity|apply swept_refl].
    + exact (IH i p Hi).
Qed.

(** X3.  The overdue sweep rewrites nothing but status and late fee: the
    collection keeps its length and its order, and each record keeps every
    other attribute (tenant, unit, amounts, deficit, dates, period,
    identifiers).  A record either stays as it is or was ['pending'] or
    ['partial'] and becomes ['overdue']; a late fee that is set and not 0
    is never changed, and a record without a late fee attribute gets
    none.  This holds whatever the body, and also when the sweep is cut
    short by a failing [save]. *)
Theorem sweep_frame schema houses today db b :
  List.length (fst (check_overdue schema houses today db b)) = List.length db
  /\ forall i p,
       nth_error db i = Some p ->
       exists p',
         nth_error (fst (check_overdue schema houses today db b)) i = Some p'
         /\ swept p p'.
Proof.
  unfold check_overdue.
  pose proof (sweep_swept schema houses today (or_default_5 (s_lateFeePercentage b))
                (grace_or_default (s_gracePeriodDays b)) db) as H.
  destruct (sweep schema houses today _ _ db) as [[db' upd] ok]. exact H.
Qed.

(** ** A failed callback *)

(** X4.  A callback that reports a failure sets the record found under
    its checkout id to ['pending'], whatever the status of that record
    was, and leaves its other attributes, the transaction id among them,
    as they are; it answers with HTTP 200 and the result code it was
    sent.  In particular a record that a success callback without a
    receipt item has made ['paid'] under the checkout id is ['pending']
    again after a failure callback for the same id. *)
Theorem failed_callback_resets schema Date_parse db cb i p db' r :
  find_index (txn_query (CheckoutRequestID cb)) db = Some i ->
  nth_error db i = Some p ->
  reports_failure cb ->
  stk_callback schema Date_parse db cb = (db', r) ->
  http_status r = 200%Z ->
  exists p',
    db' = update_nth i p' db
    /\ status p' = pending
    /\ transactionId p' = transactionId p
    /\ amount p' = amount p
    /\ tenant p' = tenant p /\ house p' = house p
    /\ receiptNumber p' = receiptNumber p
    /\ resp_ResultCode r = ResultCode cb.
Proof.
  intros Hi Hp Hf H H200. unfold stk_callback in H. rewrite Hi, Hp in H.
  unfold reports_failure in Hf.
  destruct (ResultCode cb) as [[| |]|]; destruct (CallbackMetadata cb) as [items|];
    try contradiction;
    match type of H with
    | (if ?c then _ else _) = _ => destruct c
    end; inversion H; subst; clear H; simpl in H200; try discriminate;
    eexists; repeat split; reflexivity.
Qed.

Lemma failed_callback_resets_witness :
  (exists p, after_bare_success = [p] /\ status p = paid)
  /\ exists p',
       fst (stk_callback spec_schema no_date_parse after_bare_success cancelled_callback)
       = [p']
       /\ status p' = pending
       /\ transactionId p' = Some "ws_CO_01032024120000"%string.
Proof.
  split; [eexists; split; reflexivity|].
  destruct (failed_callback_resets spec_schema no_date_parse after_bare_success
              cancelled_callback 0%nat (nth 0 after_bare_success blank_payment)
              (fst (stk_callback spec_schema no_date_parse after_bare_success
                      cancelled_callback))
              (snd (stk_callback spec_schema no_date_parse after_bare_success
                      cancelled_callback))
              eq_refl eq_refl I eq_refl eq_refl)
    as (p' & Hdb & Hst & Htx & _).
  exists p'. split; [exact Hdb|]. split; [exact Hst|]. rewrite Htx. reflexivity.
Defined.

(** ** The round trip of an amount through [POST /] and [PUT /:id] *)

(** X5.  A [PUT /:id] that carries the amount a record was created with
    by [POST /], the amount being present and not 0, changes nothing: the
    recalculation gives the paid amount, the deficit and the status that
    [POST /] stored, and the answer is the record itself. *)
Theorem put_after_post schema houses now db b db1 r p :
  post_payment schema houses now db b = (db1, r) ->
  resp_payment r = Some p ->
  truthy_amount (b_amount b) = true ->
  put_payment schema houses db1 (List.length db) (b_amount b)
  = (db1, {| http_status := 200; message := msg_document;
             resp_receiptNumber := receiptNumber p;
             resp_existingPayment := None;
             resp_payment := Some p;
             resp_ResultCode := None |}).
Proof.
  unfold post_payment, proposed_paid. intros H Hp Htr. rewrite Htr in H.
  destruct (b_amount b) as [|a|a| |n f] eqn:Hamt; simpl in Htr; try discriminate.
  all: destruct_matches H; inversion H; subst; clear H; simpl in Hp; try discriminate.
  all: inversion Hp; subst; clear Hp.
  all: match goal with
       | S : save _ _ _ = Some _ |- _ => apply save_Some in S; destruct S as [-> Hv]
       end.
  all: unfold put_payment; rewrite nth_error_last.
  all: unfold put_expected_amount, put_expected, house_of; simpl.
  all: repeat match goal with
              | E : House_findById _ _ = Some _ |- _ => rewrite E
              end.
  all: unfold ledger_deficit, Math_max0, num_sub in *; simpl in *.
  all: repeat match goal with
              | E : Some _ = Some _ |- _ => inversion E; subst; clear E
              end.
  all: match goal with
       | |- context [Qeq_bool ?e 0] => destruct (Qeq_bool e 0)
       end; simpl.
  all: unfold put_status, post_status, new_Payment in *; simpl in *.
  all: try match goal with
           | E : match ?o with Some i => House_findById _ i | None => None end = Some _
             |- _ => rewrite E
           end.
  all: rewrite Hv, update_nth_last; reflexivity.
Qed.

Lemma put_after_post_witness :
  put_payment spec_schema sample_houses [partial_march] 0 (AmtNum 800)
  = ([partial_march],
     {| http_status := 200; message := msg_document;
        resp_receiptNumber := receiptNumber partial_march;
        resp_existingPayment := None;
        resp_payment := Some partial_march;
        resp_ResultCode := None |}).
Proof.
  exact (put_after_post spec_schema sample_houses march_1 []
           (post_body "101" (AmtNum 800) "03") [partial_march]
           (snd (post_payment spec_schema sample_houses march_1 []
                   (post_body "101" (AmtNum 800) "03")))
           partial_march eq_refl eq_refl eq_refl).
Defined.

(** ** Due dates *)

Lemma channel_payment_due schema t h amt date st txn ref hn src receipt :
  plain_year date ->
  due_in_month_of date
    (channel_payment schema t h amt date (Js.month_string date) (Js.getFullYear date)
       st txn ref hn src receipt).
Proof.
  intro Hy. destruct (due_date_of_month date Hy) as (due & Hd & Hf).
  unfold due_in_month_of. simpl.
  repeat split; try reflexivity. exists due. split; [exact Hd|exact Hf].
Qed.

Lemma bank_payment_due schema db w t h amt date :
  plain_year date -> due_in_month_of date (bank_payment schema db w t h amt date).
Proof.
  intro Hy. destruct (due_date_of_month date Hy) as (due & Hd & Hf).
  unfold due_in_month_of. simpl.
  repeat split; try reflexivity. exists due. split; [exact Hd|exact Hf].
Qed.

Lemma bank_stored schema houses tenants now db w db' p logs :
  processEquityBankPayment schema houses tenants now db w = (db', Some p, logs) ->
  exists t h amt, p = bank_payment schema db w t h amt (webhook_date now w).
Proof.
  unfold processEquityBankPayment. intro H.
  destruct_matches H; inversion H; subst; clear H; do 3 eexists; reflexivity.
Qed.

(** X6.  Every record that pay-bill, the generic webhook, the mobile-money
    confirmation or the bank webhook creates is booked under the month
    and year of its payment date (the time of the request, the
    transaction time of the confirmation, the transaction date of the
    bank notification) and is due at midnight of the first day of that
    month, hence never after the payment date.  (Years 0 to 99, which
    [new Date(year, month, 1)] reads as 1900 to 1999, are left out.) *)
Theorem due_on_first_of_month schema houses tenants cfg :
  (forall now db b db' r p,
      paybill schema houses tenants cfg now db b = (db', r) ->
      resp_payment r = Some p -> plain_year now -> due_in_month_of now p)
  /\ (forall now db b db' r p,
         receive schema houses tenants now db b = (db', r) ->
         resp_payment r = Some p -> plain_year now -> due_in_month_of now p)
  /\ (forall db b db' ack logs,
         mpesa_confirmation schema houses tenants db b = (db', ack, logs) ->
         db' = db
         \/ exists transDate p,
              TransTime b = Some transDate /\ db' = db ++ [p]
              /\ (plain_year transDate -> due_in_month_of transDate p))
  /\ (forall now db w db' p logs,
         processEquityBankPayment schema houses tenants now db w = (db', Some p, logs) ->
         plain_year (webhook_date now w) -> due_in_month_of (webhook_date now w) p).
Proof.
  split; [|split; [|split]].
  - intros now db b db' r p H Hp Hy.
    destruct (paybill_inv _ _ _ _ _ _ _ _ _ _ H Hp)
      as (acc & h & t & amt & _ & _ & _ & _ & -> & _).
    apply channel_payment_due. exact Hy.
  - intros now db b db' r p H Hp Hy.
    destruct (receive_inv _ _ _ _ _ _ _ _ _ H Hp)
      as (hn & h & t & amt & _ & _ & _ & _ & -> & _).
    apply channel_payment_due. exact Hy.
  - intros db b db' ack logs H.
    destruct (mpesa_confirmation_inv _ _ _ _ _ _ _ _ H)
      as [_ [->|(bill & txn & h & t & amt & d & _ & _ & Hd & _ & _ & _ & _ & ->)]];
      [left; reflexivity|].
    right. do 2 eexists. split; [exact Hd|]. split; [reflexivity|].
    apply channel_payment_due.
  - intros now db w db' p logs H Hy.
    destruct (bank_stored _ _ _ _ _ _ _ _ _ H) as (t & h & amt & ->).
    apply bank_payment_due. exact Hy.
Qed.

Lemma due_on_first_of_month_witness :
  exists due,
    dueDate paid_march = Some due
    /\ Js.getFullYear due = 2024%Z /\ Js.getMonth due = 2%Z
    /\ JsDate.getDate due = 1%Z /\ (due <= march_1)%Z.
Proof.
  destruct (due_on_first_of_month spec_schema sample_houses sample_tenants None)
    as (Hpay & _).
  destruct (Hpay march_1 [] paybill_body (fst after_paybill) (snd after_paybill)
              paid_march eq_refl eq_refl (or_intror eq_refl))
    as (_ & _ & _ & due & Hd & Hy & Hm & Hda & _ & Hle).
  exists due. split; [exact Hd|]. split; [exact Hy|]. split; [exact Hm|].
  split; [exact Hda|exact Hle].
Defined.

(** ** The validation hook and the unit search *)

Lemma populate_tenant_reference tenants h t :
  populate_tenant tenants h = Some t -> is_some (h_tenant h) = true.
Proof.
  unfold populate_tenant. destruct (h_tenant h); [reflexivity|discriminate].
Qed.

Lemma mpesa_validation_accepts houses bill other h :
  Js.truthy_string bill = true ->
  House_findByNumber houses (Js.trim bill) = Some h ->
  is_some (h_tenant h) = true ->
  mpesa_validation houses
    {| v_BillRefNumber := Some bill; v_AccountReference := other |} = 0%Z.
Proof.
  intros E Hh Ht. unfold mpesa_validation, Js.or_string. simpl.
  rewrite E, E, Hh, Ht. reflexivity.
Qed.

Lemma mpesa_recorded schema houses tenants db b :
  fst (fst (mpesa_confirmation schema houses tenants db b)) = db
  \/ exists bill h t,
       BillRefNumber b = Some bill /\ Js.truthy_string bill = true
       /\ House_findByNumber houses (Js.trim bill) = Some h
       /\ populate_tenant tenants h = Some t.
Proof.
  unfold mpesa_confirmation.
  repeat match goal with
         | |- context [match ?x with _ => _ end] => destruct x eqn:?
         end; simpl; auto.
  all: match goal with
       | E : _ && _ && _ = true |- _ =>
           apply andb_true_iff in E; destruct E as [E _];
           apply andb_true_iff in E; destruct E as [E _]
       end.
  all: right; do 3 eexists; repeat split; eauto.
Qed.

(** X7.  The validation hook and the unit search never turn away a unit
    that a channel records a payment for.  If [/mpesa-validation] answers
    a bill reference with [ResultCode] 1, then [/mpesa-confirmation]
    records nothing for a notification with that bill reference, whatever
    else it carries; and when [/paybill] or [/receive] records a payment,
    the search for the trimmed account reference finds the unit of the
    record and reports that it can receive payments. *)
Theorem rejected_reference_records_nothing schema houses tenants cfg :
  (forall db b other,
      mpesa_validation houses
        {| v_BillRefNumber := BillRefNumber b; v_AccountReference := other |} = 1%Z ->
      fst (fst (mpesa_confirmation schema houses tenants db b)) = db)
  /\ (forall now db b db' r p,
         paybill schema houses tenants cfg now db b = (db', r) ->
         resp_payment r = Some p ->
         exists acc h,
           pb_accountNumber b = Some acc
           /\ search_house houses tenants (Js.trim acc) = Some (h, true)
           /\ house p = Some (h_id h))
  /\ (forall now db b db' r p,
         receive schema houses tenants now db b = (db', r) ->
         resp_payment r = Some p ->
         exists hn h,
           rc_houseNumber b = Some hn
           /\ search_house houses tenants (Js.trim hn) = Some (h, true)
           /\ house p = Some (h_id h)).
Proof.
  split; [|split].
  - intros db b other Hrej.
    destruct (mpesa_recorded schema houses tenants db b)
      as [E|(bill & h & t & Hb & Htr & Hh & Ht)]; [exact E|].
    exfalso. rewrite Hb in Hrej.
    rewrite (mpesa_validation_accepts houses bill other h Htr Hh
               (populate_tenant_reference _ _ _ Ht)) in Hrej.
    discriminate.
  - intros now db b db' r p H Hp.
    destruct (paybill_inv _ _ _ _ _ _ _ _ _ _ H Hp)
      as (acc & h & t & amt & Hacc & Hh & Ht & _ & -> & _).
    exists acc, h. split; [exact Hacc|]. split; [|reflexivity].
    unfold search_house. rewrite Hh, Ht. reflexivity.
  - intros now db b db' r p H Hp.
    destruct (receive_inv _ _ _ _ _ _ _ _ _ H Hp)
      as (hn & h & t & amt & Hhn & Hh & Ht & _ & -> & _).
    exists hn, h. split; [exact Hhn|]. split; [|reflexivity].
    unfold search_house. rewrite Hh, Ht. reflexivity.
Qed.

Lemma rejected_reference_records_nothing_witness :
  mpesa_validation sample_houses
    {| v_BillRefNumber := Some "999"%string; v_AccountReference := None |} = 1%Z
  /\ fst (fst (mpesa_confirmation spec_schema sample_houses sample_tenants []
                 stray_confirmation)) = [].
Proof.
  split; [reflexivity|].
  destruct (rejected_reference_records_nothing spec_schema sample_houses sample_tenants
              None) as (H & _).
  exact (H [] stray_confirmation None eq_refl).
Defined.

Section Analytics.

Local Open Scope Z_scope.

(** ** The analytics *)

Lemma count_down_length (n : nat) : List.length (count_down n) = n.
Proof. induction n as [|n IH]; simpl; [reflexivity|]. rewrite IH. reflexivity. Qed.

Lemma count_down_nth (n k : nat) (i : Z) :
  nth_error (count_down n) k = Some i -> i = Z.of_nat n - 1 - Z.of_nat k /\ (k < n)%nat.
Proof.
  revert k. induction n as [|n IH]; intros k H; [destruct k; discriminate|].
  destruct k as [|k]; simpl in H.
  - inversion H. lia.
  - destruct (IH k H). lia.
Qed.

(** The month [i] months before that of [now]. *)
Lemma month_back_spec (now i : Z) :
  plain_year now ->
  exists date,
    month_back now i = Some date
    /\ month_number (Js.getFullYear date) (Js.month_string date)
       = Some (Js.getFullYear now * 12 + Js.getMonth now - i).
Proof.
  intro Hy. unfold month_back.
  destruct (Date_ymd_first (Js.getFullYear now) (Js.getMonth now - i) Hy)
    as (date & Hd & Hyr & Hmo & _).
  exists date. split; [exact Hd|].
  unfold month_number. rewrite parseInt_month_string. simpl.
  rewrite Hyr, Hmo. f_equal.
  pose proof (Z.div_mod (Js.getMonth now - i) 12 ltac:(lia)). lia.
Qed.

Lemma nth_error_map_inv {A B} (f : A -> B) (l : list A) (k : nat) (y : B) :
  nth_error (map f l) k = Some y -> exists x, nth_error l k = Some x /\ y = f x.
Proof.
  revert k. induction l as [|a l IH]; intros [|k] H; simpl in H; try discriminate.
  - inversion H. exists a. split; reflexivity.
  - exact (IH k H).
Qed.

(** X8.  The two analytics report a window of consecutive months that ends
    with the current month: the number of entries is the [months]
    parameter (6 when absent, none when it is no positive number), and
    entry [k] of [n] is the month [n - 1 - k] months before the current
    one, December of the year before following on from January. *)
Theorem analytics_window now months db :
  plain_year now ->
  List.length (revenue_trend now months db) = List.length (loop_indices months)
  /\ List.length (payment_status now months db) = List.length (loop_indices months)
  /\ List.length (loop_indices months)
     = match months_param months with Some n => Z.to_nat n | None => 0%nat end
  /\ (forall k e,
         nth_error (revenue_trend now months db) k = Some e ->
         exists entry,
           e = Some entry
           /\ month_number (te_year entry) (te_month entry)
              = Some (Js.getFullYear now * 12 + Js.getMonth now
                      - (Z.of_nat (List.length (loop_indices months)) - 1 - Z.of_nat k)))
  /\ (forall k e,
         nth_error (payment_status now months db) k = Some e ->
         exists entry,
           e = Some entry
           /\ month_number (se_year entry) (se_month entry)
              = Some (Js.getFullYear now * 12 + Js.getMonth now
                      - (Z.of_nat (List.length (loop_indices months)) - 1 - Z.of_nat k))).
Proof.
  intro Hy. unfold revenue_trend, payment_status.
  rewrite !length_map.
  split; [reflexivity|]. split; [reflexivity|]. split.
  { unfold loop_indices. destruct (months_param months); [apply count_down_length|reflexivity]. }
  assert (Hidx : forall k i, nth_error (loop_indices months) k = Some i ->
                             i = Z.of_nat (List.length (loop_indices months)) - 1 - Z.of_nat k).
  { unfold loop_indices. destruct (months_param months) as [n|];
      [|intros [|k] i H; discriminate H].
    intros k i H. rewrite count_down_length. apply (count_down_nth _ _ _ H). }
  split.
  - intros k e H. destruct (nth_error_map_inv _ _ _ _ H) as (i & Hi & ->).
    rewrite <- (Hidx k i Hi).
    destruct (month_back_spec now i Hy) as (date & Hd & Hn).
    unfold revenue_entry. rewrite Hd. eexists. split; [reflexivity|exact Hn].
  - intros k e H. destruct (nth_error_map_inv _ _ _ _ H) as (i & Hi & ->).
    rewrite <- (Hidx k i Hi).
    destruct (month_back_spec now i Hy) as (date & Hd & Hn).
    unfold status_entry. rewrite Hd. eexists. split; [reflexivity|exact Hn].
Qed.

Lemma analytics_window_witness :
  exists entry,
    nth_error march_trend 0 = Some (Some entry)
    /\ month_number (te_year entry) (te_month entry) = Some (2024 * 12 + 0).
Proof.
  destruct (analytics_window march_11 (Some "3"%string) [] (or_intror eq_refl))
    as (_ & _ & _ & Hrev & _).
  destruct (Hrev 0%nat (nth 0 march_trend None) eq_refl) as (entry & He & Hn).
  exists entry. split; [rewrite <- He; reflexivity|].
  rewrite Hn. reflexivity.
Defined.

Lemma filter_app_one {A} (q : A -> bool) (l : list A) (x : A) :
  filter q (l ++ [x]) = if q x then filter q l ++ [x] else filter q l.
Proof.
  rewrite filter_app. simpl. destruct (q x); [reflexivity|apply app_nil_r].
Qed.

Lemma sum_of_app_one value l p :
  sum_of value (l ++ [p]) = (sum_of value l + value p)%Q.
Proof. unfold sum_of. rewrite fold_left_app. reflexivity. Qed.

Lemma has_status_other s p : status p <> s -> has_status s p = false.
Proof.
  unfold has_status. intro H. destruct (status p), s; try reflexivity; congruence.
Qed.

Lemma has_status_same p : has_status (status p) p = true.
Proof. unfold has_status. destruct (status p); reflexivity. Qed.

(** X9.  What a new record does to the analytics.  A record that is not
    ['paid'] leaves the revenue trend as it is, and a ['partial'] record
    leaves the payment-status report as it is as well: money received as
    a part payment shows in neither.  A ['paid'] record adds
    [paidAmount || amount || 0] to the revenue of the entry of its own
    month and year, and to no other entry. *)
Theorem analytics_of_a_new_record now months db p :
  (status p <> paid ->
   revenue_trend now months (db ++ [p]) = revenue_trend now months db)
  /\ (status p = partial ->
      payment_status now months (db ++ [p]) = payment_status now months db)
  /\ (forall y m,
         status p = paid -> year p = Some y -> month p = Some m ->
         revenue_trend now months (db ++ [p])
         = map (option_map (credited y m (paid_value p))) (revenue_trend now months db)).
Proof.
  split; [|split].
  - intro Hs. unfold revenue_trend. apply map_ext. intro i.
    unfold revenue_entry. destruct (month_back now i) as [date|]; [|reflexivity].
    rewrite filter_app_one, (has_status_other paid p Hs), andb_false_r. reflexivity.
  - intro Hs. unfold payment_status. apply map_ext. intro i.
    unfold status_entry. destruct (month_back now i) as [date|]; [|reflexivity].
    rewrite filter_app_one.
    destruct (month_query (Js.getFullYear date) (Js.month_string date) p); [|reflexivity].
    rewrite !filter_app_one.
    rewrite (has_status_other paid p), (has_status_other pending p),
      (has_status_other overdue p) by (rewrite Hs; discriminate).
    reflexivity.
  - intros y m Hs Hy Hm. unfold revenue_trend. rewrite map_map. apply map_ext. intro i.
    unfold revenue_entry. destruct (month_back now i) as [date|]; [|reflexivity].
    rewrite filter_app_one. simpl. unfold credited. simpl.
    unfold month_query. rewrite Hy, Hm. simpl.
    pose proof (has_status_same p) as Hp. rewrite Hs in Hp. rewrite Hp, andb_true_r.
    rewrite (Z.eqb_sym y), (String.eqb_sym m).
    destruct ((Js.getFullYear date =? y) && (Js.month_string date =? m)%string);
      [|reflexivity].
    rewrite sum_of_app_one. reflexivity.
Qed.

Lemma analytics_of_a_new_record_witness :
  payment_status march_11 None [partial_march] = payment_status march_11 None []
  /\ revenue_trend march_11 None [partial_march] = revenue_trend march_11 None [].
Proof.
  destruct (analytics_of_a_new_record march_11 None [] partial_march)
    as (Hrev & Hst & _).
  split; [apply Hst; reflexivity|apply Hrev; discriminate].
Defined.

End Analytics.

Section PhoneNumber.

Local Open Scope string_scope.

(** ** The phone number of a push *)

Lemma remove_spaces_idem (s : string) :
  Mpesa.remove_spaces (Mpesa.remove_spaces s) = Mpesa.remove_spaces s.
Proof.
  induction s as [|c r IH]; simpl; [reflexivity|].
  destruct (Js.is_space c) eqn:E; [exact IH|].
  simpl. rewrite E, IH. reflexivity.
Qed.

Lemma remove_spaces_shorter (r : string) :
  (String.length (Mpesa.remove_spaces r) <= String.length r)%nat.
Proof.
  induction r as [|d r IH]; simpl; [lia|].
  destruct (Js.is_space d); simpl; lia.
Qed.

Lemma remove_spaces_tail (c : ascii) (r : string) :
  Mpesa.remove_spaces (String c r) = String c r -> Mpesa.remove_spaces r = r.
Proof.
  simpl. destruct (Js.is_space c).
  - intro H. exfalso.
    pose proof (remove_spaces_shorter r) as Hlen.
    rewrite H in Hlen. simpl in Hlen. lia.
  - intro H. inversion H as [Hr]. rewrite Hr. exact Hr.
Qed.

Lemma strip_plus_cases (s : string) :
  Mpesa.strip_plus s = s \/ s = String "+" (Mpesa.strip_plus s).
Proof.
  destruct s as [|c r]; [left; reflexivity|].
  destruct (ascii_dec c "+") as [->|Hne]; [right; reflexivity|].
  left. unfold Mpesa.strip_plus.
  destruct c as [[] [] [] [] [] [] [] []]; try reflexivity. congruence.
Qed.

Lemma remove_spaces_strip_plus (s : string) :
  Mpesa.remove_spaces s = s ->
  Mpesa.remove_spaces (Mpesa.strip_plus s) = Mpesa.strip_plus s.
Proof.
  intro H. destruct (strip_plus_cases s) as [->|E]; [exact H|].
  rewrite E in H. exact (remove_spaces_tail _ _ H).
Qed.

Lemma prefix_app (p f : string) :
  String.prefix p f = true -> exists rest, f = p ++ rest.
Proof.
  revert f. induction p as [|a p IH]; intros f H.
  - exists f. reflexivity.
  - destruct f as [|b f]; simpl in H; [discriminate|].
    destruct (ascii_dec a b) as [<-|]; [|discriminate].
    destruct (IH f H) as (rest & ->). exists rest. reflexivity.
Qed.

Lemma remove_spaces_drop (p rest : string) :
  Mpesa.remove_spaces (p ++ rest) = p ++ rest -> Mpesa.remove_spaces rest = rest.
Proof.
  induction p as [|a p IH]; simpl; [auto|].
  intro H. apply IH. exact (remove_spaces_tail a (p ++ rest) H).
Qed.

Lemma formatPhone_cases (s : string) :
  exists rest,
    Mpesa.formatPhone s = "254" ++ rest /\ Mpesa.remove_spaces rest = rest.
Proof.
  unfold Mpesa.formatPhone.
  pose proof (remove_spaces_strip_plus _ (remove_spaces_idem s)) as Hclean.
  set (f := Mpesa.strip_plus (Mpesa.remove_spaces s)) in *.
  destruct (String.prefix "254" f) eqn:E254.
  - destruct (prefix_app _ _ E254) as (rest & Hf).
    exists rest. split; [exact Hf|].
    rewrite Hf in Hclean. exact (remove_spaces_drop "254" rest Hclean).
  - destruct (String.prefix "0" f) eqn:E0.
    + destruct (prefix_app _ _ E0) as (rest & Hf).
      exists rest. split; [rewrite Hf; reflexivity|].
      rewrite Hf in Hclean. exact (remove_spaces_drop "0" rest Hclean).
    + exists f. split; [reflexivity|exact Hclean].
Qed.

Lemma prefix_of_app (p rest : string) : String.prefix p (p ++ rest) = true.
Proof.
  induction p as [|a p IH]; simpl; [destruct rest; reflexivity|].
  destruct (ascii_dec a a) as [_|Hne]; [exact IH|congruence].
Qed.

Lemma formatPhone_254 (rest : string) :
  Mpesa.remove_spaces rest = rest -> Mpesa.formatPhone ("254" ++ rest) = "254" ++ rest.
Proof.
  intro H. unfold Mpesa.formatPhone.
  replace (Mpesa.strip_plus (Mpesa.remove_spaces ("254" ++ rest))) with ("254" ++ rest)
    by (simpl; rewrite H; reflexivity).
  rewrite prefix_of_app. reflexivity.
Qed.

Lemma formatPhone_plus (s : string) :
  Mpesa.formatPhone ("+254" ++ s) = "254" ++ Mpesa.remove_spaces s.
Proof.
  unfold Mpesa.formatPhone.
  replace (Mpesa.strip_plus (Mpesa.remove_spaces ("+254" ++ s)))
    with ("254" ++ Mpesa.remove_spaces s) by reflexivity.
  rewrite prefix_of_app. reflexivity.
Qed.

Lemma formatPhone_bare (s : string) :
  Mpesa.formatPhone ("254" ++ s) = "254" ++ Mpesa.remove_spaces s.
Proof.
  unfold Mpesa.formatPhone.
  replace (Mpesa.strip_plus (Mpesa.remove_spaces ("254" ++ s)))
    with ("254" ++ Mpesa.remove_spaces s) by reflexivity.
  rewrite prefix_of_app. reflexivity.
Qed.

Lemma formatPhone_local (s : string) :
  Mpesa.formatPhone ("0" ++ s) = "254" ++ Mpesa.remove_spaces s.
Proof.
  unfold Mpesa.formatPhone.
  replace (Mpesa.strip_plus (Mpesa.remove_spaces ("0" ++ s)))
    with ("0" ++ Mpesa.remove_spaces s) by reflexivity.
  replace (String.prefix "254" ("0" ++ Mpesa.remove_spaces s)) with false by reflexivity.
  rewrite prefix_of_app. reflexivity.
Qed.

(** X10.  The phone number a push is sent to is normalised: it starts
    with the country code 254 and holds no white space, normalising it
    again changes nothing, and the local form (leading 0), the
    international form (leading +254) and the bare form (leading 254) of
    a number give the same result. *)
Theorem phone_number_normalised (s : string) :
  String.prefix "254" (Mpesa.formatPhone s) = true
  /\ Mpesa.remove_spaces (Mpesa.formatPhone s) = Mpesa.formatPhone s
  /\ Mpesa.formatPhone (Mpesa.formatPhone s) = Mpesa.formatPhone s
  /\ Mpesa.formatPhone ("0" ++ s) = "254" ++ Mpesa.remove_spaces s
  /\ Mpesa.formatPhone ("+254" ++ s) = "254" ++ Mpesa.remove_spaces s
  /\ Mpesa.formatPhone ("254" ++ s) = "254" ++ Mpesa.remove_spaces s.
Proof.
  destruct (formatPhone_cases s) as (rest & Hf & Hclean).
  rewrite Hf.
  split; [apply prefix_of_app|].
  split; [simpl; rewrite Hclean; reflexivity|].
  split; [apply formatPhone_254; exact Hclean|].
  split; [apply formatPhone_local|]. split; [apply formatPhone_plus|apply formatPhone_bare].
Qed.

End PhoneNumber.

(** ** A push that the provider does not take *)

Lemma stk_push_provider_fails schema houses tenants good bad now db b db1 r stored
    phone hn :
  stk_push schema houses tenants good now db b = (db1, r) ->
  http_status r = 200%Z ->
  resp_payment r = Some stored ->
  sp_phoneNumber b = Some phone -> sp_houseNumber b = Some hn ->
  (forall c, bad phone (sp_amount b) hn <> PushSent c) ->
  exists p c,
    stored = with_transactionId p c
    /\ status p = pending /\ transactionId p = None
    /\ stk_push schema houses tenants bad now db b
       = (db ++ [p],
          reply (match bad phone (sp_amount b) hn with
                 | PushConfigError => 400
                 | _ => 500
                 end) msg_provider_error).
Proof.
  unfold stk_push. intros H H200 Hp Hph Hhn Hbad.
  rewrite Hph, Hhn in *.
  destruct_matches H; inversion H; subst; clear H; simpl in H200; try discriminate.
  all: simpl in Hp; inversion Hp; subst; clear Hp.
  all: match goal with
       | S : save _ _ _ = Some _ |- _ => apply save_Some in S; destruct S as [-> Hv]
       end.
  all: do 2 eexists; split; [reflexivity|]; split; [reflexivity|];
    split; [reflexivity|].
  all: destruct (bad _ _ _) as [c| |] eqn:Eb; try reflexivity.
  all: exfalso; exact (Hbad c eq_refl).
Qed.

(** X11.  A push that the provider does not take leaves a record behind.
    The handler saves the pending record before it calls the provider;
    when the call throws, for a request that would otherwise have been
    answered with HTTP 200, the answer is HTTP 400 (the message names the
    configuration) or 500, and the collection has grown by that record,
    ['pending'] and without a transaction id. *)
Theorem failed_push_leaves_record schema houses tenants good bad now db b db1 r stored
    phone hn :
  stk_push schema houses tenants good now db b = (db1, r) ->
  http_status r = 200%Z ->
  resp_payment r = Some stored ->
  sp_phoneNumber b = Some phone -> sp_houseNumber b = Some hn ->
  bad phone (sp_amount b) hn = PushConfigError
  \/ bad phone (sp_amount b) hn = PushFailed ->
  exists p,
    fst (stk_push schema houses tenants bad now db b) = db ++ [p]
    /\ is_success (snd (stk_push schema houses tenants bad now db b)) = false
    /\ status p = pending /\ transactionId p = None
    /\ amount p = amount stored /\ receiptNumber p = receiptNumber stored.
Proof.
  intros H H200 Hp Hph Hhn Hbad.
  destruct (stk_push_provider_fails schema houses tenants good bad now db b db1 r stored
              phone hn H H200 Hp Hph Hhn) as (p & c & Hs & Hst & Htx & Hrun).
  - intros c. destruct Hbad as [-> | ->]; discriminate.
  - exists p. rewrite Hrun. simpl.
    split; [reflexivity|]. split; [destruct Hbad as [-> | ->]; reflexivity|].
    split; [exact Hst|]. split; [exact Htx|]. rewrite Hs. split; reflexivity.
Qed.

Lemma failed_push_leaves_record_witness :
  exists p,
    fst (stk_push spec_schema sample_houses sample_tenants
           (fun _ _ _ => PushFailed) march_1 [] push_body) = [p]
    /\ status p = pending /\ transactionId p = None.
Proof.
  destruct (failed_push_leaves_record spec_schema sample_houses sample_tenants
              sample_provider (fun _ _ _ => PushFailed) march_1 [] push_body after_push
              (snd (stk_push spec_schema sample_houses sample_tenants sample_provider
                      march_1 [] push_body))
              (nth 0 after_push blank_payment)
              "254712345678"%string "101"%string
              eq_refl eq_refl eq_refl eq_refl eq_refl (or_intror eq_refl))
    as (p & Hdb & _ & Hst & Htx & _).
  exists p. split; [exact Hdb|]. split; [exact Hst|exact Htx].
Defined.

(** ** The configuration of the service *)

Lemma validateConfig_missing env :
  Mpesa.missing env <> [] -> exists e, Mpesa.validateConfig env = Some e
                                      /\ Mpesa.ex_response e = None.
Proof.
  unfold Mpesa.validateConfig. intro H.
  destruct (Mpesa.missing env); [congruence|]. eexists. split; reflexivity.
Qed.

Lemma push_error_plain e :
  Mpesa.ex_response e = None ->
  Mpesa.push_error e = Mpesa.new_Error "Failed to initiate M-Pesa payment".
Proof. unfold Mpesa.push_error. intros ->. reflexivity. Qed.

(** X12.  An incomplete configuration is answered as a server error.
    When one of the five settings is unset or blank, [initiateSTKPush]
    makes no request (its outcome does not depend on what the provider
    would answer) and throws "Failed to initiate M-Pesa payment", the
    message of [validateConfig] being lost in its [catch]; the handler,
    which looks for "Missing M-Pesa configuration" in the message, then
    answers with HTTP 500 and not 400, and the pending record it saved
    before the call stays in the collection. *)
Theorem missing_configuration_is_a_server_error base64 timestamp env :
  Mpesa.missing env <> [] ->
  (forall st now received stamped oauth provider phone amount account desc,
      Mpesa.initiateSTKPush base64 timestamp env st now received stamped oauth provider
        phone amount account desc
      = (st, inr (Mpesa.new_Error "Failed to initiate M-Pesa payment")))
  /\ (forall st now received stamped oauth provider phone amount account,
         Mpesa.handler_provider base64 timestamp env st now received stamped oauth provider
           phone amount account = PushFailed)
  /\ (forall schema houses tenants good now db b db1 r stored st t0 t1 t2 oauth provider,
         stk_push schema houses tenants good now db b = (db1, r) ->
         http_status r = 200%Z ->
         resp_payment r = Some stored ->
         exists p,
           stk_push schema houses tenants
             (Mpesa.handler_provider base64 timestamp env st t0 t1 t2 oauth provider)
             now db b
           = (db ++ [p], reply 500 msg_provider_error)
           /\ status p = pending /\ transactionId p = None).
Proof.
  intro Hmiss.
  destruct (validateConfig_missing env Hmiss) as (e & He & Hr).
  assert (Hrun : forall st now received stamped oauth provider phone amount account desc,
             Mpesa.initiateSTKPush base64 timestamp env st now received stamped oauth provider
               phone amount account desc
             = (st, inr (Mpesa.new_Error "Failed to initiate M-Pesa payment"))).
  { intros. unfold Mpesa.initiateSTKPush. rewrite He, (push_error_plain e Hr).
    reflexivity. }
  assert (Hprov : forall st now received stamped oauth provider phone amount account,
             Mpesa.handler_provider base64 timestamp env st now received stamped oauth provider
               phone amount account = PushFailed).
  { intros. unfold Mpesa.handler_provider. rewrite Hrun. reflexivity. }
  split; [exact Hrun|]. split; [exact Hprov|].
  intros schema houses tenants good now db b db1 r stored st t0 t1 t2 oauth provider
         H H200 Hp.
  destruct (stk_push_sent _ _ _ _ _ _ _ _ _ H H200)
    as (s' & c' & phone & hn & Hph & Hhn & _).
  destruct (stk_push_provider_fails schema houses tenants good
              (Mpesa.handler_provider base64 timestamp env st t0 t1 t2 oauth provider)
              now db b db1 r stored phone hn H H200 Hp Hph Hhn)
    as (p & c & _ & Hst & Htx & Hrun').
  - intro c. rewrite Hprov. discriminate.
  - exists p. rewrite Hrun', Hprov. split; [reflexivity|]. split; assumption.
Qed.

Lemma missing_configuration_is_a_server_error_witness :
  Mpesa.missing env_without_passkey = ["MPESA_PASSKEY"%string]
  /\ exists p,
       stk_push spec_schema sample_houses sample_tenants
         (Mpesa.handler_provider plain_base64 no_timestamp env_without_passkey no_token
            march_1 march_1 march_1 (Mpesa.OAuthAnswer (Some "token"%string)) accepting_provider)
         march_1 [] push_body
       = ([p], reply 500 msg_provider_error)
       /\ status p = pending.
Proof.
  split; [reflexivity|].
  destruct (missing_configuration_is_a_server_error plain_base64 no_timestamp
              env_without_passkey ltac:(discriminate)) as (_ & _ & H).
  destruct (H spec_schema sample_houses sample_tenants sample_provider march_1 []
              push_body after_push
              (snd (stk_push spec_schema sample_houses sample_tenants sample_provider
                      march_1 [] push_body))
              (nth 0 after_push blank_payment) no_token march_1 march_1 march_1
              (Mpesa.OAuthAnswer (Some "token"%string)) accepting_provider
              eq_refl eq_refl eq_refl) as (p & Hrun & Hst & _).
  exists p. split; [exact Hrun|exact Hst].
Defined.

(** ** The access token *)

(** X13.  The access token is fetched once per validity period.  After a
    call of [getAccessToken] has fetched a token, answered at time
    [received], every call before [received] + 3500 seconds returns that
    token without a request and leaves the state as it is; from that
    moment on a call makes the request again.  (The configuration is
    checked on every call.) *)
Theorem access_token_is_cached env st now received reply st1 token :
  Mpesa.getAccessToken env st now received reply = (st1, inl token, true) ->
  (received + 3500 * 1000 <> 0)%Z ->
  (forall later received' reply',
      (later < received + 3500 * 1000)%Z ->
      Mpesa.getAccessToken env st1 later received' reply' = (st1, inl token, false))
  /\ (forall later received' reply',
         (received + 3500 * 1000 <= later)%Z ->
         snd (Mpesa.getAccessToken env st1 later received' reply') = true).
Proof.
  unfold Mpesa.getAccessToken. intros H Hnz.
  destruct (Mpesa.validateConfig env) as [e|]; [discriminate|].
  destruct (Mpesa.cached_token st now) as [tk|]; [discriminate|].
  destruct (negb (Js.truthy_opt_string (Mpesa.MPESA_CONSUMER_KEY env))
            || negb (Js.truthy_opt_string (Mpesa.MPESA_CONSUMER_SECRET env)));
    [discriminate|].
  destruct reply as [[tk|]|e msg|msg]; try discriminate.
  destruct (Js.truthy_string tk) eqn:Htk; [|discriminate].
  inversion H; subst; clear H.
  change (3500 * 1000)%Z with 3500000%Z in *.
  split.
  - intros later received' reply' Hlt.
    unfold Mpesa.cached_token. cbn [Mpesa.accessToken Mpesa.tokenExpiry]. rewrite Htk.
    apply Z.eqb_neq in Hnz. rewrite Hnz.
    apply Z.ltb_lt in Hlt. rewrite Hlt. reflexivity.
  - intros later received' reply' Hle.
    unfold Mpesa.cached_token. cbn [Mpesa.accessToken Mpesa.tokenExpiry]. rewrite Htk.
    apply Z.ltb_ge in Hle. rewrite Hle, andb_false_r.
    destruct reply' as [[tk'|]|e msg|msg]; try reflexivity.
    destruct (Js.truthy_string tk'); reflexivity.
Qed.

Lemma access_token_is_cached_witness :
  Mpesa.getAccessToken complete_env
    {| Mpesa.accessToken := Some "token"%string;
       Mpesa.tokenExpiry := Some (march_1 + 3500 * 1000)%Z |}
    (march_1 + 60000)%Z (march_1 + 61000)%Z (Mpesa.OAuthFailed "timeout")
  = ({| Mpesa.accessToken := Some "token"%string;
        Mpesa.tokenExpiry := Some (march_1 + 3500 * 1000)%Z |},
     inl "token"%string, false).
Proof.
  destruct (access_token_is_cached complete_env no_token march_1 march_1
              (Mpesa.OAuthAnswer (Some "token"%string))
              {| Mpesa.accessToken := Some "token"%string;
                 Mpesa.tokenExpiry := Some (march_1 + 3500 * 1000)%Z |}
              "token"%string eq_refl ltac:(discriminate)) as (H & _).
  apply H. reflexivity.
Defined.

(** ** Receipt numbers *)

Lemma serial_of_zero s : serial_of (String "0" s) = serial_of s.
Proof.
  unfold serial_of. simpl. destruct (NilEmpty.uint_of_string s); reflexivity.
Qed.

Lemma serial_of_padding k s : serial_of (Js.repeat_char "0" k ++ s) = serial_of s.
Proof.
  induction k as [|k IH]; [reflexivity|].
  simpl. rewrite serial_of_zero. exact IH.
Qed.

Lemma serial_of_String_of_Z p :
  serial_of (Js.String_of_Z (Z.pos p)) = Some (N.pos p).
Proof.
  unfold serial_of, Js.String_of_Z. simpl.
  pose proof (DecimalPos.Unsigned.to_uint_nonnil p) as Hn.
  unfold NilZero.string_of_uint.
  destruct (Pos.to_uint p) eqn:E; try congruence.
  all: rewrite <- E, NilEmpty.usu; simpl; rewrite DecimalPos.Unsigned.of_to;
    reflexivity.
Qed.

Lemma serial_of_padded n :
  serial_of (Js.padStart 6 "0" (Js.String_of_Z (Z.of_nat n + 1)))
  = Some (N.pos (Pos.of_succ_nat n)).
Proof.
  unfold Js.padStart. rewrite serial_of_padding.
  replace (Z.of_nat n + 1)%Z with (Z.pos (Pos.of_succ_nat n)) by lia.
  apply serial_of_String_of_Z.
Qed.

Lemma append_cancel (s a b : string) : (s ++ a = s ++ b)%string -> a = b.
Proof.
  induction s as [|c s IH]; simpl; intro H; [exact H|].
  inversion H. auto.
Qed.

Lemma receipt_number_inj yr n m :
  receipt_number yr n = receipt_number yr m -> n = m.
Proof.
  unfold receipt_number. intro H.
  do 3 apply append_cancel in H.
  apply (f_equal serial_of) in H. rewrite !serial_of_padded in H.
  inversion H. lia.
Qed.

Lemma channel_receipt schema t h amt date m y st txn ref hn src receipt :
  receiptNumber (channel_payment schema t h amt date m y st txn ref hn src receipt)
  = Some receipt.
Proof. reflexivity. Qed.

(** X14.  The receipt number counts the records of the collection.  Two
    records that pay-bill creates in the same year carry the same
    receipt number exactly when the collection held equally many records
    at the two requests. *)
Theorem receipt_number_by_count schema houses tenants cfg
    now db b db1 r p now' db' b' db1' r' p' :
  paybill schema houses tenants cfg now db b = (db1, r) ->
  resp_payment r = Some p ->
  paybill schema houses tenants cfg now' db' b' = (db1', r') ->
  resp_payment r' = Some p' ->
  Js.getFullYear now' = Js.getFullYear now ->
  (receiptNumber p' = receiptNumber p <-> List.length db' = List.length db).
Proof.
  intros H Hp H' Hp' Hy.
  destruct (paybill_inv _ _ _ _ _ _ _ _ _ _ H Hp)
    as (acc & h & t & amt & _ & _ & _ & _ & -> & _).
  destruct (paybill_inv _ _ _ _ _ _ _ _ _ _ H' Hp')
    as (acc' & h' & t' & amt' & _ & _ & _ & _ & -> & _).
  rewrite !channel_receipt, Hy. split.
  - intro E. apply (receipt_number_inj (Js.getFullYear now)). congruence.
  - intros ->. reflexivity.
Qed.

Lemma receipt_number_by_count_witness :
  receiptNumber (nth 1 (fst (paybill spec_schema sample_houses sample_tenants None
                               march_11 [partial_march] paybill_102)) blank_payment)
  <> receiptNumber paid_march.
Proof.
  intro E.
  apply (receipt_number_by_count spec_schema sample_houses sample_tenants None
           march_1 [] paybill_body (fst after_paybill) (snd after_paybill) paid_march
           march_11 [partial_march] paybill_102
           (fst (paybill spec_schema sample_houses sample_tenants None
                   march_11 [partial_march] paybill_102))
           (snd (paybill spec_schema sample_houses sample_tenants None
                   march_11 [partial_march] paybill_102))
           _ eq_refl eq_refl eq_refl eq_refl eq_refl) in E.
  discriminate E.
Defined.

(** ** Deleting a record *)

Lemma remove_at_app {A : Type} (i : nat) (l : list A) (x : A) :
  (i < List.length l)%nat -> remove_at i (l ++ [x]) = remove_at i l ++ [x].
Proof.
  revert i. induction l as [|a l IH]; simpl; intros i Hi; [lia|].
  destruct i as [|i]; [reflexivity|]. simpl. rewrite IH by lia. reflexivity.
Qed.

Lemma remove_at_length {A : Type} (i : nat) (l : list A) :
  (i < List.length l)%nat -> S (List.length (remove_at i l)) = List.length l.
Proof.
  revert i. induction l as [|a l IH]; simpl; intros i Hi; [lia|].
  destruct i as [|i]; [reflexivity|]. simpl. rewrite IH by lia. reflexivity.
Qed.

(** X15.  After a deletion a receipt number is given out again.  Let
    pay-bill have created the record [p], let a superadmin then delete
    one of the records that were there before [p], and let pay-bill
    create a record [p'] later in the same year: the deletion answers
    200, the collection ends with [p] and [p'], and [p'] carries the
    receipt number of [p].  A user with another role is answered 403 by
    the deletion, and the collection stays as it is. *)
Theorem receipt_number_reused schema houses tenants cfg
    now db b db1 r p i now' b' db3 r' p' :
  paybill schema houses tenants cfg now db b = (db1, r) ->
  resp_payment r = Some p ->
  (i < List.length db)%nat ->
  Js.getFullYear now' = Js.getFullYear now ->
  paybill schema houses tenants cfg now'
    (fst (delete_payment "superadmin" db1 i)) b' = (db3, r') ->
  resp_payment r' = Some p' ->
  delete_payment "superadmin" db1 i = (remove_at i db ++ [p], 200%Z)
  /\ db3 = remove_at i db ++ [p; p']
  /\ receiptNumber p' = receiptNumber p
  /\ resp_receiptNumber r' = resp_receiptNumber r
  /\ receiptNumber p <> None
  /\ (forall role, role <> "superadmin"%string ->
        delete_payment role db1 i = (db1, 403%Z)).
Proof.
  intros H Hp Hi Hy H' Hp'.
  destruct (paybill_inv _ _ _ _ _ _ _ _ _ _ H Hp)
    as (acc & h & t & amt & _ & _ & _ & _ & Ep & -> & -> & _).
  assert (Hdel : delete_payment "superadmin" (db ++ [p]) i
                 = (remove_at i db ++ [p], 200%Z)).
  { unfold delete_payment. simpl.
    destruct (nth_error (db ++ [p]) i) eqn:E.
    - rewrite remove_at_app by exact Hi. reflexivity.
    - apply nth_error_None in E. rewrite length_app in E. simpl in E. lia. }
  rewrite Hdel in H'. simpl in H'.
  destruct (paybill_inv _ _ _ _ _ _ _ _ _ _ H' Hp')
    as (acc' & h' & t' & amt' & _ & _ & _ & _ & Ep' & -> & -> & _).
  assert (Hlen : List.length (remove_at i db ++ [p]) = List.length db).
  { rewrite length_app. simpl. pose proof (remove_at_length i db Hi). lia. }
  assert (Hr : receiptNumber p' = receiptNumber p).
  { rewrite Hlen, Hy in Ep'. rewrite Ep', Ep, !channel_receipt. reflexivity. }
  split; [exact Hdel|]. split; [rewrite <- app_assoc; reflexivity|].
  split; [exact Hr|]. split; [simpl; exact Hr|].
  split; [rewrite Ep, channel_receipt; discriminate|].
  intros role Hrole. unfold delete_payment.
  apply String.eqb_neq in Hrole. rewrite Hrole. reflexivity.
Qed.

Lemma receipt_number_reused_witness :
  exists p',
    fst (paybill spec_schema sample_houses sample_tenants None march_11
           (fst (delete_payment "superadmin" [partial_march; second_record] 0))
           paybill_102)
    = [second_record; p']
    /\ receiptNumber p' = Some "RCP-2024-000002"%string
    /\ receiptNumber second_record = Some "RCP-2024-000002"%string.
Proof.
  eexists.
  destruct (receipt_number_reused spec_schema sample_houses sample_tenants None
              march_1 [partial_march] paybill_body
              [partial_march; second_record]
              (snd (paybill spec_schema sample_houses sample_tenants None march_1
                      [partial_march] paybill_body))
              second_record 0%nat march_11 paybill_102
              (fst (paybill spec_schema sample_houses sample_tenants None march_11
                      (fst (delete_payment "superadmin" [partial_march; second_record] 0))
                      paybill_102))
              (snd (paybill spec_schema sample_houses sample_tenants None march_11
                      (fst (delete_payment "superadmin" [partial_march; second_record] 0))
                      paybill_102))
              _ eq_refl eq_refl (le_n 1) eq_refl eq_refl eq_refl)
    as (_ & Hdb & Hr & _).
  split; [exact Hdb|]. split; [rewrite Hr|]; reflexivity.
Defined.
